(** * Channel funding manager: a shallow embedding and its properties

    The development follows [fundingmanager.go] of package [lnd]: the
    persistent opening-state store, the reservation registry with its zombie
    sweep, the failure path [failFundingFlow], the responder-side checks of
    [handleFundingOpen], the PSBT branch of [handleFundingAccept], the node
    ordering of [newChanAnnouncement] and the confirmation wait with its
    block-height deadline.

    Conventions.  A Go unsigned integer of width [w] is a [Z] kept in
    [0, 2^w) by an explicit [uintN]; a byte slice is a [list Z] of bytes; Go
    maps are stdpp [gmap]s, except where the iteration order of a [range]
    matters, in which case the order is an explicit argument.  Pointers to
    reservation contexts are locations into a store, so that an update through
    one alias is seen through the registry. *)

From Stdlib Require Import ZArith Lia List String Ascii Bool.
From stdpp Require Import base gmap list strings fin_maps option.

Local Open Scope Z_scope.

(** ** Machine integers and byte strings *)

Definition uintN (w : Z) (v : Z) : Z := v mod 2 ^ w.
Definition uint8 := uintN 8.
Definition uint16 := uintN 16.
Definition uint32 := uintN 32.
Definition uint64 := uintN 64.

(** [byte(v)]: the low eight bits. *)
Definition byte (v : Z) : Z := Z.land v 255.

Abbreviation bytes := (list Z).

(** The [n] low bytes of [v], least significant first. *)
Fixpoint le_bytes (n : nat) (v : Z) : bytes :=
  match n with
  | O => []
  | S n' => byte v :: le_bytes n' (Z.shiftr v 8)
  end.

(** The value of a byte string read least significant byte first. *)
Fixpoint le_value (b : bytes) : Z :=
  match b with
  | [] => 0
  | x :: b' => Z.lor x (Z.shiftl (le_value b') 8)
  end.

(** [encoding/binary.ByteOrder] with its two implementations. *)
Inductive ByteOrder := BigEndian | LittleEndian.

Definition PutUint (n : nat) (bo : ByteOrder) (v : Z) : bytes :=
  match bo with
  | LittleEndian => le_bytes n v
  | BigEndian => rev (le_bytes n v)
  end.

(** Reading indexes the first [n] bytes of the slice and panics ([None]) on a
    shorter one. *)
Definition GetUint (n : nat) (bo : ByteOrder) (b : bytes) : option Z :=
  if decide (length b < n)%nat then None
  else Some (match bo with
             | LittleEndian => le_value (take n b)
             | BigEndian => le_value (rev (take n b))
             end).

Definition PutUint16 := PutUint 2.
Definition PutUint32 := PutUint 4.
Definition PutUint64 := PutUint 8.
Definition Uint16 := GetUint 2.
Definition Uint64 := GetUint 8.

(** The bytes of a Go string literal. *)
Fixpoint bytes_of_string (s : string) : bytes :=
  match s with
  | EmptyString => []
  | String a s' => Z.of_N (N_of_ascii a) :: bytes_of_string s'
  end.

(** ** Errors

    Go's [error] interface, by dynamic type.  The funding manager switches on
    exactly two types, [lnwallet.ReservationError] and [lnwire.FundingError];
    the PSBT marker [*lnwallet.PsbtFundingRequired] is tested with a type
    assertion.  Every other error is an [errors.New] value, known by its
    text, or the result of [fmt.Errorf] (or [errors.Errorf]), known by its
    format and its rendered arguments. *)

Inductive ReservationError :=
| ErrChanTooSmall (chanSize minChanSize : Z)
| ErrChanTooLarge (chanSize maxChanSize : Z)
| ErrNonZeroPushAmount
| ErrNumConfsTooLarge (numConfs maxNumConfs : Z)
| ReservationErrorOf (text : string).

Inductive FundingError :=
| ErrMaxPendingChannels
| ErrSynchronizingChain
| FundingErrorCode (code : Z).

(** [*lnwallet.PsbtFundingRequired] carries the funding intent, whose
    [FundingParams] gives the address, the amount and the draft packet (or
    fails) and whose packet serialises (or fails). *)
Inductive error :=
| EReservation (e : ReservationError)
| EFunding (e : FundingError)
| EPsbtFundingRequired (Intent : PsbtIntent)
| ENew (text : string)
| EFmt (format : string) (args : list string)
with PsbtIntent :=
| PsbtIntentOf (intentID : nat) (FundingParams : fundingParams)
with fundingParams :=
| FundingParamsErr (e : error)
| FundingParamsOk (addr : string) (amt : Z) (packet : psbtPacket)
with psbtPacket :=
| SerializeErr (e : error)
| SerializeOk (b : bytes).

Definition ErrChannelNotFound : error := EFmt "channel not found" [].
Definition ErrFundingManagerShuttingDown : error :=
  ENew "funding manager shutting down".
Definition ErrConfirmationTimeout : error :=
  ENew "timeout waiting for funding confirmation".

(** A call that returns a value or an error, or panics. *)
Inductive result (A : Type) :=
| Ok (a : A)
| Err (e : error)
| Panic.
Arguments Ok {A} a.
Arguments Err {A} e.
Arguments Panic {A}.

(** ** The key-value store

    [kvdb] as the funding manager uses it: named top-level buckets of
    key/value pairs, read and updated inside atomic transactions. *)

Abbreviation Bucket := (gmap bytes bytes).
Abbreviation DB := (gmap bytes Bucket).

Definition channelOpeningStateBucket : bytes :=
  bytes_of_string "channelOpeningState".

Module kvdb.

  (** [tx.CreateTopLevelBucket]: the bucket is created empty when absent. *)
Definition CreateTopLevelBucket (tx : DB) (name : bytes) : DB :=
    match tx !! name with
    | Some _ => tx
    | None => <[name := ∅]> tx
    end.

Definition ReadBucket (tx : DB) (name : bytes) : option Bucket := tx !! name.

  (** [bucket.Put] refuses an empty key. *)
Definition Put (tx : DB) (name key value : bytes) : error + DB :=
    match key with
    | [] => inl (ENew "key required")
    | _ =>
      match tx !! name with
      | Some b => inr (<[name := <[key := value]> b]> tx)
      | None => inl (ENew "bucket not found")
      end
    end.

Definition Get (b : Bucket) (key : bytes) : option bytes := b !! key.

Definition Delete (tx : DB) (name key : bytes) : error + DB :=
    match tx !! name with
    | Some b => inr (<[name := delete key b]> tx)
    | None => inl (ENew "bucket not found")
    end.

  (** [kvdb.Update]: the closure's writes are committed when it returns no
      error and dropped otherwise. *)
Definition Update (db : DB) (f : DB → error + DB) : DB * option error :=
    match f db with
    | inl e => (db, Some e)
    | inr db' => (db', None)
    end.

End kvdb.

(** ** Outpoints, short channel ids and opening states *)

Record OutPoint := { Hash : bytes; Index : Z }.

Definition wf_OutPoint (o : OutPoint) : Prop :=
  length (Hash o) = 32%nat ∧ 0 ≤ Index o < 2 ^ 32.

Record ShortChannelID :=
  { BlockHeight : Z; TxIndex : Z; TxPosition : Z }.

(** [type channelOpeningState uint8] with its three named constants. *)
Definition channelOpeningState := Z.
Definition markedOpen : channelOpeningState := 0.
Definition fundingLockedSent : channelOpeningState := 1.
Definition addedToRouterGraph : channelOpeningState := 2.

(** Modelled from the spec: [writeOutpoint] is not under src/.  The spec gives
    the key as the canonical serialised outpoint, the 32-byte hash followed by
    the 4-byte little-endian index. *)
Definition writeOutpoint (o : OutPoint) : bytes :=
  Hash o ++ le_bytes 4 (Index o).

(** The packing of a short channel id into a [uint64], as an example instance
    of [ShortChannelID.ToUint64] and [NewShortChanIDFromInt] (package [lnwire],
    not under src/): three bytes of block height, three of transaction index,
    two of output index. *)
Definition packShortChanID (c : ShortChannelID) : Z :=
  uint64 (Z.lor (Z.lor (Z.shiftl (BlockHeight c) 40) (Z.shiftl (TxIndex c) 16))
                (TxPosition c)).

Definition unpackShortChanID (v : Z) : ShortChannelID :=
  {| BlockHeight := uint32 (Z.shiftr v 40);
     TxIndex := Z.land (uint32 (Z.shiftr v 16)) 16777215;
     TxPosition := uint16 v |}.

(** ** The opening-state store *)

Section OpeningState.

  (** What the three functions take from outside src/: the package's byte
      order and the two conversions of [lnwire.ShortChannelID]. *)
Variable byteOrder : ByteOrder.
Variable ToUint64 : ShortChannelID → Z.
Variable NewShortChanIDFromInt : Z → ShortChannelID.

  (** The ten bytes stored for a state and a short channel id. *)
Definition openingStateValue (state : channelOpeningState)
      (shortChanID : ShortChannelID) : bytes :=
    PutUint16 byteOrder (uint16 state)
      ++ PutUint64 byteOrder (uint64 (ToUint64 shortChanID)).

Definition saveChannelOpeningState (db : DB) (chanPoint : OutPoint)
      (state : channelOpeningState) (shortChanID : ShortChannelID)
      : DB * option error :=
    kvdb.Update db (fun tx =>
      let tx := kvdb.CreateTopLevelBucket tx channelOpeningStateBucket in
      let outpointBytes := writeOutpoint chanPoint in
      let scratch := openingStateValue state shortChanID in
      kvdb.Put tx channelOpeningStateBucket outpointBytes scratch).

Definition getChannelOpeningState (db : DB) (chanPoint : OutPoint)
      : result (channelOpeningState * ShortChannelID) :=
    match kvdb.ReadBucket db channelOpeningStateBucket with
    | None => Err ErrChannelNotFound
    | Some bucket =>
      let outpointBytes := writeOutpoint chanPoint in
      match kvdb.Get bucket outpointBytes with
      | None => Err ErrChannelNotFound
      | Some value =>
        (* value[:2] and value[2:] need two bytes, Uint64 eight more *)
        match Uint16 byteOrder (take 2 value),
              Uint64 byteOrder (drop 2 value) with
        | Some st, Some id => Ok (uint8 st, NewShortChanIDFromInt id)
        | _, _ => Panic
        end
      end
    end.

Definition deleteChannelOpeningState (db : DB) (chanPoint : OutPoint)
      : DB * option error :=
    kvdb.Update db (fun tx =>
      match kvdb.ReadBucket tx channelOpeningStateBucket with
      | None => inl (EFmt "bucket not found" [])
      | Some _ =>
        let outpointBytes := writeOutpoint chanPoint in
        kvdb.Delete tx channelOpeningStateBucket outpointBytes
      end).

  (** Later traffic on the store: saves and deletes, each of which may fail. *)
Inductive storeOp :=
  | OpSave (o : OutPoint) (s : channelOpeningState) (c : ShortChannelID)
  | OpDelete (o : OutPoint).

Definition storeOp_target (op : storeOp) : OutPoint :=
    match op with OpSave o _ _ => o | OpDelete o => o end.

Definition run_storeOp (db : DB) (op : storeOp) : DB :=
    match op with
    | OpSave o s c => fst (saveChannelOpeningState db o s c)
    | OpDelete o => fst (deleteChannelOpeningState db o)
    end.

Definition run_storeOps (db : DB) (ops : list storeOp) : DB :=
    fold_left run_storeOp ops db.

End OpeningState.

(** ** Wire messages, wallet handles and peers *)

Inductive FeatureBit :=
| AnchorsOptional
| StaticRemoteKeyOptional
| UpfrontShutdownScriptOptional.

(** [*lnwire.FeatureVector], by its [HasFeature]. *)
Definition FeatureVector := FeatureBit → bool.

Inductive CommitmentType :=
| CommitmentTypeLegacy
| CommitmentTypeTweakless
| CommitmentTypeAnchors.

Module lnwire.

Record OpenChannel := {
    ChainHash : bytes;
    PendingChannelID : bytes;
    FundingAmount : Z;
    PushAmount : Z;
    DustLimit : Z;
    MaxValueInFlight : Z;
    ChannelReserve : Z;
    HtlcMinimum : Z;
    FeePerKiloWeight : Z;
    CsvDelay : Z;
    MaxAcceptedHTLCs : Z;
    FundingKey : bytes;
    RevocationPoint : bytes;
    PaymentPoint : bytes;
    DelayedPaymentPoint : bytes;
    HtlcPoint : bytes;
    FirstCommitmentPoint : bytes;
    ChannelFlags : Z;
    UpfrontShutdownScript : bytes
  }.

Record AcceptChannel := {
    aPendingChannelID : bytes;
    aDustLimit : Z;
    aMaxValueInFlight : Z;
    aChannelReserve : Z;
    aMinAcceptDepth : Z;
    aHtlcMinimum : Z;
    aCsvDelay : Z;
    aMaxAcceptedHTLCs : Z;
    aFundingKey : bytes;
    aRevocationPoint : bytes;
    aPaymentPoint : bytes;
    aDelayedPaymentPoint : bytes;
    aHtlcPoint : bytes;
    aFirstCommitmentPoint : bytes;
    aUpfrontShutdownScript : bytes
  }.

Record FundingCreated := {
    cPendingChannelID : bytes;
    cFundingPoint : OutPoint;
    cCommitSig : bytes
  }.

  (** [lnwire.Error]: the channel the error is for and its [ErrorData]. *)
Record Error := { ChanID : bytes; Data : string }.

Inductive Message :=
  | MsgOpenChannel (m : OpenChannel)
  | MsgAcceptChannel (m : AcceptChannel)
  | MsgFundingCreated (m : FundingCreated)
  | MsgError (m : Error).

End lnwire.

Module channeldb.

Record ChannelConstraints := {
    DustLimit : Z;
    ChanReserve : Z;
    MaxPendingAmount : Z;
    MinHTLC : Z;
    MaxAcceptedHtlcs : Z;
    CsvDelay : Z
  }.

Record ChannelConfig := {
    Constraints : ChannelConstraints;
    MultiSigKey : bytes;
    RevocationBasePoint : bytes;
    PaymentBasePoint : bytes;
    DelayBasePoint : bytes;
    HtlcBasePoint : bytes
  }.

  (** The fields of a database channel that the funding manager reads. *)
Record OpenChannel := {
    FundingOutpoint : OutPoint;
    IsPending : bool;
    IsInitiator : bool;
    ThawHeight : Z;
    FundingBroadcastHeight : Z;
    NumConfsRequired : Z
  }.

End channeldb.

Module lnwallet.

Record ChannelContribution := {
    FundingAmount : Z;
    FirstCommitmentPoint : bytes;
    ChannelConfig : channeldb.ChannelConfig;
    UpfrontShutdown : bytes
  }.

Record InitFundingReserveMsg := {
    ChainHash : bytes;
    PendingChanID : bytes;
    NodeID : bytes;
    NodeAddr : string;
    LocalFundingAmt : Z;
    RemoteFundingAmt : Z;
    CommitFeePerKw : Z;
    FundingFeePerKw : Z;
    PushMSat : Z;
    Flags : Z;
    MinConfs : Z;
    CommitType : CommitmentType
  }.

  (** [*lnwallet.ChannelReservation]: the wallet's handle, by what each of
      its methods answers. *)
Record ChannelReservation := {
    reservationID : nat;
    IsPsbt : bool;
    IsCannedShim : bool;
    Cancel : option error;
    CommitConstraints : channeldb.ChannelConstraints → Z → option error;
    ProcessSingleContribution : ChannelContribution → option error;
    ProcessContribution : ChannelContribution → option error;
    ProcessPsbt : option error;
    OurContribution : ChannelContribution;
    FundingOutpoint : OutPoint;
    OurSignatures : bytes
  }.

End lnwallet.

(** [lnpeer.Peer]. *)
Record Peer := {
  IdentityKey : bytes;
  Address : string;
  LocalFeatures : FeatureVector;
  RemoteFeatures : FeatureVector;
  SendMessage : bool → lnwire.Message → option error
}.

(** ** Time

    A [time.Time] is its distance in nanoseconds from the zero instant; a
    [time.Duration] is an [int64] of nanoseconds, and [Time.Sub] saturates. *)

Definition Time := Z.
Definition Duration := Z.
Definition IsZero (t : Time) : bool := t =? 0.

Definition maxDuration : Duration := 2 ^ 63 - 1.
Definition minDuration : Duration := - 2 ^ 63.

Definition Sub (t u : Time) : Duration :=
  if maxDuration <? t - u then maxDuration
  else if t - u <? minDuration then minDuration
  else t - u.

(** [time.Since(t)] at the instant [now]. *)
Definition Since (now t : Time) : Duration := Sub now t.

(** ** Reservation contexts and the manager's state *)

Definition loc := nat.

Record reservationWithCtx := {
  reservation : lnwallet.ChannelReservation;
  peer : Peer;
  chanAmt : Z;
  remoteCsvDelay : Z;
  remoteMinHtlc : Z;
  remoteMaxValue : Z;
  remoteMaxHtlcs : Z;
  maxLocalCsv : Z;
  lastUpdated : Time
}.

Definition isLocked (r : reservationWithCtx) : bool := IsZero (lastUpdated r).

Definition set_lastUpdated (t : Time) (r : reservationWithCtx)
    : reservationWithCtx :=
  {| reservation := reservation r; peer := peer r; chanAmt := chanAmt r;
     remoteCsvDelay := remoteCsvDelay r; remoteMinHtlc := remoteMinHtlc r;
     remoteMaxValue := remoteMaxValue r; remoteMaxHtlcs := remoteMaxHtlcs r;
     maxLocalCsv := maxLocalCsv r; lastUpdated := t |}.

(** [lnrpc.OpenStatusUpdate] with a [ReadyForPsbtFunding] payload. *)
Record PsbtFund := {
  PendingChanId : bytes;
  FundingAddress : string;
  PsbtFundingAmount : Z;
  Psbt : bytes
}.

(** What a handler does to the outside: messages to peers, sends on a
    context's channels, calls into the wallet, goroutines it starts. *)
Inductive event :=
| EvSendMessage (to : bytes) (sync : bool) (msg : lnwire.Message)
| EvErrChan (ctx : loc) (e : error)
| EvUpdatesChan (ctx : loc) (u : PsbtFund)
| EvRemoteCanceled (reservationID : nat)
| EvCancel (reservationID : nat)
| EvInitChannelReservation (req : lnwallet.InitFundingReserveMsg)
| EvSetNumConfsRequired (reservationID : nat) (n : Z)
| EvSetOurUpfrontShutdown (reservationID : nat) (script : bytes)
| EvGoWaitForPsbt (intent : PsbtIntent) (ctx : loc) (pendingChanID : bytes).

Record fundingConfig := {
  FetchOpenChannels : bytes → error + list channeldb.OpenChannel;
  IsSynced : error + bool;
  InitChannelReservation :
    lnwallet.InitFundingReserveMsg → error + lnwallet.ChannelReservation;
  NewAddressScript : error + bytes;
  OpenChannelPredicate : bytes → lnwire.OpenChannel → bool;
  NumRequiredConfs : Z → Z → Z;
  RequiredRemoteDelay : Z → Z;
  RequiredRemoteChanReserve : Z → Z → Z;
  RequiredRemoteMaxValue : Z → Z;
  RequiredRemoteMaxHTLCs : Z → Z;
  DefaultMinHtlcIn : Z;
  ReservationTimeout : Duration;
  MinChanSize : Z;
  MaxChanSize : Z;
  MaxPendingChannels : Z;
  RejectPush : bool;
  MaxLocalCSVDelay : Z;
  EnableUpfrontShutdown : bool
}.

Record fundingManager := {
  cfg : fundingConfig;
  activeReservations : gmap bytes (gmap bytes loc);
  signedReservations : gmap bytes bytes;
  newChanBarriers : gset bytes;
  ctxs : loc → reservationWithCtx;
  nextLoc : loc;
  trace : list event
}.

Definition with_trace (t : list event) (f : fundingManager) : fundingManager :=
  {| cfg := cfg f; activeReservations := activeReservations f;
     signedReservations := signedReservations f;
     newChanBarriers := newChanBarriers f; ctxs := ctxs f;
     nextLoc := nextLoc f; trace := t |}.

Definition with_activeReservations (m : gmap bytes (gmap bytes loc))
    (f : fundingManager) : fundingManager :=
  {| cfg := cfg f; activeReservations := m;
     signedReservations := signedReservations f;
     newChanBarriers := newChanBarriers f; ctxs := ctxs f;
     nextLoc := nextLoc f; trace := trace f |}.

Definition with_ctxs (h : loc → reservationWithCtx) (n : loc)
    (f : fundingManager) : fundingManager :=
  {| cfg := cfg f; activeReservations := activeReservations f;
     signedReservations := signedReservations f;
     newChanBarriers := newChanBarriers f; ctxs := h;
     nextLoc := n; trace := trace f |}.

Definition with_signed (sr : gmap bytes bytes) (nb : gset bytes)
    (f : fundingManager) : fundingManager :=
  {| cfg := cfg f; activeReservations := activeReservations f;
     signedReservations := sr; newChanBarriers := nb; ctxs := ctxs f;
     nextLoc := nextLoc f; trace := trace f |}.

(** Events are appended in the order in which they happen. *)
Definition emit (ev : event) (f : fundingManager) : fundingManager :=
  with_trace (trace f ++ [ev]) f.

(** A write through the pointer [l]. *)
Definition store (l : loc) (r : reservationWithCtx)
    (h : loc → reservationWithCtx) : loc → reservationWithCtx :=
  fun l' => if decide (l' = l) then r else h l'.

(** [r.updateTimestamp()] with [time.Now()] read as [now]. *)
Definition updateTimestamp (l : loc) (now : Time) (f : fundingManager)
    : fundingManager :=
  with_ctxs (store l (set_lastUpdated now (ctxs f l)) (ctxs f)) (nextLoc f) f.

(** [copy(dst[:], src)] into a zeroed array of [n] bytes. *)
Definition copyN (n : nat) (src : bytes) : bytes :=
  take n src ++ replicate (n - length src) 0.

(** [newSerializedKey], on the compressed serialisation of the key. *)
Definition newSerializedKey (pubKey : bytes) : bytes := copyN 33 pubKey.

(** The registry entry of a peer and a pending channel id. *)
Definition lookupReservation (f : fundingManager) (peerIDKey pendingChanID : bytes)
    : option loc :=
  activeReservations f !! peerIDKey ≫= fun m => m !! pendingChanID.

Section Manager.

  (** From outside src/: the [Error()] text of an error, the [%x] rendering
      of bytes, the order in which a [range] visits a map, the notifier's
      [chainntnfs.MaxNumConfs] and two conversions of [lnwire]. *)
Variable Error : error → string.
Variable hex : bytes → string.
Variable range : ∀ V : Type, gmap bytes V → list (bytes * V).
Variable MaxNumConfs : Z.
Variable NewChanIDFromOutPoint : OutPoint → bytes.
Variable NewSigFromSignature : bytes → error + bytes.

Definition Errorf (format : string) (args : list string) : error :=
    EFmt format args.

Definition cancelReservationCtx (peerKey pendingChanID : bytes)
      (byRemote : bool) (f : fundingManager)
      : option loc * option error * fundingManager :=
    let peerIDKey := newSerializedKey peerKey in
    match activeReservations f !! peerIDKey with
    | None =>
      (None, Some (Errorf "no active reservations for peer(%x)"
                          [hex peerIDKey]), f)
    | Some nodeReservations =>
      match nodeReservations !! pendingChanID with
      | None =>
        (None, Some (Errorf "unknown channel (id: %x) for peer(%x)"
                            [hex pendingChanID; hex peerIDKey]), f)
      | Some l =>
        let ctx := ctxs f l in
        let r := reservation ctx in
        let f := if lnwallet.IsPsbt r && byRemote
                 then emit (EvRemoteCanceled (lnwallet.reservationID r)) f
                 else f in
        let f := emit (EvCancel (lnwallet.reservationID r)) f in
        match lnwallet.Cancel r with
        | Some err =>
          (None, Some (Errorf "unable to cancel reservation: %v" [Error err]),
           f)
        | None =>
          let nodeReservations := delete pendingChanID nodeReservations in
          let m :=
            if decide (size nodeReservations = 0%nat)
            then delete peerIDKey (activeReservations f)
            else <[peerIDKey := nodeReservations]> (activeReservations f) in
          (Some l, None, with_activeReservations m f)
        end
      end
    end.

Definition getReservationCtx (peerKey pendingChanID : bytes)
      (f : fundingManager) : error + loc :=
    let peerIDKey := newSerializedKey peerKey in
    match lookupReservation f peerIDKey pendingChanID with
    | Some l => inr l
    | None => inl (Errorf "unknown channel (id: %x) for peer(%x)"
                          [hex pendingChanID; hex peerIDKey])
    end.

  (** The [ErrorData] sent to the peer for a funding error. *)
Definition errorData (fundingErr : error) : string :=
    match fundingErr with
    | EReservation _ => Error fundingErr
    | EFunding _ => Error fundingErr
    | _ => "funding failed due to internal error"
    end.

Definition failFundingFlow (peer : Peer) (tempChanID : bytes)
      (fundingErr : error) (f : fundingManager) : fundingManager :=
    let '(ctx, _, f) :=
      cancelReservationCtx (IdentityKey peer) tempChanID false f in
    let f := match ctx with
             | Some l => emit (EvErrChan l fundingErr) f
             | None => f
             end in
    let errMsg := {| lnwire.ChanID := tempChanID;
                     lnwire.Data := errorData fundingErr |} in
    emit (EvSendMessage (IdentityKey peer) false (lnwire.MsgError errMsg)) f.

  (** The first loop of [pruneZombieReservations]: the contexts put into
      [zombieReservations], a map keyed by pending channel id.  [now] is the
      [time.Now()] read when an entry is examined. *)
Definition isZombie (f : fundingManager) (now : Time) (l : loc) : bool :=
    let resCtx := ctxs f l in
    if isLocked resCtx then false
    else
      let sinceLastUpdate := Since now (lastUpdated resCtx) in
      let isExpired := ReservationTimeout (cfg f) <? sinceLastUpdate in
      negb (lnwallet.IsPsbt (reservation resCtx)) && isExpired.

Definition collectPeer (f : fundingManager) (now : bytes → bytes → Time)
      (peerIDKey : bytes) (pendingReservations : gmap bytes loc)
      (zombieReservations : gmap bytes loc) : gmap bytes loc :=
    fold_left
      (fun z '(pendingChanID, l) =>
         if isZombie f (now peerIDKey pendingChanID) l
         then <[pendingChanID := l]> z else z)
      (range loc pendingReservations) zombieReservations.

Definition zombieReservations (f : fundingManager)
      (now : bytes → bytes → Time) : gmap bytes loc :=
    fold_left
      (fun z '(peerIDKey, pendingReservations) =>
         collectPeer f now peerIDKey pendingReservations z)
      (range (gmap bytes loc) (activeReservations f)) ∅.

Definition pruneZombieReservations (now : bytes → bytes → Time)
      (f : fundingManager) : fundingManager :=
    fold_left
      (fun f '(pendingChanID, l) =>
         let resCtx := ctxs f l in
         let err := Errorf
           "reservation timed out waiting for peer (peer_id:%x, chan_id:%x)"
           [hex (IdentityKey (peer resCtx)); hex pendingChanID] in
         failFundingFlow (peer resCtx) pendingChanID err f)
      (range loc (zombieReservations f now)) f.

Definition commitmentType (localFeatures remoteFeatures : FeatureVector)
      : CommitmentType :=
    let localAnchors := localFeatures AnchorsOptional in
    let remoteAnchors := remoteFeatures AnchorsOptional in
    if localAnchors && remoteAnchors then CommitmentTypeAnchors
    else
      let localTweakless := localFeatures StaticRemoteKeyOptional in
      let remoteTweakless := remoteFeatures StaticRemoteKeyOptional in
      if localTweakless && remoteTweakless then CommitmentTypeTweakless
      else CommitmentTypeLegacy.

Definition errUpfrontShutdownScriptNotSupported : error :=
    ENew "peer does not supportoption upfront shutdown script".

Definition getUpfrontShutdownScript (enableUpfrontShutdown : bool)
      (peer : Peer) (script : bytes) (getScript : error + bytes)
      : error + bytes :=
    let remoteUpfrontShutdown :=
      RemoteFeatures peer UpfrontShutdownScriptOptional in
    if negb remoteUpfrontShutdown && negb (length script =? 0)%nat
    then inl errUpfrontShutdownScriptNotSupported
    else if negb remoteUpfrontShutdown then inr []
    else if (0 <? length script)%nat then inr script
    else if negb enableUpfrontShutdown then inr []
    else getScript.

  (** The number of pending channels [handleFundingOpen] counts for a peer:
      its reservations that are not canned shims, and its database channels
      that are pending with a zero thaw height. *)
Definition numPendingReservations (f : fundingManager) (peerIDKey : bytes)
      : Z :=
    let reservations := default ∅ (activeReservations f !! peerIDKey) in
    Z.of_nat (length (List.filter
      (fun '(_, l) => negb (lnwallet.IsCannedShim (reservation (ctxs f l))))
      (map_to_list reservations))).

Definition numPendingChannels (channels : list channeldb.OpenChannel) : Z :=
    Z.of_nat (length (List.filter
      (fun c => channeldb.IsPending c && (channeldb.ThawHeight c =? 0))
      channels)).

(** The rejections of [handleFundingOpen] that come before the wallet is
    asked for a reservation, in the order of the source: the database fetch,
    the pending-channel bound, the chain sync, the two bounds on the amount,
    the push amount and the acceptor.  [Some err] is the error the flow is
    failed with. *)
Definition checkFundingOpen (peer : Peer) (msg : lnwire.OpenChannel)
    (f : fundingManager) : option error :=
  let peerPubKey := IdentityKey peer in
  let peerIDKey := newSerializedKey peerPubKey in
  let amt := lnwire.FundingAmount msg in
  let numPending := numPendingReservations f peerIDKey in
  match FetchOpenChannels (cfg f) peerPubKey with
  | inl err => Some err
  | inr channels =>
  let numPending := numPending + numPendingChannels channels in
  if MaxPendingChannels (cfg f) <=? numPending
  then Some (EFunding ErrMaxPendingChannels)
  else
  match IsSynced (cfg f) with
  | inl _ | inr false => Some (EFunding ErrSynchronizingChain)
  | inr true =>
  if MaxChanSize (cfg f) <? amt
  then Some (EReservation (ErrChanTooLarge amt (MaxChanSize (cfg f))))
  else
  if amt <? MinChanSize (cfg f)
  then Some (EReservation (ErrChanTooSmall amt (MinChanSize (cfg f))))
  else
  if RejectPush (cfg f) && (0 <? lnwire.PushAmount msg)
  then Some (EReservation ErrNonZeroPushAmount)
  else
  if negb (OpenChannelPredicate (cfg f) (IdentityKey peer) msg)
  then Some (Errorf "open channel request rejected" [])
  else None
  end
  end.

Definition handleFundingOpen (now : Time) (peer : Peer)
    (msg : lnwire.OpenChannel) (f : fundingManager) : fundingManager :=
    let peerPubKey := IdentityKey peer in
    let peerIDKey := newSerializedKey peerPubKey in
    let amt := lnwire.FundingAmount msg in
    let pendingID := lnwire.PendingChannelID msg in
    match checkFundingOpen peer msg f with
    | Some err => failFundingFlow peer pendingID err f
    | None =>
    let commitType :=
      commitmentType (LocalFeatures peer) (RemoteFeatures peer) in
    let req :=
      {| lnwallet.ChainHash := lnwire.ChainHash msg;
         lnwallet.PendingChanID := pendingID;
         lnwallet.NodeID := IdentityKey peer;
         lnwallet.NodeAddr := Address peer;
         lnwallet.LocalFundingAmt := 0;
         lnwallet.RemoteFundingAmt := amt;
         lnwallet.CommitFeePerKw := lnwire.FeePerKiloWeight msg;
         lnwallet.FundingFeePerKw := 0;
         lnwallet.PushMSat := lnwire.PushAmount msg;
         lnwallet.Flags := lnwire.ChannelFlags msg;
         lnwallet.MinConfs := 1;
         lnwallet.CommitType := commitType |} in
    let f := emit (EvInitChannelReservation req) f in
    match InitChannelReservation (cfg f) req with
    | inl err => failFundingFlow peer pendingID err f
    | inr reservation =>
    let rid := lnwallet.reservationID reservation in
    let numConfsReq :=
      NumRequiredConfs (cfg f) (lnwire.FundingAmount msg)
                       (lnwire.PushAmount msg) in
    let f := emit (EvSetNumConfsRequired rid numConfsReq) f in
    let channelConstraints :=
      {| channeldb.DustLimit := lnwire.DustLimit msg;
         channeldb.ChanReserve := lnwire.ChannelReserve msg;
         channeldb.MaxPendingAmount := lnwire.MaxValueInFlight msg;
         channeldb.MinHTLC := lnwire.HtlcMinimum msg;
         channeldb.MaxAcceptedHtlcs := lnwire.MaxAcceptedHTLCs msg;
         channeldb.CsvDelay := lnwire.CsvDelay msg |} in
    match lnwallet.CommitConstraints reservation channelConstraints
            (MaxLocalCSVDelay (cfg f)) with
    | Some err => failFundingFlow peer pendingID err f
    | None =>
    match getUpfrontShutdownScript (EnableUpfrontShutdown (cfg f)) peer []
            (NewAddressScript (cfg f)) with
    | inl err =>
      failFundingFlow peer pendingID
        (Errorf "getUpfrontShutdownScript error: %v" [Error err]) f
    | inr shutdown =>
    let f := emit (EvSetOurUpfrontShutdown rid shutdown) f in
    let remoteCsvDelay := RequiredRemoteDelay (cfg f) amt in
    let chanReserve :=
      RequiredRemoteChanReserve (cfg f) amt (lnwire.DustLimit msg) in
    let remoteMaxValue := RequiredRemoteMaxValue (cfg f) amt in
    let maxHtlcs := RequiredRemoteMaxHTLCs (cfg f) amt in
    let minHtlc := DefaultMinHtlcIn (cfg f) in
    let nodeReservations := default ∅ (activeReservations f !! peerIDKey) in
    let resCtx :=
      {| reservation := reservation; peer := peer; chanAmt := amt;
         remoteCsvDelay := remoteCsvDelay; remoteMinHtlc := minHtlc;
         remoteMaxValue := remoteMaxValue; remoteMaxHtlcs := maxHtlcs;
         maxLocalCsv := MaxLocalCSVDelay (cfg f); lastUpdated := 0 |} in
    let l := nextLoc f in
    let f := with_ctxs (store l resCtx (ctxs f)) (S l) f in
    let f := with_activeReservations
               (<[peerIDKey := <[pendingID := l]> nodeReservations]>
                  (activeReservations f)) f in
    (* the deferred resCtx.updateTimestamp() closes every path below *)
    updateTimestamp l now
    (let remoteContribution :=
       {| lnwallet.FundingAmount := amt;
          lnwallet.FirstCommitmentPoint := lnwire.FirstCommitmentPoint msg;
          lnwallet.ChannelConfig :=
            {| channeldb.Constraints :=
                 {| channeldb.DustLimit := lnwire.DustLimit msg;
                    channeldb.MaxPendingAmount := remoteMaxValue;
                    channeldb.ChanReserve := chanReserve;
                    channeldb.MinHTLC := minHtlc;
                    channeldb.MaxAcceptedHtlcs := maxHtlcs;
                    channeldb.CsvDelay := remoteCsvDelay |};
               channeldb.MultiSigKey := lnwire.FundingKey msg;
               channeldb.RevocationBasePoint := lnwire.RevocationPoint msg;
               channeldb.PaymentBasePoint := lnwire.PaymentPoint msg;
               channeldb.DelayBasePoint := lnwire.DelayedPaymentPoint msg;
               channeldb.HtlcBasePoint := lnwire.HtlcPoint msg |};
          lnwallet.UpfrontShutdown := lnwire.UpfrontShutdownScript msg |} in
     match lnwallet.ProcessSingleContribution reservation
             remoteContribution with
     | Some err => failFundingFlow peer pendingID err f
     | None =>
     let ourContribution := lnwallet.OurContribution reservation in
     let ourConfig := lnwallet.ChannelConfig ourContribution in
     let fundingAccept :=
       {| lnwire.aPendingChannelID := pendingID;
          lnwire.aDustLimit :=
            channeldb.DustLimit (channeldb.Constraints ourConfig);
          lnwire.aMaxValueInFlight := remoteMaxValue;
          lnwire.aChannelReserve := chanReserve;
          lnwire.aMinAcceptDepth := uint32 numConfsReq;
          lnwire.aHtlcMinimum := minHtlc;
          lnwire.aCsvDelay := remoteCsvDelay;
          lnwire.aMaxAcceptedHTLCs := maxHtlcs;
          lnwire.aFundingKey := channeldb.MultiSigKey ourConfig;
          lnwire.aRevocationPoint := channeldb.RevocationBasePoint ourConfig;
          lnwire.aPaymentPoint := channeldb.PaymentBasePoint ourConfig;
          lnwire.aDelayedPaymentPoint := channeldb.DelayBasePoint ourConfig;
          lnwire.aHtlcPoint := channeldb.HtlcBasePoint ourConfig;
          lnwire.aFirstCommitmentPoint :=
            lnwallet.FirstCommitmentPoint ourContribution;
          lnwire.aUpfrontShutdownScript :=
            lnwallet.UpfrontShutdown ourContribution |} in
     let f := emit (EvSendMessage (IdentityKey peer) true
                      (lnwire.MsgAcceptChannel fundingAccept)) f in
     match SendMessage peer true (lnwire.MsgAcceptChannel fundingAccept) with
     | Some err => failFundingFlow peer pendingID err f
     | None => f
     end
     end)
    end
    end
    end
    end.

Definition continueFundingAccept (l : loc) (pendingChanID : bytes)
    (f : fundingManager) : fundingManager :=
  let resCtx := ctxs f l in
  let outPoint := lnwallet.FundingOutpoint (reservation resCtx) in
  let sig := lnwallet.OurSignatures (reservation resCtx) in
  let channelID := NewChanIDFromOutPoint outPoint in
  let f := with_signed (<[channelID := pendingChanID]> (signedReservations f))
                       ({[channelID]} ∪ newChanBarriers f) f in
  match NewSigFromSignature sig with
  | inl err => failFundingFlow (peer resCtx) pendingChanID err f
  | inr commitSig =>
    let fundingCreated :=
      {| lnwire.cPendingChannelID := pendingChanID;
         lnwire.cFundingPoint := outPoint;
         lnwire.cCommitSig := commitSig |} in
    let f := emit (EvSendMessage (IdentityKey (peer resCtx)) true
                     (lnwire.MsgFundingCreated fundingCreated)) f in
    match SendMessage (peer resCtx) true
            (lnwire.MsgFundingCreated fundingCreated) with
    | Some err => failFundingFlow (peer resCtx) pendingChanID err f
    | None => f
    end
  end.

Definition handleFundingAccept (now : Time) (peer : Peer)
    (msg : lnwire.AcceptChannel) (f : fundingManager) : fundingManager :=
  let pendingChanID := lnwire.aPendingChannelID msg in
  let peerKey := IdentityKey peer in
  match getReservationCtx peerKey pendingChanID f with
  | inl _ => f
  | inr l =>
  let resCtx := ctxs f l in
  let r := reservation resCtx in
  (* the deferred resCtx.updateTimestamp() closes every path below *)
  updateTimestamp l now
  (if MaxNumConfs <? lnwire.aMinAcceptDepth msg
   then failFundingFlow peer pendingChanID
          (EReservation
             (ErrNumConfsTooLarge (lnwire.aMinAcceptDepth msg) MaxNumConfs)) f
   else
   let f := emit (EvSetNumConfsRequired (lnwallet.reservationID r)
                    (uint16 (lnwire.aMinAcceptDepth msg))) f in
   let channelConstraints :=
     {| channeldb.DustLimit := lnwire.aDustLimit msg;
        channeldb.ChanReserve := lnwire.aChannelReserve msg;
        channeldb.MaxPendingAmount := lnwire.aMaxValueInFlight msg;
        channeldb.MinHTLC := lnwire.aHtlcMinimum msg;
        channeldb.MaxAcceptedHtlcs := lnwire.aMaxAcceptedHTLCs msg;
        channeldb.CsvDelay := lnwire.aCsvDelay msg |} in
   match lnwallet.CommitConstraints r channelConstraints
           (maxLocalCsv resCtx) with
   | Some err => failFundingFlow peer pendingChanID err f
   | None =>
   let chanReserve :=
     RequiredRemoteChanReserve (cfg f) (chanAmt resCtx)
                               (lnwire.aDustLimit msg) in
   let remoteContribution :=
     {| lnwallet.FundingAmount := 0;
        lnwallet.FirstCommitmentPoint := lnwire.aFirstCommitmentPoint msg;
        lnwallet.ChannelConfig :=
          {| channeldb.Constraints :=
               {| channeldb.DustLimit := lnwire.aDustLimit msg;
                  channeldb.MaxPendingAmount := remoteMaxValue resCtx;
                  channeldb.ChanReserve := chanReserve;
                  channeldb.MinHTLC := remoteMinHtlc resCtx;
                  channeldb.MaxAcceptedHtlcs := remoteMaxHtlcs resCtx;
                  channeldb.CsvDelay := remoteCsvDelay resCtx |};
             channeldb.MultiSigKey := lnwire.aFundingKey msg;
             channeldb.RevocationBasePoint := lnwire.aRevocationPoint msg;
             channeldb.PaymentBasePoint := lnwire.aPaymentPoint msg;
             channeldb.DelayBasePoint := lnwire.aDelayedPaymentPoint msg;
             channeldb.HtlcBasePoint := lnwire.aHtlcPoint msg |};
        lnwallet.UpfrontShutdown := lnwire.aUpfrontShutdownScript msg |} in
   match lnwallet.ProcessContribution r remoteContribution with
   | Some (EPsbtFundingRequired (PsbtIntentOf n params as psbtIntent)) =>
     match params with
     | FundingParamsErr err => failFundingFlow peer pendingChanID err f
     | FundingParamsOk _ _ (SerializeErr err) =>
       failFundingFlow peer pendingChanID err f
     | FundingParamsOk addr amt (SerializeOk buf) =>
       let f := emit (EvUpdatesChan l
                        {| PendingChanId := pendingChanID;
                           FundingAddress := addr;
                           PsbtFundingAmount := amt;
                           Psbt := buf |}) f in
       (* the flow is parked on intent.PsbtReady in its own goroutine *)
       emit (EvGoWaitForPsbt psbtIntent l pendingChanID) f
     end
   | Some err => failFundingFlow peer pendingChanID err f
   | None => continueFundingAccept l pendingChanID f
   end
   end)
  end.

End Manager.

(** ** Channel announcements *)

(** [bytes.Compare]: -1, 0 or 1 by lexicographic order. *)
Fixpoint bytes_Compare (a b : bytes) : Z :=
  match a, b with
  | [], [] => 0
  | [], _ :: _ => -1
  | _ :: _, [] => 1
  | x :: a', y :: b' =>
    if x <? y then -1 else if y <? x then 1 else bytes_Compare a' b'
  end.

Module announce.

Record ChannelAnnouncement := {
    aShortChannelID : ShortChannelID;
    Features : bytes;
    ChainHash : bytes;
    NodeID1 : bytes;
    NodeID2 : bytes;
    BitcoinKey1 : bytes;
    BitcoinKey2 : bytes
  }.

Record ChannelUpdate := {
    Signature : bytes;
    uShortChannelID : ShortChannelID;
    uChainHash : bytes;
    Timestamp : Z;
    MessageFlags : Z;
    ChannelFlags : Z;
    TimeLockDelta : Z;
    HtlcMinimumMsat : Z;
    HtlcMaximumMsat : Z;
    BaseFee : Z;
    FeeRate : Z
  }.

Record AnnounceSignatures := {
    ChannelID : bytes;
    pShortChannelID : ShortChannelID;
    NodeSignature : bytes;
    BitcoinSignature : bytes
  }.

Record chanAnnouncement := {
    chanAnn : ChannelAnnouncement;
    chanUpdateAnn : ChannelUpdate;
    chanProof : AnnounceSignatures
  }.

Record ForwardingPolicy := {
    pTimeLockDelta : Z;
    pBaseFee : Z;
    pFeeRate : Z
  }.

End announce.

Section Announcement.

(** From the configuration and from [lnwire]: the chain's genesis hash, our
    identity key, the signer, the default routing policy, the digests to
    sign, the signature conversion and the bit of the [max_htlc] option.
    [nowUnix] is [time.Now().Unix()]. *)
Variable Error : error → string.
Variable chainHash : bytes.
Variable IDKey : bytes.
Variable SignMessage : bytes → bytes → error + bytes.
Variable DefaultRoutingPolicy : announce.ForwardingPolicy.
Variable UpdateDataToSign : announce.ChannelUpdate → error + bytes.
Variable AnnDataToSign : announce.ChannelAnnouncement → error + bytes.
Variable NewSigFromSignature : bytes → error + bytes.
Variable NewRawFeatureVector : bytes.
Variable ChanUpdateOptionMaxHtlc : Z.
Variable nowUnix : Z.

Definition with_Signature (sig : bytes) (u : announce.ChannelUpdate)
    : announce.ChannelUpdate :=
  {| announce.Signature := sig;
     announce.uShortChannelID := announce.uShortChannelID u;
     announce.uChainHash := announce.uChainHash u;
     announce.Timestamp := announce.Timestamp u;
     announce.MessageFlags := announce.MessageFlags u;
     announce.ChannelFlags := announce.ChannelFlags u;
     announce.TimeLockDelta := announce.TimeLockDelta u;
     announce.HtlcMinimumMsat := announce.HtlcMinimumMsat u;
     announce.HtlcMaximumMsat := announce.HtlcMaximumMsat u;
     announce.BaseFee := announce.BaseFee u;
     announce.FeeRate := announce.FeeRate u |}.

(** Keys are given by their compressed serialisation. *)
Definition newChanAnnouncement
    (localPubKey remotePubKey localFundingKey remoteFundingKey : bytes)
    (shortChanID : ShortChannelID) (chanID : bytes)
    (fwdMinHTLC fwdMaxHTLC : Z) : error + announce.chanAnnouncement :=
  let selfBytes := localPubKey in
  let remoteBytes := remotePubKey in
  let first := bytes_Compare selfBytes remoteBytes =? -1 in
  let chanAnn :=
    if first
    then {| announce.aShortChannelID := shortChanID;
            announce.Features := NewRawFeatureVector;
            announce.ChainHash := chainHash;
            announce.NodeID1 := copyN 33 localPubKey;
            announce.NodeID2 := copyN 33 remotePubKey;
            announce.BitcoinKey1 := copyN 33 localFundingKey;
            announce.BitcoinKey2 := copyN 33 remoteFundingKey |}
    else {| announce.aShortChannelID := shortChanID;
            announce.Features := NewRawFeatureVector;
            announce.ChainHash := chainHash;
            announce.NodeID1 := copyN 33 remotePubKey;
            announce.NodeID2 := copyN 33 localPubKey;
            announce.BitcoinKey1 := copyN 33 remoteFundingKey;
            announce.BitcoinKey2 := copyN 33 localFundingKey |} in
  let chanFlags := if first then 0 else 1 in
  let msgFlags := ChanUpdateOptionMaxHtlc in
  let chanUpdateAnn :=
    {| announce.Signature := [];
       announce.uShortChannelID := shortChanID;
       announce.uChainHash := chainHash;
       announce.Timestamp := uint32 nowUnix;
       announce.MessageFlags := msgFlags;
       announce.ChannelFlags := chanFlags;
       announce.TimeLockDelta :=
         uint16 (announce.pTimeLockDelta DefaultRoutingPolicy);
       announce.HtlcMinimumMsat := fwdMinHTLC;
       announce.HtlcMaximumMsat := fwdMaxHTLC;
       announce.BaseFee := uint32 (announce.pBaseFee DefaultRoutingPolicy);
       announce.FeeRate := uint32 (announce.pFeeRate DefaultRoutingPolicy) |} in
  match UpdateDataToSign chanUpdateAnn with
  | inl err => inl err
  | inr chanUpdateMsg =>
  match SignMessage IDKey chanUpdateMsg with
  | inl err =>
    inl (EFmt "unable to generate channel update announcement signature: %v"
              [Error err])
  | inr sig =>
  match NewSigFromSignature sig with
  | inl err =>
    inl (EFmt "unable to generate channel update announcement signature: %v"
              [Error err])
  | inr updateSig =>
  let chanUpdateAnn := with_Signature updateSig chanUpdateAnn in
  match AnnDataToSign chanAnn with
  | inl err => inl err
  | inr chanAnnMsg =>
  match SignMessage IDKey chanAnnMsg with
  | inl err =>
    inl (EFmt "unable to generate node signature for channel announcement: %v"
              [Error err])
  | inr nodeSig =>
  match SignMessage localFundingKey chanAnnMsg with
  | inl err =>
    inl (EFmt "unable to generate bitcoin signature for node public key: %v"
              [Error err])
  | inr bitcoinSig =>
  match NewSigFromSignature nodeSig with
  | inl err => inl err
  | inr nodeSignature =>
  match NewSigFromSignature bitcoinSig with
  | inl err => inl err
  | inr bitcoinSignature =>
    inr {| announce.chanAnn := chanAnn;
           announce.chanUpdateAnn := chanUpdateAnn;
           announce.chanProof :=
             {| announce.ChannelID := chanID;
                announce.pShortChannelID := shortChanID;
                announce.NodeSignature := nodeSignature;
                announce.BitcoinSignature := bitcoinSignature |} |}
  end end end end end end end end.

End Announcement.

(** ** Waiting for the funding confirmation

    [waitForFundingWithTimeout] runs three goroutines: the waiter itself,
    blocked in its [select]; [waitForFundingConfirmation]; and, for a channel
    we did not initiate, [waitForTimeout].  They are modelled as one
    transition system: a state holds where each goroutine stands and the state
    of the channels between them, and a label names the step one goroutine
    takes, with what it receives from the notifier.  Any interleaving of the
    goroutines is a sequence of labels. *)

Definition maxWaitNumBlocksFundingConf : Z := 2016.

Record TxConfirmation := {
  confBlockHeight : Z;
  confTxIndex : Z;
  confTx : bytes
}.

Record confirmedChannel := {
  shortChanID : ShortChannelID;
  fundingTx : bytes
}.

(** The waiter: in its [select], or returned. *)
Inductive waiterState :=
| WaiterSelect
| WaiterReturned (r : error + confirmedChannel).

(** [waitForFundingConfirmation]: before registering with the notifier, in
    its first [select], offering the confirmed channel on [confChan], or
    returned. *)
Inductive confirmationState :=
| ConfStarting
| ConfSelect
| ConfSending (c : confirmedChannel)
| ConfReturned.

(** [waitForTimeout]: never started, before registering for block epochs, in
    its loop, or returned. *)
Inductive timeoutState :=
| TimeoutNotStarted
| TimeoutStarting
| TimeoutSelect
| TimeoutReturned.

(** [timeoutChan], of capacity one: empty, holding an error, or closed. *)
Inductive timeoutChanState :=
| TimeoutChanEmpty
| TimeoutChanErr (e : error)
| TimeoutChanClosed.

Record waitState := {
  waiter : waiterState;
  confirmation : confirmationState;
  timeout : timeoutState;
  confChanClosed : bool;
  timeoutChan : timeoutChanState;
  cancelChanClosed : bool;
  quit : bool
}.

Inductive label :=
| LQuit
| LConfScriptFails
| LConfRegisterFails
| LConfRegistered
| LConfirmed (d : TxConfirmation)
| LConfNtfnClosed
| LConfCanceled
| LConfQuit
| LTimeoutRegisterFails (e : error)
| LTimeoutRegistered
| LEpoch (height : Z)
| LEpochsClosed
| LTimeoutCanceled
| LTimeoutQuit
| LWaiterTimeout
| LWaiterQuit
| LWaiterConf.

Section ConfirmationWait.

Variable Error : error → string.
Variable ch : channeldb.OpenChannel.

Definition initWait : waitState :=
  {| waiter := WaiterSelect;
     confirmation := ConfStarting;
     timeout := if channeldb.IsInitiator ch
                then TimeoutNotStarted else TimeoutStarting;
     confChanClosed := false;
     timeoutChan := TimeoutChanEmpty;
     cancelChanClosed := false;
     quit := false |}.

(** [completeChan.FundingBroadcastHeight + maxWaitNumBlocksFundingConf], in
    [uint32]. *)
Definition maxHeight : Z :=
  uint32 (channeldb.FundingBroadcastHeight ch + maxWaitNumBlocksFundingConf).

Definition set_waiter (r : error + confirmedChannel) (s : waitState)
    : waitState :=
  {| waiter := WaiterReturned r;
     confirmation := confirmation s;
     timeout := timeout s;
     confChanClosed := confChanClosed s;
     timeoutChan := timeoutChan s;
     (* defer close(cancelChan) *)
     cancelChanClosed := true;
     quit := quit s |}.

Definition set_confirmation (c : confirmationState) (s : waitState)
    : waitState :=
  {| waiter := waiter s;
     confirmation := c;
     timeout := timeout s;
     (* defer close(confChan) *)
     confChanClosed :=
       match c with ConfReturned => true | _ => confChanClosed s end;
     timeoutChan := timeoutChan s;
     cancelChanClosed := cancelChanClosed s;
     quit := quit s |}.

Definition set_timeout (t : timeoutState) (c : timeoutChanState)
    (s : waitState) : waitState :=
  {| waiter := waiter s;
     confirmation := confirmation s;
     timeout := t;
     confChanClosed := confChanClosed s;
     timeoutChan := c;
     cancelChanClosed := cancelChanClosed s;
     quit := quit s |}.

Definition set_timeoutChan (c : timeoutChanState) (s : waitState)
    : waitState := set_timeout (timeout s) c s.

Definition set_quit (s : waitState) : waitState :=
  {| waiter := waiter s;
     confirmation := confirmation s;
     timeout := timeout s;
     confChanClosed := confChanClosed s;
     timeoutChan := timeoutChan s;
     cancelChanClosed := cancelChanClosed s;
     quit := true |}.

Definition confirmedChannelOf (d : TxConfirmation) : confirmedChannel :=
  {| shortChanID :=
       {| BlockHeight := confBlockHeight d;
          TxIndex := confTxIndex d;
          TxPosition := uint16 (Index (channeldb.FundingOutpoint ch)) |};
     fundingTx := confTx d |}.

Definition errWaitFailed : error :=
  EFmt "waiting for fundingconfirmation failed" [].

(** One step; [None] when the step is not enabled in the state. *)
Definition step (s : waitState) (l : label) : option waitState :=
  match l with
  | LQuit => Some (set_quit s)
  (* waitForFundingConfirmation *)
  | LConfScriptFails | LConfRegisterFails =>
    match confirmation s with
    | ConfStarting => Some (set_confirmation ConfReturned s)
    | _ => None
    end
  | LConfRegistered =>
    match confirmation s with
    | ConfStarting => Some (set_confirmation ConfSelect s)
    | _ => None
    end
  | LConfirmed d =>
    match confirmation s with
    | ConfSelect =>
      Some (set_confirmation (ConfSending (confirmedChannelOf d)) s)
    | _ => None
    end
  | LConfNtfnClosed =>
    match confirmation s with
    | ConfSelect => Some (set_confirmation ConfReturned s)
    | _ => None
    end
  | LConfCanceled =>
    match confirmation s with
    | ConfSelect =>
      if cancelChanClosed s then Some (set_confirmation ConfReturned s)
      else None
    | _ => None
    end
  | LConfQuit =>
    match confirmation s with
    | ConfSelect | ConfSending _ =>
      if quit s then Some (set_confirmation ConfReturned s) else None
    | _ => None
    end
  (* waitForTimeout *)
  | LTimeoutRegisterFails e =>
    match timeout s with
    | TimeoutStarting =>
      Some (set_timeout TimeoutReturned
              (TimeoutChanErr
                 (EFmt "unable to register for epoch notification: %v"
                       [Error e])) s)
    | _ => None
    end
  | LTimeoutRegistered =>
    match timeout s with
    | TimeoutStarting => Some (set_timeout TimeoutSelect (timeoutChan s) s)
    | _ => None
    end
  | LEpoch height =>
    match timeout s with
    | TimeoutSelect =>
      if maxHeight <=? uint32 height
      then Some (set_timeout TimeoutReturned TimeoutChanClosed s)
      else Some s
    | _ => None
    end
  | LEpochsClosed =>
    match timeout s with
    | TimeoutSelect =>
      Some (set_timeout TimeoutReturned
              (TimeoutChanErr (EFmt "epoch client shutting down" [])) s)
    | _ => None
    end
  | LTimeoutCanceled =>
    match timeout s with
    | TimeoutSelect =>
      if cancelChanClosed s
      then Some (set_timeout TimeoutReturned (timeoutChan s) s) else None
    | _ => None
    end
  | LTimeoutQuit =>
    match timeout s with
    | TimeoutSelect =>
      if quit s
      then Some (set_timeout TimeoutReturned (timeoutChan s) s) else None
    | _ => None
    end
  (* the select of waitForFundingWithTimeout *)
  | LWaiterTimeout =>
    match waiter s, timeoutChan s with
    | WaiterSelect, TimeoutChanErr e =>
      Some (set_waiter (inl e) (set_timeoutChan TimeoutChanEmpty s))
    | WaiterSelect, TimeoutChanClosed =>
      Some (set_waiter (inl ErrConfirmationTimeout) s)
    | _, _ => None
    end
  | LWaiterQuit =>
    match waiter s with
    | WaiterSelect =>
      if quit s then Some (set_waiter (inl ErrFundingManagerShuttingDown) s)
      else None
    | _ => None
    end
  | LWaiterConf =>
    match waiter s, confirmation s with
    | WaiterSelect, ConfSending c =>
      Some (set_waiter (inr c) (set_confirmation ConfReturned s))
    | WaiterSelect, _ =>
      if confChanClosed s then Some (set_waiter (inl errWaitFailed) s)
      else None
    | _, _ => None
    end
  end.

(** A run: the steps of a sequence of labels from a state. *)
Fixpoint run (s : waitState) (tr : list label) : option waitState :=
  match tr with
  | [] => Some s
  | l :: tr' =>
    match step s l with
    | Some s' => run s' tr'
    | None => None
    end
  end.

(** What [waitForFundingWithTimeout] returns after the run [tr], if it has
    returned. *)
Definition waitForFundingWithTimeout (tr : list label)
    : option (error + confirmedChannel) :=
  match run initWait tr with
  | Some s =>
    match waiter s with
    | WaiterReturned r => Some r
    | WaiterSelect => None
    end
  | None => None
  end.

(** A block epoch at or past the deadline is received by the watcher, and no
    confirmation has been received from the notifier before it. *)
Definition deadlineBeforeConfirmation (tr : list label) : Prop :=
  ∃ tr1 height tr2,
    tr = tr1 ++ LEpoch height :: tr2 ∧
    maxHeight ≤ uint32 height ∧
    ∀ d, LConfirmed d ∉ tr1.

End ConfirmationWait.

(** ** The opening sequence after confirmation

    [handleFundingConfirmation], [stateStep] and the loop of
    [advanceFundingState].  The steps that talk to the peer, the router and
    the gossiper are taken by what they return; what the manager calls is
    recorded in order. *)

Inductive openingAction :=
| ActValidateChannel
| ActMarkAsOpen (shortChanID : ShortChannelID)
| ActNotifyOpenChannelEvent (fundingPoint : OutPoint)
| ActReportShortChanID (fundingPoint : OutPoint)
| ActUpdateLabel (txid : bytes)
| ActCloseDiscoverySignal
| ActSendFundingLocked (shortChanID : ShortChannelID)
| ActAddToRouterGraph (shortChanID : ShortChannelID)
| ActChanOpenUpdate (pendingChanID : bytes) (fundingPoint : OutPoint)
| ActAnnAfterSixConfs (shortChanID : ShortChannelID).

(** The caller's [updateChan]: nil, a channel that takes the update, or one
    on which the send loses against the shutdown signal. *)
Inductive updateChanState :=
| UpdateChanNil
| UpdateChanTakes
| UpdateChanQuit.

Record openingEnv := {
  ValidateChannel : option error;
  MarkAsOpen : ShortChannelID → option error;
  ReportShortChanID : option error;
  HasFundingTx : bool;
  UpdateLabel : option error;
  hasDiscoverySignal : bool;
  sendFundingLocked : channeldb.OpenChannel → ShortChannelID → option error;
  addToRouterGraph : channeldb.OpenChannel → ShortChannelID → option error;
  annAfterSixConfs : channeldb.OpenChannel → ShortChannelID → option error;
  updateChan : updateChanState
}.

(** How the loop of [advanceFundingState] ends. *)
Inductive loopEnd :=
| LoopAnnounced
| LoopStopped (e : error)
| LoopPanicked
| LoopOutOfFuel.

Section OpeningSequence.

Variable byteOrder : ByteOrder.
Variable ToUint64 : ShortChannelID → Z.
Variable NewShortChanIDFromInt : Z → ShortChannelID.
Variable Error : error → string.
Variable env : openingEnv.

Definition handleFundingConfirmation (db : DB)
    (completeChan : channeldb.OpenChannel) (confChannel : confirmedChannel)
    : DB * list openingAction * option error :=
  let fundingPoint := channeldb.FundingOutpoint completeChan in
  match ValidateChannel env with
  | Some err =>
    (db, [ActValidateChannel],
     Some (EFmt "unable to validate channel: %v" [Error err]))
  | None =>
  match saveChannelOpeningState byteOrder ToUint64 db fundingPoint markedOpen
          (shortChanID confChannel) with
  | (db, Some err) =>
    (db, [ActValidateChannel],
     Some (EFmt "error setting channel state to markedOpen: %v" [Error err]))
  | (db, None) =>
  match MarkAsOpen env (shortChanID confChannel) with
  | Some err =>
    (db, [ActValidateChannel; ActMarkAsOpen (shortChanID confChannel)],
     Some (EFmt "error setting channel pending flag to false: %v"
                [Error err]))
  | None =>
    let acts :=
      [ActValidateChannel; ActMarkAsOpen (shortChanID confChannel);
       ActNotifyOpenChannelEvent fundingPoint;
       ActReportShortChanID fundingPoint] in
    let acts :=
      if channeldb.IsInitiator completeChan && HasFundingTx env
      then acts ++ [ActUpdateLabel (Hash fundingPoint)] else acts in
    let acts :=
      if hasDiscoverySignal env then acts ++ [ActCloseDiscoverySignal]
      else acts in
    (db, acts, None)
  end
  end
  end.

Definition stateStep (db : DB) (channel : channeldb.OpenChannel)
    (shortChanID : ShortChannelID) (pendingChanID : bytes)
    (channelState : channelOpeningState)
    : DB * list openingAction * option error :=
  let fundingPoint := channeldb.FundingOutpoint channel in
  if channelState =? markedOpen then
    match sendFundingLocked env channel shortChanID with
    | Some err =>
      (db, [ActSendFundingLocked shortChanID],
       Some (EFmt "failed sending fundingLocked: %v" [Error err]))
    | None =>
      match saveChannelOpeningState byteOrder ToUint64 db fundingPoint
              fundingLockedSent shortChanID with
      | (db, Some err) =>
        (db, [ActSendFundingLocked shortChanID],
         Some (EFmt "error setting channel state to fundingLockedSent: %v"
                    [Error err]))
      | (db, None) => (db, [ActSendFundingLocked shortChanID], None)
      end
    end
  else if channelState =? fundingLockedSent then
    match addToRouterGraph env channel shortChanID with
    | Some err =>
      (db, [ActAddToRouterGraph shortChanID],
       Some (EFmt "failed adding to router graph: %v" [Error err]))
    | None =>
      match saveChannelOpeningState byteOrder ToUint64 db fundingPoint
              addedToRouterGraph shortChanID with
      | (db, Some err) =>
        (db, [ActAddToRouterGraph shortChanID],
         Some (EFmt "error setting channel state to addedToRouterGraph: %v"
                    [Error err]))
      | (db, None) =>
        match updateChan env with
        | UpdateChanNil => (db, [ActAddToRouterGraph shortChanID], None)
        | UpdateChanTakes =>
          (db, [ActAddToRouterGraph shortChanID;
                ActChanOpenUpdate pendingChanID fundingPoint], None)
        | UpdateChanQuit =>
          (db, [ActAddToRouterGraph shortChanID],
           Some ErrFundingManagerShuttingDown)
        end
      end
    end
  else if channelState =? addedToRouterGraph then
    match annAfterSixConfs env channel shortChanID with
    | Some err =>
      (db, [ActAnnAfterSixConfs shortChanID],
       Some (EFmt "error sending channel announcement: %v" [Error err]))
    | None =>
      match deleteChannelOpeningState db fundingPoint with
      | (db, Some err) =>
        (db, [ActAnnAfterSixConfs shortChanID],
         Some (EFmt "error deleting channel state: %v" [Error err]))
      | (db, None) => (db, [ActAnnAfterSixConfs shortChanID], None)
      end
    end
  else
    (db, [], Some (EFmt "undefined channelState: %v" [])).

(** The loop of [advanceFundingState]: read the opening state, stop when the
    record is gone or the read fails, else take one step and stop when it
    fails.  [fuel] bounds the number of rounds. *)
Fixpoint advanceLoop (fuel : nat) (db : DB) (channel : channeldb.OpenChannel)
    (pendingChanID : bytes) : DB * list openingAction * loopEnd :=
  match fuel with
  | O => (db, [], LoopOutOfFuel)
  | S fuel' =>
    match getChannelOpeningState byteOrder NewShortChanIDFromInt db
            (channeldb.FundingOutpoint channel) with
    | Panic => (db, [], LoopPanicked)
    | Err (EFmt "channel not found" []) => (db, [], LoopAnnounced)
    | Err err => (db, [], LoopStopped err)
    | Ok (channelState, shortChanID) =>
      match stateStep db channel shortChanID pendingChanID channelState with
      | (db, acts, Some err) => (db, acts, LoopStopped err)
      | (db, acts, None) =>
        let '(db, acts', e) :=
          advanceLoop fuel' db channel pendingChanID in
        (db, acts ++ acts', e)
      end
    end
  end.

End OpeningSequence.

(** ** The registry of reservation contexts

    The other readers and writers of [activeReservations], and the handler of
    an [Error] message of the peer.  From outside src/: the [Error()] text of
    an [lnwire.Error] and [chanfunding.ErrRemoteCanceled]. *)

Section Registry.

Variable Error : error → string.
Variable hex : bytes → string.
Variable range : ∀ V : Type, gmap bytes V → list (bytes * V).
Variable msgError : lnwire.Error → string.
Variable ErrRemoteCanceled : error.

Definition deleteReservationCtx (peerKey pendingChanID : bytes)
    (f : fundingManager) : fundingManager :=
  let peerIDKey := newSerializedKey peerKey in
  match activeReservations f !! peerIDKey with
  | None => f
  | Some nodeReservations =>
    let nodeReservations := delete pendingChanID nodeReservations in
    let m :=
      if decide (size nodeReservations = 0%nat)
      then delete peerIDKey (activeReservations f)
      else <[peerIDKey := nodeReservations]> (activeReservations f) in
    with_activeReservations m f
  end.

Definition IsPendingChannel (pendingChanID : bytes) (peer : Peer)
    (f : fundingManager) : bool :=
  let peerIDKey := newSerializedKey (IdentityKey peer) in
  match lookupReservation f peerIDKey pendingChanID with
  | Some _ => true
  | None => false
  end.

(** [CancelPeerReservations]: every context of the node is cancelled in the
    wallet (a failure is only logged) and told "peer disconnected"; the
    entries deleted one by one from the node's map go with the map, which is
    deleted last. *)
Definition CancelPeerReservations (nodePub : bytes) (f : fundingManager)
    : fundingManager :=
  match activeReservations f !! nodePub with
  | None => f
  | Some nodeReservations =>
    let f :=
      fold_left
        (fun f '(pendingID, l) =>
           let resCtx := ctxs f l in
           let f :=
             emit (EvCancel (lnwallet.reservationID (reservation resCtx))) f in
           emit (EvErrChan l (Errorf "peer disconnected" [])) f)
        (range loc nodeReservations) f in
    with_activeReservations (delete nodePub (activeReservations f)) f
  end.

(** [handleErrorMsg].  [cancelReservationCtx] returns a context exactly when
    it returns no error, so the last branch is never taken. *)
Definition handleErrorMsg (peer : Peer) (msg : lnwire.Error)
    (f : fundingManager) : fundingManager :=
  let chanID := lnwire.ChanID msg in
  let peerKey := IdentityKey peer in
  let '(resCtx, err, f) := cancelReservationCtx Error hex peerKey chanID true f in
  match err, resCtx with
  | Some _, _ => f
  | None, Some l =>
    let fundingErr :=
      Errorf "received funding error from %x: %v"
             [hex peerKey; msgError msg] in
    let fundingErr :=
      if lnwallet.IsPsbt (reservation (ctxs f l))
      then Errorf "%w: %v" [Error ErrRemoteCanceled; Error fundingErr]
      else fundingErr in
    emit (EvErrChan l fundingErr) f
  | None, None => f
  end.

End Registry.

(** ** A funding flow opened locally

    [handleInitFundingMsg].  [openChanReq] is declared outside src/: the
    record has the fields the handler reads, the channel funder as an opaque
    handle.  The [updates] and [err] channels of the request become those of
    the context; the error the handler sends on [err] is returned with the
    manager.  Also from outside src/: the fee estimator, the dust limit of
    the primary chain, the genesis hash of the wallet's network, the flag
    [lnwire.FFAnnounceChannel], the capacity of a reservation, the id that
    [nextPendingChanID] gives, and the wallet's [InitChannelReservation] on
    the whole request. *)

Module funding.

Record openChanReq := {
  chainHash : bytes;
  localFundingAmt : Z;
  pushAmt : Z;
  subtractFees : bool;
  fundingFeePerKw : Z;
  private : bool;
  minHtlcIn : Z;
  remoteCsvDelay : Z;
  maxValueInFlight : Z;
  maxHtlcs : Z;
  maxLocalCsv : Z;
  minConfs : Z;
  shutdownScript : bytes;
  pendingChanID : bytes;
  chanFunder : option nat
}.

Record initFundingMsg := {
  peer : Peer;
  req : openChanReq
}.

(** [lnwallet.InitFundingReserveMsg] with the two fields only a local
    request sets. *)
Record InitFundingReserveMsg := {
  base : lnwallet.InitFundingReserveMsg;
  SubtractFees : bool;
  ChanFunder : option nat
}.

End funding.

Definition zeroID : bytes := replicate 32 0.

Section InitFunding.

Variable Error : error → string.
Variable hex : bytes → string.
Variable EstimateFeePerKW : Z → error + Z.
Variable ourDustLimit : Z.
Variable GenesisHash : bytes.
Variable FFAnnounceChannel : Z.
Variable Capacity : lnwallet.ChannelReservation → Z.
Variable nextPendingChanID : bytes.
Variable InitChannelReservation :
  funding.InitFundingReserveMsg → error + lnwallet.ChannelReservation.

Definition handleInitFundingMsg (now : Time) (msg : funding.initFundingMsg)
    (f : fundingManager) : option error * fundingManager :=
  let r := funding.req msg in
  let peerKey := IdentityKey (funding.peer msg) in
  let localAmt := funding.localFundingAmt r in
  let minHtlcIn := funding.minHtlcIn r in
  let remoteCsvDelay := funding.remoteCsvDelay r in
  let maxValue := funding.maxValueInFlight r in
  let maxHtlcs := funding.maxHtlcs r in
  let maxCSV := funding.maxLocalCsv r in
  let maxCSV := if maxCSV =? 0 then MaxLocalCSVDelay (cfg f) else maxCSV in
  match EstimateFeePerKW 3 with
  | inl err => (Some err, f)
  | inr commitFeePerKw =>
  let channelFlags := if negb (funding.private r) then FFAnnounceChannel else 0 in
  let chosen :=
    if decide (funding.pendingChanID r = zeroID) then inr nextPendingChanID
    else
      let chanID := funding.pendingChanID r in
      match getReservationCtx hex peerKey chanID f with
      | inr _ =>
        inl (Errorf "pendingChannelID(%x) already present" [hex chanID])
      | inl _ => inr chanID
      end in
  match chosen with
  | inl err => (Some err, f)
  | inr chanID =>
  match getUpfrontShutdownScript (EnableUpfrontShutdown (cfg f))
          (funding.peer msg) (funding.shutdownScript r)
          (NewAddressScript (cfg f)) with
  | inl err => (Some err, f)
  | inr shutdown =>
  let commitType :=
    commitmentType (LocalFeatures (funding.peer msg))
                   (RemoteFeatures (funding.peer msg)) in
  let req :=
    {| funding.base :=
         {| lnwallet.ChainHash := funding.chainHash r;
            lnwallet.PendingChanID := chanID;
            lnwallet.NodeID := peerKey;
            lnwallet.NodeAddr := Address (funding.peer msg);
            lnwallet.LocalFundingAmt := localAmt;
            lnwallet.RemoteFundingAmt := 0;
            lnwallet.CommitFeePerKw := commitFeePerKw;
            lnwallet.FundingFeePerKw := funding.fundingFeePerKw r;
            lnwallet.PushMSat := funding.pushAmt r;
            lnwallet.Flags := channelFlags;
            lnwallet.MinConfs := funding.minConfs r;
            lnwallet.CommitType := commitType |};
       funding.SubtractFees := funding.subtractFees r;
       funding.ChanFunder := funding.chanFunder r |} in
  let f := emit (EvInitChannelReservation (funding.base req)) f in
  match InitChannelReservation req with
  | inl err => (Some err, f)
  | inr reservation =>
  let rid := lnwallet.reservationID reservation in
  let f := emit (EvSetOurUpfrontShutdown rid shutdown) f in
  let capacity := Capacity reservation in
  let remoteCsvDelay :=
    if remoteCsvDelay =? 0 then RequiredRemoteDelay (cfg f) capacity
    else remoteCsvDelay in
  let minHtlcIn :=
    if minHtlcIn =? 0 then DefaultMinHtlcIn (cfg f) else minHtlcIn in
  let maxValue :=
    if maxValue =? 0 then RequiredRemoteMaxValue (cfg f) capacity
    else maxValue in
  let maxHtlcs :=
    if maxHtlcs =? 0 then RequiredRemoteMaxHTLCs (cfg f) capacity
    else maxHtlcs in
  let peerIDKey := newSerializedKey peerKey in
  let nodeReservations := default ∅ (activeReservations f !! peerIDKey) in
  let resCtx :=
    {| reservation := reservation; peer := funding.peer msg;
       chanAmt := capacity;
       remoteCsvDelay := remoteCsvDelay; remoteMinHtlc := minHtlcIn;
       remoteMaxValue := maxValue; remoteMaxHtlcs := maxHtlcs;
       maxLocalCsv := maxCSV; lastUpdated := 0 |} in
  let l := nextLoc f in
  let f := with_ctxs (store l resCtx (ctxs f)) (S l) f in
  let f := with_activeReservations
             (<[peerIDKey := <[chanID := l]> nodeReservations]>
                (activeReservations f)) f in
  let ourContribution := lnwallet.OurContribution reservation in
  let ourConfig := lnwallet.ChannelConfig ourContribution in
  let chanReserve :=
    RequiredRemoteChanReserve (cfg f) capacity ourDustLimit in
  let fundingOpen :=
    {| lnwire.ChainHash := GenesisHash;
       lnwire.PendingChannelID := chanID;
       lnwire.FundingAmount := capacity;
       lnwire.PushAmount := funding.pushAmt r;
       lnwire.DustLimit :=
         channeldb.DustLimit (channeldb.Constraints ourConfig);
       lnwire.MaxValueInFlight := maxValue;
       lnwire.ChannelReserve := chanReserve;
       lnwire.HtlcMinimum := minHtlcIn;
       lnwire.FeePerKiloWeight := uint32 commitFeePerKw;
       lnwire.CsvDelay := remoteCsvDelay;
       lnwire.MaxAcceptedHTLCs := maxHtlcs;
       lnwire.FundingKey := channeldb.MultiSigKey ourConfig;
       lnwire.RevocationPoint := channeldb.RevocationBasePoint ourConfig;
       lnwire.PaymentPoint := channeldb.PaymentBasePoint ourConfig;
       lnwire.DelayedPaymentPoint := channeldb.DelayBasePoint ourConfig;
       lnwire.HtlcPoint := channeldb.HtlcBasePoint ourConfig;
       lnwire.FirstCommitmentPoint :=
         lnwallet.FirstCommitmentPoint ourContribution;
       lnwire.ChannelFlags := channelFlags;
       lnwire.UpfrontShutdownScript := shutdown |} in
  let f := emit (EvSendMessage peerKey true
                   (lnwire.MsgOpenChannel fundingOpen)) f in
  (* the deferred resCtx.updateTimestamp() closes both paths below *)
  match SendMessage (funding.peer msg) true
          (lnwire.MsgOpenChannel fundingOpen) with
  | Some err =>
    let e := Errorf "unable to send funding request message: %v"
                    [Error err] in
    let '(_, _, f) := cancelReservationCtx Error hex peerKey chanID false f in
    (Some e, updateTimestamp l now f)
  | None => (None, updateTimestamp l now f)
  end
  end
  end
  end
  end.

End InitFunding.

(** ** Adding the channel to the router's graph

    [addToRouterGraph].  The fields of the database channel it reads that
    [channeldb.OpenChannel] above does not have are taken as functions of
    the channel.  A call of [SendAnnouncement] is taken by what the [select]
    on its error channel and on [quit] receives; what is handed to the
    gossiper is returned with the error. *)

Inductive gossipMsg :=
| GossipChannelAnnouncement (a : announce.ChannelAnnouncement)
    (capacity : Z) (chanPoint : OutPoint)
| GossipChannelUpdate (u : announce.ChannelUpdate).

Inductive sendOutcome :=
| SendAnswered (e : option error)
| SendQuit.

Module router.

Section RouterGraph.

Variable Error : error → string.
Variable chainHash : bytes.
Variable IDKey : bytes.
Variable SignMessage : bytes → bytes → error + bytes.
Variable DefaultRoutingPolicy : announce.ForwardingPolicy.
Variable UpdateDataToSign : announce.ChannelUpdate → error + bytes.
Variable AnnDataToSign : announce.ChannelAnnouncement → error + bytes.
Variable NewSigFromSignature : bytes → error + bytes.
Variable NewRawFeatureVector : bytes.
Variable ChanUpdateOptionMaxHtlc : Z.
Variable nowUnix : Z.
Variable NewChanIDFromOutPoint : OutPoint → bytes.
Variable NewMSatFromSatoshis : Z → Z.
Variable MinHTLCOut : Z.
Variable IdentityPub : channeldb.OpenChannel → bytes.
Variable LocalChanCfg : channeldb.OpenChannel → channeldb.ChannelConfig.
Variable RemoteChanCfg : channeldb.OpenChannel → channeldb.ChannelConfig.
Variable Capacity : channeldb.OpenChannel → Z.
Variable IsOutdatedOrIgnored : error → bool.
Variable annOutcome : sendOutcome.
Variable updateOutcome : sendOutcome.

Definition addToRouterGraph (completeChan : channeldb.OpenChannel)
    (shortChanID : ShortChannelID) : list gossipMsg * option error :=
  let chanID :=
    NewChanIDFromOutPoint (channeldb.FundingOutpoint completeChan) in
  let fwdMinHTLC :=
    channeldb.MinHTLC (channeldb.Constraints (LocalChanCfg completeChan)) in
  let fwdMinHTLC :=
    if fwdMinHTLC <? MinHTLCOut then MinHTLCOut else fwdMinHTLC in
  let fwdMaxHTLC :=
    channeldb.MaxPendingAmount
      (channeldb.Constraints (LocalChanCfg completeChan)) in
  let capacityMSat := NewMSatFromSatoshis (Capacity completeChan) in
  let fwdMaxHTLC :=
    if capacityMSat <? fwdMaxHTLC then capacityMSat else fwdMaxHTLC in
  match newChanAnnouncement Error chainHash IDKey SignMessage
          DefaultRoutingPolicy UpdateDataToSign AnnDataToSign
          NewSigFromSignature NewRawFeatureVector ChanUpdateOptionMaxHtlc
          nowUnix IDKey (IdentityPub completeChan)
          (channeldb.MultiSigKey (LocalChanCfg completeChan))
          (channeldb.MultiSigKey (RemoteChanCfg completeChan))
          shortChanID chanID fwdMinHTLC fwdMaxHTLC with
  | inl err =>
    ([], Some (EFmt "error generating channel announcement: %v" [Error err]))
  | inr ann =>
    let sent :=
      [GossipChannelAnnouncement (announce.chanAnn ann)
         (Capacity completeChan) (channeldb.FundingOutpoint completeChan)] in
    let rejected (o : option error) : option error :=
      match o with
      | Some err => if IsOutdatedOrIgnored err then None else Some err
      | None => None
      end in
    match annOutcome with
    | SendQuit => (sent, Some ErrFundingManagerShuttingDown)
    | SendAnswered o =>
      match rejected o with
      | Some err =>
        (sent,
         Some (EFmt "error sending channel announcement: %v" [Error err]))
      | None =>
        let sent :=
          sent ++ [GossipChannelUpdate (announce.chanUpdateAnn ann)] in
        match updateOutcome with
        | SendQuit => (sent, Some ErrFundingManagerShuttingDown)
        | SendAnswered o =>
          match rejected o with
          | Some err =>
            (sent,
             Some (EFmt "error sending channel update: %v" [Error err]))
          | None => (sent, None)
          end
        end
      end
    end
  end.

End RouterGraph.

End router.

(** ** Auxiliary definitions for the statements *)

(** The record stored for an outpoint, if any. *)
Definition storedRecord (db : DB) (o : OutPoint) : option bytes :=
  db !! channelOpeningStateBucket ≫= fun b => b !! writeOutpoint o.

(** ** Concrete inputs *)

Definition exampleOutPoint : OutPoint :=
  {| Hash := replicate 32 7; Index := 1 |}.

Definition otherOutPoint : OutPoint :=
  {| Hash := replicate 32 7; Index := 2 |}.

Definition exampleShortChanID : ShortChannelID :=
  {| BlockHeight := 600000; TxIndex := 1234; TxPosition := 1 |}.

Definition exampleStoreOps : list storeOp :=
  [OpSave otherOutPoint markedOpen exampleShortChanID; OpDelete otherOutPoint].

Definition exampleSavedDB : DB :=
  fst (saveChannelOpeningState BigEndian packShortChanID ∅ exampleOutPoint
         fundingLockedSent exampleShortChanID).

(** The layout the specification gives for a stored record: the state in two
    little-endian bytes, then the packed short channel id in eight big-endian
    bytes. *)
Definition mixedEndianValue (state packed : Z) : bytes :=
  le_bytes 2 state ++ rev (le_bytes 8 packed).

(** Lexicographic order on byte strings. *)
Inductive lex_lt : bytes → bytes → Prop :=
| lex_lt_nil (y : Z) (b : bytes) : lex_lt [] (y :: b)
| lex_lt_head (x y : Z) (a b : bytes) : x < y → lex_lt (x :: a) (y :: b)
| lex_lt_tail (x : Z) (a b : bytes) : lex_lt a b → lex_lt (x :: a) (x :: b).

Definition exampleLocalKey : bytes := 3 :: replicate 32 1.
Definition exampleRemoteKey : bytes := 2 :: replicate 32 1.
Definition exampleFundingKey : bytes := 2 :: replicate 32 5.

Definition examplePolicy : announce.ForwardingPolicy :=
  {| announce.pTimeLockDelta := 40;
     announce.pBaseFee := 1000;
     announce.pFeeRate := 1 |}.

(** An announcement built with a signer that always signs. *)
Definition exampleAnnouncement : error + announce.chanAnnouncement :=
  newChanAnnouncement (fun _ => "error"%string) (replicate 32 0)
    exampleLocalKey (fun _ m => inr m) examplePolicy
    (fun _ => inr [1]) (fun _ => inr [2]) inr [] 1 1600000000
    exampleLocalKey exampleRemoteKey exampleFundingKey exampleFundingKey
    exampleShortChanID (replicate 32 9) 1000 990000000.

(** The errors whose text [failFundingFlow] sends to the peer. *)
Definition isWhitelisted (err : error) : bool :=
  match err with
  | EReservation _ | EFunding _ => true
  | _ => false
  end.

(** What [failFundingFlow] does before it sends the [Error] message: nothing
    when no context is registered, the wallet's [Cancel] when one is, and the
    send on the context's error channel when the cancel went through. *)
Definition failFlowPrefix (peerKey tempChanID : bytes) (fundingErr : error)
    (f : fundingManager) : list event :=
  match lookupReservation f (newSerializedKey peerKey) tempChanID with
  | None => []
  | Some l =>
    let r := reservation (ctxs f l) in
    match lnwallet.Cancel r with
    | Some _ => [EvCancel (lnwallet.reservationID r)]
    | None => [EvCancel (lnwallet.reservationID r); EvErrChan l fundingErr]
    end
  end.

Definition isSendMessage (ev : event) : bool :=
  match ev with EvSendMessage _ _ _ => true | _ => false end.

Definition isErrChan (ev : event) : bool :=
  match ev with EvErrChan _ _ => true | _ => false end.

Definition isInitChannelReservation (ev : event) : bool :=
  match ev with EvInitChannelReservation _ => true | _ => false end.

Definition isGoWaitForPsbt (ev : event) : bool :=
  match ev with EvGoWaitForPsbt _ _ _ => true | _ => false end.

(** Example collaborators. *)

Definition exampleError (e : error) : string :=
  match e with
  | EReservation (ErrChanTooSmall _ _) => "chan size below min chan size"
  | EReservation (ErrChanTooLarge _ _) => "chan size exceeds maximum chan size"
  | EReservation ErrNonZeroPushAmount => "non zero push amounts are disabled"
  | EReservation (ErrNumConfsTooLarge _ _) => "minimum depth too large"
  | EReservation (ReservationErrorOf t) => t
  | EFunding ErrMaxPendingChannels => "Number of pending channels exceed maximum"
  | EFunding ErrSynchronizingChain => "Synchronizing blockchain"
  | EFunding (FundingErrorCode _) => "unknown error"
  | EPsbtFundingRequired _ => "PSBT funding required"
  | ENew t => t
  | EFmt format _ => format
  end.

Definition exampleHex (b : bytes) : string := "".

Definition examplePeer : Peer :=
  {| IdentityKey := exampleRemoteKey;
     Address := "10.0.0.2:9735";
     LocalFeatures := fun _ => false;
     RemoteFeatures := fun _ => false;
     SendMessage := fun _ _ => None |}.

Definition otherPeer : Peer :=
  {| IdentityKey := 2 :: replicate 32 8;
     Address := "10.0.0.3:9735";
     LocalFeatures := fun _ => false;
     RemoteFeatures := fun _ => false;
     SendMessage := fun _ _ => None |}.

Definition exampleContribution : lnwallet.ChannelContribution :=
  {| lnwallet.FundingAmount := 0;
     lnwallet.FirstCommitmentPoint := exampleFundingKey;
     lnwallet.ChannelConfig :=
       {| channeldb.Constraints :=
            {| channeldb.DustLimit := 573;
               channeldb.ChanReserve := 10000;
               channeldb.MaxPendingAmount := 990000000;
               channeldb.MinHTLC := 1;
               channeldb.MaxAcceptedHtlcs := 483;
               channeldb.CsvDelay := 144 |};
          channeldb.MultiSigKey := exampleFundingKey;
          channeldb.RevocationBasePoint := exampleFundingKey;
          channeldb.PaymentBasePoint := exampleFundingKey;
          channeldb.DelayBasePoint := exampleFundingKey;
          channeldb.HtlcBasePoint := exampleFundingKey |};
     lnwallet.UpfrontShutdown := [] |}.

(** A wallet reservation that answers as given. *)
Definition exampleReservation (id : nat) (psbt shim : bool)
    (cancel : option error)
    (processContribution : option error) : lnwallet.ChannelReservation :=
  {| lnwallet.reservationID := id;
     lnwallet.IsPsbt := psbt;
     lnwallet.IsCannedShim := shim;
     lnwallet.Cancel := cancel;
     lnwallet.CommitConstraints := fun _ _ => None;
     lnwallet.ProcessSingleContribution := fun _ => None;
     lnwallet.ProcessContribution := fun _ => processContribution;
     lnwallet.ProcessPsbt := None;
     lnwallet.OurContribution := exampleContribution;
     lnwallet.FundingOutpoint := exampleOutPoint;
     lnwallet.OurSignatures := [48; 68] |}.

Definition exampleCtx (r : lnwallet.ChannelReservation) (p : Peer)
    (updated : Time) : reservationWithCtx :=
  {| reservation := r; peer := p; chanAmt := 1000000;
     remoteCsvDelay := 144; remoteMinHtlc := 1;
     remoteMaxValue := 990000000; remoteMaxHtlcs := 483;
     maxLocalCsv := 10000; lastUpdated := updated |}.

Definition exampleConfig (channels : list channeldb.OpenChannel)
    (maxPending : Z) : fundingConfig :=
  {| FetchOpenChannels := fun _ => inr channels;
     IsSynced := inr true;
     InitChannelReservation :=
       fun _ => inr (exampleReservation 1 false false None None);
     NewAddressScript := inr [0; 20];
     OpenChannelPredicate := fun _ _ => true;
     NumRequiredConfs := fun _ _ => 3;
     RequiredRemoteDelay := fun _ => 144;
     RequiredRemoteChanReserve := fun amt _ => amt / 100;
     RequiredRemoteMaxValue := fun amt => amt * 990;
     RequiredRemoteMaxHTLCs := fun _ => 483;
     DefaultMinHtlcIn := 1;
     (* ten minutes *)
     ReservationTimeout := 600000000000;
     MinChanSize := 20000;
     MaxChanSize := 16777215;
     MaxPendingChannels := maxPending;
     RejectPush := false;
     MaxLocalCSVDelay := 10000;
     EnableUpfrontShutdown := false |}.

Definition emptyManager (c : fundingConfig) : fundingManager :=
  {| cfg := c;
     activeReservations := ∅;
     signedReservations := ∅;
     newChanBarriers := ∅;
     ctxs := fun _ =>
       exampleCtx (exampleReservation 0 false false None None) examplePeer 0;
     nextLoc := 0%nat;
     trace := [] |}.

(** A manager with one more registered context, as a handler registers it. *)
Definition withReservation (pendingChanID : bytes) (ctx : reservationWithCtx)
    (f : fundingManager) : fundingManager :=
  let peerIDKey := newSerializedKey (IdentityKey (peer ctx)) in
  let nodeReservations := default ∅ (activeReservations f !! peerIDKey) in
  let l := nextLoc f in
  with_activeReservations
    (<[peerIDKey := <[pendingChanID := l]> nodeReservations]>
       (activeReservations f))
    (with_ctxs (store l ctx (ctxs f)) (S l) f).

Definition examplePendingID : bytes := replicate 32 4.

(** January 2021, and an hour later, in nanoseconds from the zero instant. *)
Definition exampleInstant : Time := 63745056000000000000.
Definition exampleLater : Time := exampleInstant + 3600000000000.

(** One registered context whose wallet reservation refuses to be cancelled. *)
Definition stuckManager : fundingManager :=
  withReservation examplePendingID
    (exampleCtx
       (exampleReservation 7 false false
          (Some (ENew "attempted to cancel non-existent funding state")) None)
       examplePeer exampleInstant)
    (emptyManager (exampleConfig [] 1)).

(** One registered context that cancels. *)
Definition oneManager : fundingManager :=
  withReservation examplePendingID
    (exampleCtx (exampleReservation 7 false false None None)
       examplePeer exampleInstant)
    (emptyManager (exampleConfig [] 1)).

Definition exampleOpen (amt : Z) : lnwire.OpenChannel :=
  {| lnwire.ChainHash := replicate 32 0;
     lnwire.PendingChannelID := examplePendingID;
     lnwire.FundingAmount := amt;
     lnwire.PushAmount := 0;
     lnwire.DustLimit := 573;
     lnwire.MaxValueInFlight := 990000000;
     lnwire.ChannelReserve := 10000;
     lnwire.HtlcMinimum := 1;
     lnwire.FeePerKiloWeight := 253;
     lnwire.CsvDelay := 144;
     lnwire.MaxAcceptedHTLCs := 483;
     lnwire.FundingKey := exampleFundingKey;
     lnwire.RevocationPoint := exampleFundingKey;
     lnwire.PaymentPoint := exampleFundingKey;
     lnwire.DelayedPaymentPoint := exampleFundingKey;
     lnwire.HtlcPoint := exampleFundingKey;
     lnwire.FirstCommitmentPoint := exampleFundingKey;
     lnwire.ChannelFlags := 1;
     lnwire.UpfrontShutdownScript := [] |}.

(** A database channel of the peer that is still pending and did not come
    from a funding shim. *)
Definition pendingDbChannel : channeldb.OpenChannel :=
  {| channeldb.FundingOutpoint := otherOutPoint;
     channeldb.IsPending := true;
     channeldb.IsInitiator := false;
     channeldb.ThawHeight := 0;
     channeldb.FundingBroadcastHeight := 650000;
     channeldb.NumConfsRequired := 3 |}.

(** A manager whose peer already has as many pending channels as allowed. *)
Definition fullManager : fundingManager :=
  emptyManager (exampleConfig [pendingDbChannel] 1).

(** A manager with room for one more pending channel. *)
Definition idleManager : fundingManager :=
  emptyManager (exampleConfig [] 1).

Definition exampleAccept : lnwire.AcceptChannel :=
  {| lnwire.aPendingChannelID := examplePendingID;
     lnwire.aDustLimit := 573;
     lnwire.aMaxValueInFlight := 990000000;
     lnwire.aChannelReserve := 10000;
     lnwire.aMinAcceptDepth := 3;
     lnwire.aHtlcMinimum := 1;
     lnwire.aCsvDelay := 144;
     lnwire.aMaxAcceptedHTLCs := 483;
     lnwire.aFundingKey := exampleFundingKey;
     lnwire.aRevocationPoint := exampleFundingKey;
     lnwire.aPaymentPoint := exampleFundingKey;
     lnwire.aDelayedPaymentPoint := exampleFundingKey;
     lnwire.aHtlcPoint := exampleFundingKey;
     lnwire.aFirstCommitmentPoint := exampleFundingKey;
     lnwire.aUpfrontShutdownScript := [] |}.

Definition examplePsbtIntent : PsbtIntent :=
  PsbtIntentOf 1
    (FundingParamsOk "bcrt1qfundingaddress" 1000000
       (SerializeOk [112; 115; 98; 116; 255])).

(** A PSBT reservation: the wallet halts [ProcessContribution] with
    [PsbtFundingRequired]. *)
Definition psbtReservation : lnwallet.ChannelReservation :=
  exampleReservation 9 true false None
    (Some (EPsbtFundingRequired examplePsbtIntent)).

(** A manager with that reservation registered, its context still carrying
    the zero timestamp. *)
Definition psbtManager : fundingManager :=
  withReservation examplePendingID (exampleCtx psbtReservation examplePeer 0)
    (emptyManager (exampleConfig [] 1)).

Definition exampleNewChanID (o : OutPoint) : bytes := Hash o.
Definition exampleNewSig (sig : bytes) : error + bytes := inr sig.

(** Two peers that each have an idle reservation under the same pending
    channel id, last updated an hour before the sweep. *)
Definition collidingManager : fundingManager :=
  withReservation examplePendingID
    (exampleCtx (exampleReservation 8 false false None None)
       otherPeer exampleInstant)
    (withReservation examplePendingID
       (exampleCtx (exampleReservation 7 false false None None)
          examplePeer exampleInstant)
       (emptyManager (exampleConfig [] 1))).

(** The registry as a list of its entries. *)
Definition registryEntries (f : fundingManager)
    : list (bytes * (bytes * loc)) :=
  map_to_list (activeReservations f) ≫=
    fun '(peerIDKey, m) => (fun e => (peerIDKey, e)) <$> map_to_list m.

(** A visiting order for [range]: some permutation of the map's entries. *)
Definition rangeOrder (range : ∀ V : Type, gmap bytes V → list (bytes * V))
    : Prop :=
  ∀ (V : Type) (m : gmap bytes V), range V m ≡ₚ map_to_list m.

(** The PSBT manager after the peer's [AcceptChannel] has been handled. *)
Definition parkedManager : fundingManager :=
  handleFundingAccept exampleError exampleHex 20 exampleNewChanID
    exampleNewSig exampleLater examplePeer exampleAccept psbtManager.

Definition parkedEvents : list event :=
  [EvSetNumConfsRequired 9 3;
   EvUpdatesChan 0%nat
     {| PendingChanId := examplePendingID;
        FundingAddress := "bcrt1qfundingaddress";
        PsbtFundingAmount := 1000000;
        Psbt := [112; 115; 98; 116; 255] |};
   EvGoWaitForPsbt examplePsbtIntent 0%nat examplePendingID].

(** What holds of every state of the confirmation wait reached by a run
    [tr]: for an initiator the watcher is never started and [timeoutChan]
    stays empty; [timeoutChan] is closed only after an epoch at or past the
    deadline; it holds only errors made by [fmt.Errorf]; a confirmed channel
    offered or returned comes from a confirmation of the notifier; and an
    error returned is the shutdown error, the failure of the confirmation
    watcher, the timeout (for a responder, after a deadline epoch), or an
    error of the watcher's epoch subscription. *)
Definition waitInvariant (ch : channeldb.OpenChannel) (tr : list label)
    (s : waitState) : Prop :=
  (channeldb.IsInitiator ch = true →
     timeout s = TimeoutNotStarted ∧ timeoutChan s = TimeoutChanEmpty)
  ∧ (timeoutChan s = TimeoutChanClosed →
     ∃ h, LEpoch h ∈ tr ∧ maxHeight ch ≤ uint32 h)
  ∧ (∀ e, timeoutChan s = TimeoutChanErr e → ∃ fmt args, e = EFmt fmt args)
  ∧ (∀ c, confirmation s = ConfSending c →
     ∃ d, LConfirmed d ∈ tr ∧ c = confirmedChannelOf ch d)
  ∧ (∀ r, waiter s = WaiterReturned r →
     match r with
     | inr c => ∃ d, LConfirmed d ∈ tr ∧ c = confirmedChannelOf ch d
     | inl e =>
       e = ErrFundingManagerShuttingDown
       ∨ e = errWaitFailed
       ∨ (e = ErrConfirmationTimeout
          ∧ channeldb.IsInitiator ch = false
          ∧ ∃ h, LEpoch h ∈ tr ∧ maxHeight ch ≤ uint32 h)
       ∨ (channeldb.IsInitiator ch = false
          ∧ e ≠ ErrConfirmationTimeout
          ∧ ∃ fmt args, e = EFmt fmt args)
     end).

(** A channel we opened, and a confirmation of its funding transaction. *)
Definition initiatorChannel : channeldb.OpenChannel :=
  {| channeldb.FundingOutpoint := exampleOutPoint;
     channeldb.IsPending := true;
     channeldb.IsInitiator := true;
     channeldb.ThawHeight := 0;
     channeldb.FundingBroadcastHeight := 650000;
     channeldb.NumConfsRequired := 3 |}.

Definition exampleConfirmation : TxConfirmation :=
  {| confBlockHeight := 652100; confTxIndex := 12; confTx := [2; 0; 0; 0] |}.

(** A run in which the deadline epoch reaches the watcher, then the
    confirmation reaches [waitForFundingConfirmation], and only then the
    waiter's [select] is scheduled. *)
Definition raceRun : list label :=
  [LConfRegistered; LTimeoutRegistered; LEpoch 652016;
   LConfirmed exampleConfirmation; LWaiterConf].

(** ** Further auxiliary definitions *)

(** Every record of the opening-state bucket holds the ten bytes that
    [saveChannelOpeningState] writes. *)
Definition recordsWellSized (db : DB) : Prop :=
  ∀ b k v, db !! channelOpeningStateBucket = Some b → b !! k = Some v →
           length v = 10%nat.

(** The calls that remain to be made for a channel whose stored opening
    state is [s], when every step succeeds. *)
Definition remainingActions (env : openingEnv) (s : channelOpeningState)
    (scid : ShortChannelID) (pendingChanID : bytes) (o : OutPoint)
    : list openingAction :=
  let update :=
    match updateChan env with
    | UpdateChanTakes => [ActChanOpenUpdate pendingChanID o]
    | _ => []
    end in
  let fromAdded := [ActAnnAfterSixConfs scid] in
  let fromLocked := [ActAddToRouterGraph scid] ++ update ++ fromAdded in
  if s =? markedOpen then [ActSendFundingLocked scid] ++ fromLocked
  else if s =? fundingLockedSent then fromLocked
  else fromAdded.

(** Collaborators of the opening sequence for which every step succeeds. *)
Definition exampleEnv : openingEnv :=
  {| ValidateChannel := None;
     MarkAsOpen := fun _ => None;
     ReportShortChanID := None;
     HasFundingTx := true;
     UpdateLabel := None;
     hasDiscoverySignal := true;
     sendFundingLocked := fun _ _ => None;
     addToRouterGraph := fun _ _ => None;
     annAfterSixConfs := fun _ _ => None;
     updateChan := UpdateChanTakes |}.

(** The same, but the router refuses the channel and the wallet refuses to
    mark it open. *)
Definition failingEnv : openingEnv :=
  {| ValidateChannel := None;
     MarkAsOpen := fun _ => Some (ENew "database closed");
     ReportShortChanID := Some (ENew "link not found");
     HasFundingTx := true;
     UpdateLabel := Some (ENew "tx not found");
     hasDiscoverySignal := false;
     sendFundingLocked := fun _ _ => None;
     addToRouterGraph := fun _ _ => Some (ENew "router shutting down");
     annAfterSixConfs := fun _ _ => None;
     updateChan := UpdateChanNil |}.

Definition exampleConfirmed : confirmedChannel :=
  {| shortChanID := exampleShortChanID; fundingTx := [2; 0; 0; 0] |}.

(** One step of the opening sequence on the example store, whose record for
    the example outpoint is in state [fundingLockedSent]. *)
Definition exampleStep : DB * list openingAction * option error :=
  stateStep BigEndian packShortChanID exampleError exampleEnv exampleSavedDB
    initiatorChannel exampleShortChanID examplePendingID fundingLockedSent.

Definition failingStep : DB * list openingAction * option error :=
  stateStep BigEndian packShortChanID exampleError failingEnv exampleSavedDB
    initiatorChannel exampleShortChanID examplePendingID fundingLockedSent.

(** No peer of the registry is left with an empty map of reservations. *)
Definition registryTidy (f : fundingManager) : Prop :=
  ∀ peerIDKey m, activeReservations f !! peerIDKey = Some m → m ≠ ∅.

(** Every context is registered under the key of its own peer. *)
Definition registryConsistent (f : fundingManager) : Prop :=
  ∀ peerIDKey id l,
    lookupReservation f peerIDKey id = Some l →
    peerIDKey = newSerializedKey (IdentityKey (peer (ctxs f l))).

(** No two peers hold a reservation under the same pending channel id. *)
Definition distinctPendingIDs (f : fundingManager) : Prop :=
  ∀ k1 k2 id l1 l2,
    lookupReservation f k1 id = Some l1 →
    lookupReservation f k2 id = Some l2 → k1 = k2.

Definition isCancel (ev : event) : bool :=
  match ev with EvCancel _ => true | _ => false end.

Definition exampleMsgError (e : lnwire.Error) : string := lnwire.Data e.

Definition exampleRemoteCanceled : error :=
  ENew "remote canceled funding, possibly timed out".

Definition exampleErrorMsg : lnwire.Error :=
  {| lnwire.ChanID := examplePendingID; lnwire.Data := "funding failed" |}.

(** Every registered context was allocated: its pointer is below the next
    one the manager hands out. *)
Definition registryFresh (f : fundingManager) : Prop :=
  ∀ peerIDKey id l,
    lookupReservation f peerIDKey id = Some l → (l < nextLoc f)%nat.

(** One locked context (no funding message handled yet) and one that was last
    updated an hour before the sweep, both of the same peer. *)
Definition otherPendingID : bytes := replicate 32 5.

Definition lockedAndIdleManager : fundingManager :=
  withReservation otherPendingID
    (exampleCtx (exampleReservation 8 false false None None) examplePeer 0)
    oneManager.

(** The second loop of [pruneZombieReservations], over the zombies it is
    given. *)
Definition failZombies (Error : error → string) (hex : bytes → string)
    (zombies : list (bytes * loc)) (f : fundingManager) : fundingManager :=
  fold_left
    (fun f '(pendingChanID, l) =>
       let resCtx := ctxs f l in
       let err := Errorf
         "reservation timed out waiting for peer (peer_id:%x, chan_id:%x)"
         [hex (IdentityKey (peer resCtx)); hex pendingChanID] in
       failFundingFlow Error hex (peer resCtx) pendingChanID err f)
    zombies f.

(** The [Error] message a swept reservation's peer is sent. *)
Definition timedOutFrame (Error : error → string) (hex : bytes → string)
    (p : Peer) (pendingChanID : bytes) : event :=
  EvSendMessage (IdentityKey p) false
    (lnwire.MsgError
       {| lnwire.ChanID := pendingChanID;
          lnwire.Data :=
            errorData Error
              (Errorf
                 "reservation timed out waiting for peer (peer_id:%x, chan_id:%x)"
                 [hex (IdentityKey p); hex pendingChanID]) |}).

(** What holds of the shutdown signal and of [cancelChan] in every state of
    the wait: [quit] is closed only by a shutdown, the shutdown error comes
    from the [quit] case of the waiter's [select] alone, and [cancelChan] is
    closed exactly when the waiter has returned. *)
Definition shutdownInvariant (tr : list label) (s : waitState) : Prop :=
  (quit s = true → LQuit ∈ tr)
  ∧ (∀ e, timeoutChan s = TimeoutChanErr e →
          e ≠ ErrFundingManagerShuttingDown)
  ∧ (waiter s = WaiterReturned (inl ErrFundingManagerShuttingDown) →
     quit s = true)
  ∧ (cancelChanClosed s = true ↔ ∃ r, waiter s = WaiterReturned r).

(** A run of a responder's wait in which the deadline passes, the waiter
    returns the timeout, and only then the confirmation arrives. *)
Definition lateConfirmationRun : list label :=
  [LConfRegistered; LTimeoutRegistered; LEpoch 652016; LWaiterTimeout;
   LConfirmed exampleConfirmation].

(** The registry as the handlers keep it. *)
Definition registryWf (f : fundingManager) : Prop :=
  registryFresh f ∧ registryConsistent f ∧ registryTidy f.

(** A wallet reservation whose constraints are refused. *)
Definition refusingReservation : lnwallet.ChannelReservation :=
  {| lnwallet.reservationID := 1;
     lnwallet.IsPsbt := false;
     lnwallet.IsCannedShim := false;
     lnwallet.Cancel := None;
     lnwallet.CommitConstraints :=
       fun _ _ => Some (ENew "csv delay too large");
     lnwallet.ProcessSingleContribution := fun _ => None;
     lnwallet.ProcessContribution := fun _ => None;
     lnwallet.ProcessPsbt := None;
     lnwallet.OurContribution := exampleContribution;
     lnwallet.FundingOutpoint := exampleOutPoint;
     lnwallet.OurSignatures := [48; 68] |}.

Definition refusingConfig : fundingConfig :=
  {| FetchOpenChannels := fun _ => inr [];
     IsSynced := inr true;
     InitChannelReservation := fun _ => inr refusingReservation;
     NewAddressScript := inr [0; 20];
     OpenChannelPredicate := fun _ _ => true;
     NumRequiredConfs := fun _ _ => 3;
     RequiredRemoteDelay := fun _ => 144;
     RequiredRemoteChanReserve := fun amt _ => amt / 100;
     RequiredRemoteMaxValue := fun amt => amt * 990;
     RequiredRemoteMaxHTLCs := fun _ => 483;
     DefaultMinHtlcIn := 1;
     ReservationTimeout := 600000000000;
     MinChanSize := 20000;
     MaxChanSize := 16777215;
     MaxPendingChannels := 2;
     RejectPush := false;
     MaxLocalCSVDelay := 10000;
     EnableUpfrontShutdown := false |}.

(** A manager with one registered context of the example peer, which gives
    out the refusing reservation for the next [Open]. *)
Definition refusingManager : fundingManager :=
  withReservation examplePendingID
    (exampleCtx (exampleReservation 7 false false None None)
       examplePeer exampleInstant)
    (emptyManager refusingConfig).

Definition isSetNumConfsRequired (ev : event) : bool :=
  match ev with EvSetNumConfsRequired _ _ => true | _ => false end.

(** An [AcceptChannel] that asks for more confirmations than the notifier
    can dispatch. *)
Definition deepAccept : lnwire.AcceptChannel :=
  {| lnwire.aPendingChannelID := examplePendingID;
     lnwire.aDustLimit := 573;
     lnwire.aMaxValueInFlight := 990000000;
     lnwire.aChannelReserve := 10000;
     lnwire.aMinAcceptDepth := 21;
     lnwire.aHtlcMinimum := 1;
     lnwire.aCsvDelay := 144;
     lnwire.aMaxAcceptedHTLCs := 483;
     lnwire.aFundingKey := exampleFundingKey;
     lnwire.aRevocationPoint := exampleFundingKey;
     lnwire.aPaymentPoint := exampleFundingKey;
     lnwire.aDelayedPaymentPoint := exampleFundingKey;
     lnwire.aHtlcPoint := exampleFundingKey;
     lnwire.aFirstCommitmentPoint := exampleFundingKey;
     lnwire.aUpfrontShutdownScript := [] |}.

(** A local request for a public channel of one million satoshis that
    leaves every optional value to the defaults. *)
Definition exampleOpenChanReq (id : bytes) : funding.openChanReq :=
  {| funding.chainHash := replicate 32 0;
     funding.localFundingAmt := 1000000;
     funding.pushAmt := 0;
     funding.subtractFees := false;
     funding.fundingFeePerKw := 253;
     funding.private := false;
     funding.minHtlcIn := 0;
     funding.remoteCsvDelay := 0;
     funding.maxValueInFlight := 0;
     funding.maxHtlcs := 0;
     funding.maxLocalCsv := 0;
     funding.minConfs := 1;
     funding.shutdownScript := [];
     funding.pendingChanID := id;
     funding.chanFunder := None |}.

Definition exampleInit (id : bytes) : funding.initFundingMsg :=
  {| funding.peer := examplePeer; funding.req := exampleOpenChanReq id |}.

(** A peer to which nothing can be sent. *)
Definition offlinePeer : Peer :=
  {| IdentityKey := exampleRemoteKey;
     Address := "10.0.0.2:9735";
     LocalFeatures := fun _ => false;
     RemoteFeatures := fun _ => false;
     SendMessage := fun _ _ => Some (ENew "peer exiting") |}.

Definition offlineInit : funding.initFundingMsg :=
  {| funding.peer := offlinePeer; funding.req := exampleOpenChanReq zeroID |}.

(** The example collaborators of a local request. *)
Definition exampleInitFunding (now : Time) (msg : funding.initFundingMsg)
    (f : fundingManager) : option error * fundingManager :=
  handleInitFundingMsg exampleError exampleHex (fun _ => inr 2500) 573
    (replicate 32 0) 1 (fun _ => 1000000) otherPendingID
    (fun _ => inr (exampleReservation 9 false false None None))
    now msg f.

(** The gossiper's answer counts as success: no error, or one the router
    marks outdated or ignored. *)
Definition accepted (IsOutdatedOrIgnored : error → bool) (o : sendOutcome)
    : Prop :=
  match o with
  | SendAnswered None => True
  | SendAnswered (Some e) => IsOutdatedOrIgnored e = true
  | SendQuit => False
  end.

Definition isGossipChannelUpdate (m : gossipMsg) : bool :=
  match m with GossipChannelUpdate _ => true | _ => false end.

(** A channel of one million satoshis whose peer allows HTLCs from one
    millisatoshi and more in flight than the channel holds. *)
Definition exampleLocalCfg : channeldb.ChannelConfig :=
  {| channeldb.Constraints :=
       {| channeldb.DustLimit := 573;
          channeldb.ChanReserve := 10000;
          channeldb.MaxPendingAmount := 5000000000;
          channeldb.MinHTLC := 1;
          channeldb.MaxAcceptedHtlcs := 483;
          channeldb.CsvDelay := 144 |};
     channeldb.MultiSigKey := exampleFundingKey;
     channeldb.RevocationBasePoint := exampleFundingKey;
     channeldb.PaymentBasePoint := exampleFundingKey;
     channeldb.DelayBasePoint := exampleFundingKey;
     channeldb.HtlcBasePoint := exampleFundingKey |}.

Definition exampleAddToRouterGraph : list gossipMsg * option error :=
  router.addToRouterGraph (fun _ => "error"%string) (replicate 32 0)
    exampleLocalKey (fun _ m => inr m) examplePolicy
    (fun _ => inr [1]) (fun _ => inr [2]) inr [] 1 1600000000
    exampleNewChanID (fun sat => sat * 1000) 1000
    (fun _ => exampleRemoteKey) (fun _ => exampleLocalCfg)
    (fun _ => exampleLocalCfg) (fun _ => 1000000) (fun _ => true)
    (SendAnswered (Some (ENew "ignoring outdated announcement")))
    (SendAnswered None)
    initiatorChannel exampleShortChanID.

(** * Properties *)

(** ** Byte strings *)

Lemma length_le_bytes (n : nat) (v : Z) : length (le_bytes n v) = n.
Proof.
  revert v. induction n as [|n IH]; intros v; simpl; [reflexivity|].
  now rewrite IH.
Qed.

Lemma le_value_le_bytes (n : nat) (v : Z) :
  le_value (le_bytes n v) = v mod 2 ^ (8 * Z.of_nat n).
Proof.
  revert v. induction n as [|n IH]; intros v.
  - simpl. now rewrite Z.mod_1_r.
  - cbn [le_bytes le_value]. rewrite IH. unfold byte.
    apply Z.bits_inj'. intros i Hi.
    rewrite Z.lor_spec, Z.land_spec.
    change 255 with (Z.ones 8).
    destruct (Z_lt_le_dec i 8) as [Hlt|Hge].
    + rewrite Z.ones_spec_low by lia.
      rewrite Z.shiftl_spec_low by lia.
      rewrite Z.mod_pow2_bits_low by lia.
      now rewrite andb_true_r, orb_false_r.
    + rewrite Z.ones_spec_high by lia.
      rewrite andb_false_r, orb_false_l.
      rewrite Z.shiftl_spec by lia.
      destruct (Z_lt_le_dec (i - 8) (8 * Z.of_nat n)) as [Hl|Hh].
      * rewrite !Z.mod_pow2_bits_low by lia.
        rewrite Z.shiftr_spec by lia. f_equal. lia.
      * rewrite !Z.mod_pow2_bits_high by lia. reflexivity.
Qed.

Lemma GetUint_PutUint (n : nat) (bo : ByteOrder) (v : Z) (rest : bytes) :
  GetUint n bo (PutUint n bo v ++ rest) = Some (v mod 2 ^ (8 * Z.of_nat n)).
Proof.
  unfold GetUint, PutUint.
  assert (Hlen : length (le_bytes n v) = n) by apply length_le_bytes.
  destruct bo.
  - rewrite decide_False
      by (rewrite length_app, length_rev, Hlen; lia).
    rewrite take_app_length' by (now rewrite length_rev).
    now rewrite rev_involutive, le_value_le_bytes.
  - rewrite decide_False by (rewrite length_app, Hlen; lia).
    rewrite take_app_length' by done.
    now rewrite le_value_le_bytes.
Qed.

Lemma length_PutUint (n : nat) (bo : ByteOrder) (v : Z) :
  length (PutUint n bo v) = n.
Proof.
  unfold PutUint. destruct bo; [rewrite length_rev|]; apply length_le_bytes.
Qed.

Lemma le_bytes_inj (n : nat) (v w : Z) :
  0 ≤ v < 2 ^ (8 * Z.of_nat n) →
  0 ≤ w < 2 ^ (8 * Z.of_nat n) →
  le_bytes n v = le_bytes n w → v = w.
Proof.
  intros Hv Hw Heq.
  apply (f_equal le_value) in Heq.
  rewrite !le_value_le_bytes in Heq.
  now rewrite !Z.mod_small in Heq by assumption.
Qed.

Lemma writeOutpoint_inj (o1 o2 : OutPoint) :
  wf_OutPoint o1 → wf_OutPoint o2 →
  writeOutpoint o1 = writeOutpoint o2 → o1 = o2.
Proof.
  intros [Hl1 Hi1] [Hl2 Hi2] Heq. unfold writeOutpoint in Heq.
  apply app_inj_1 in Heq as [Hh Hb]; [|congruence].
  apply le_bytes_inj in Hb; [|simpl; lia..].
  destruct o1, o2; simpl in *; congruence.
Qed.

Lemma writeOutpoint_nonempty (o : OutPoint) : writeOutpoint o ≠ [].
Proof.
  unfold writeOutpoint. intros H.
  apply (f_equal (@length Z)) in H.
  rewrite length_app, length_le_bytes in H. simpl in H. lia.
Qed.

(** ** The opening-state store *)

Section OpeningStateFacts.

Variable byteOrder : ByteOrder.
Variable ToUint64 : ShortChannelID → Z.
Variable NewShortChanIDFromInt : Z → ShortChannelID.

Local Abbreviation save := (saveChannelOpeningState byteOrder ToUint64).
Local Abbreviation get := (getChannelOpeningState byteOrder NewShortChanIDFromInt).
Local Abbreviation value := (openingStateValue byteOrder ToUint64).

(** A save always commits: the key of an outpoint is never empty. *)
Lemma save_succeeds (db : DB) (o : OutPoint) (s : channelOpeningState)
    (c : ShortChannelID) :
  snd (save db o s c) = None.
Proof.
  unfold saveChannelOpeningState, kvdb.Update, kvdb.Put,
    kvdb.CreateTopLevelBucket.
  pose proof (writeOutpoint_nonempty o) as Hne.
  destruct (writeOutpoint o) as [|k ks]; [congruence|].
  destruct (db !! channelOpeningStateBucket) as [b|] eqn:Hb.
  - now rewrite Hb.
  - now rewrite lookup_insert_eq.
Qed.

Lemma stored_save_eq (db : DB) (o : OutPoint) (s : channelOpeningState)
    (c : ShortChannelID) :
  storedRecord (fst (save db o s c)) o = Some (value s c).
Proof.
  unfold storedRecord, saveChannelOpeningState, kvdb.Update, kvdb.Put,
    kvdb.CreateTopLevelBucket.
  pose proof (writeOutpoint_nonempty o) as Hne.
  destruct (writeOutpoint o) as [|k ks] eqn:Hk; [congruence|].
  destruct (db !! channelOpeningStateBucket) as [b|] eqn:Hb.
  - rewrite Hb. simpl. rewrite lookup_insert_eq. simpl.
    now rewrite lookup_insert_eq.
  - rewrite lookup_insert_eq. simpl. rewrite lookup_insert_eq. simpl.
    now rewrite lookup_insert_eq.
Qed.

Lemma stored_save_ne (db : DB) (o o' : OutPoint) (s : channelOpeningState)
    (c : ShortChannelID) :
  writeOutpoint o' ≠ writeOutpoint o →
  storedRecord (fst (save db o' s c)) o = storedRecord db o.
Proof.
  intros Hne.
  unfold storedRecord, saveChannelOpeningState, kvdb.Update, kvdb.Put,
    kvdb.CreateTopLevelBucket.
  pose proof (writeOutpoint_nonempty o') as Hne'.
  destruct (writeOutpoint o') as [|k ks] eqn:Hk; [congruence|].
  destruct (db !! channelOpeningStateBucket) as [b|] eqn:Hb.
  - rewrite Hb. simpl. rewrite lookup_insert_eq. simpl.
    now rewrite lookup_insert_ne.
  - rewrite lookup_insert_eq. simpl. rewrite lookup_insert_eq. simpl.
    rewrite lookup_insert_ne by assumption. apply lookup_empty.
Qed.

Lemma stored_delete_eq (db db' : DB) (o : OutPoint) :
  deleteChannelOpeningState db o = (db', None) →
  storedRecord db' o = None.
Proof.
  unfold storedRecord, deleteChannelOpeningState, kvdb.Update,
    kvdb.ReadBucket, kvdb.Delete.
  destruct (db !! channelOpeningStateBucket) as [b|] eqn:Hb;
    [|discriminate].
  simpl. intros [= <-]. rewrite lookup_insert_eq. simpl.
  apply lookup_delete_eq.
Qed.

Lemma stored_delete_ne (db : DB) (o o' : OutPoint) :
  writeOutpoint o' ≠ writeOutpoint o →
  storedRecord (fst (deleteChannelOpeningState db o')) o = storedRecord db o.
Proof.
  intros Hne.
  unfold storedRecord, deleteChannelOpeningState, kvdb.Update,
    kvdb.ReadBucket, kvdb.Delete.
  destruct (db !! channelOpeningStateBucket) as [b|] eqn:Hb; simpl.
  - rewrite lookup_insert_eq. simpl. now rewrite lookup_delete_ne.
  - now rewrite Hb.
Qed.

(** Traffic on other outpoints leaves the record of [o] alone. *)
Lemma stored_run_storeOps (ops : list (storeOp)) (db : DB) (o : OutPoint) :
  wf_OutPoint o →
  Forall (fun op => wf_OutPoint (storeOp_target op) ∧ storeOp_target op ≠ o)
         ops →
  storedRecord (run_storeOps byteOrder ToUint64 db ops) o = storedRecord db o.
Proof.
  intros Ho Hops. revert db.
  induction Hops as [|op ops [Hwf Hne] _ IH]; intros db; [reflexivity|].
  unfold run_storeOps in *. cbn [fold_left]. rewrite IH.
  assert (Hk : writeOutpoint (storeOp_target op) ≠ writeOutpoint o).
  { intros Heq. apply Hne. now apply writeOutpoint_inj. }
  destruct op as [o' s c|o']; simpl in *.
  - now apply stored_save_ne.
  - now apply stored_delete_ne.
Qed.

(** What a read returns is decided by the stored record alone. *)
Lemma get_storedRecord (db : DB) (o : OutPoint) :
  get db o =
  match storedRecord db o with
  | None => Err ErrChannelNotFound
  | Some v =>
    match Uint16 byteOrder (take 2 v), Uint64 byteOrder (drop 2 v) with
    | Some st, Some id => Ok (uint8 st, NewShortChanIDFromInt id)
    | _, _ => Panic
    end
  end.
Proof.
  unfold getChannelOpeningState, storedRecord, kvdb.ReadBucket, kvdb.Get.
  destruct (db !! channelOpeningStateBucket) as [b|]; simpl; [|reflexivity].
  destruct (b !! writeOutpoint o); reflexivity.
Qed.

Lemma decode_value (s : channelOpeningState) (c : ShortChannelID) :
  Uint16 byteOrder (take 2 (value s c)) = Some (uint16 s) ∧
  Uint64 byteOrder (drop 2 (value s c)) = Some (uint64 (ToUint64 c)).
Proof.
  unfold openingStateValue, PutUint16, PutUint64, Uint16, Uint64.
  rewrite take_app_length' by (now rewrite length_PutUint).
  rewrite drop_app_length' by (now rewrite length_PutUint).
  split.
  - rewrite <- (app_nil_r (PutUint 2 _ _)), GetUint_PutUint.
    unfold uint16, uintN. f_equal. apply Z.mod_mod. lia.
  - rewrite <- (app_nil_r (PutUint 8 _ _)), GetUint_PutUint.
    unfold uint64, uintN. f_equal. apply Z.mod_mod. lia.
Qed.

End OpeningStateFacts.



(** The two byte orders, written out as [encoding/binary] has them. *)
Lemma PutUint16_BigEndian (v : Z) :
  PutUint16 BigEndian v = [byte (Z.shiftr v 8); byte v].
Proof. reflexivity. Qed.

Lemma PutUint16_LittleEndian (v : Z) :
  PutUint16 LittleEndian v = [byte v; byte (Z.shiftr v 8)].
Proof. reflexivity. Qed.

Lemma PutUint64_BigEndian (v : Z) :
  PutUint64 BigEndian v =
  [byte (Z.shiftr v 56); byte (Z.shiftr v 48); byte (Z.shiftr v 40);
   byte (Z.shiftr v 32); byte (Z.shiftr v 24); byte (Z.shiftr v 16);
   byte (Z.shiftr v 8); byte v].
Proof.
  unfold PutUint64, PutUint. cbn [le_bytes rev app].
  rewrite !Z.shiftr_shiftr by lia. reflexivity.
Qed.



(** ** Node ordering in announcements *)

Lemma bytes_Compare_lex_lt (a b : bytes) :
  bytes_Compare a b = -1 ↔ lex_lt a b.
Proof.
  revert b. induction a as [|x a IH]; intros [|y b]; simpl.
  - split; [discriminate | inversion 1].
  - split; [constructor | reflexivity].
  - split; [discriminate | inversion 1].
  - destruct (Z.ltb_spec x y) as [Hxy|Hxy].
    + split; [intros _; now constructor | reflexivity].
    + destruct (Z.ltb_spec y x) as [Hyx|Hyx].
      * split; [discriminate|]. inversion 1; subst; lia.
      * assert (x = y) by lia. subst y. rewrite IH.
        split; [now constructor|]. inversion 1; subst; [lia | assumption].
Qed.

Lemma lex_lt_irrefl (a : bytes) : ¬ lex_lt a a.
Proof.
  induction a as [|x a IH]; inversion 1; subst; [lia | auto].
Qed.

Lemma lex_lt_total (a b : bytes) : a ≠ b → ¬ lex_lt a b → lex_lt b a.
Proof.
  revert b. induction a as [|x a IH]; intros [|y b] Hne Hnlt.
  - congruence.
  - exfalso. apply Hnlt. constructor.
  - constructor.
  - destruct (Z.lt_trichotomy x y) as [H|[H|H]].
    + exfalso. apply Hnlt. now constructor.
    + subst y. apply lex_lt_tail. apply IH; [congruence|].
      intros Hlt. apply Hnlt. now constructor.
    + now constructor.
Qed.

Lemma copyN_length (n : nat) (b : bytes) : length b = n → copyN n b = b.
Proof.
  intros <-. unfold copyN.
  rewrite firstn_all, Nat.sub_diag. apply app_nil_r.
Qed.

(** C6: for distinct serialised identity keys, [newChanAnnouncement] puts the
    lexicographically smaller key first: when the local key is smaller,
    [NodeID1] is the local key, [NodeID2] the remote key and the direction
    flag of the channel update is 0; otherwise [NodeID1] is the remote key,
    [NodeID2] the local key and the flag is 1.  So [NodeID1 < NodeID2] always,
    and the flag is 0 exactly when our key is node 1. *)
Theorem C6_node_ordering
    (Error : error → string) (chainHash IDKey : bytes)
    (SignMessage : bytes → bytes → error + bytes)
    (policy : announce.ForwardingPolicy)
    (UpdateDataToSign : announce.ChannelUpdate → error + bytes)
    (AnnDataToSign : announce.ChannelAnnouncement → error + bytes)
    (NewSigFromSignature : bytes → error + bytes)
    (features : bytes) (maxHtlcBit nowUnix : Z)
    (localPubKey remotePubKey localFundingKey remoteFundingKey : bytes)
    (shortChanID : ShortChannelID) (chanID : bytes) (fwdMin fwdMax : Z)
    (ann : announce.chanAnnouncement) :
  length localPubKey = 33%nat →
  length remotePubKey = 33%nat →
  localPubKey ≠ remotePubKey →
  newChanAnnouncement Error chainHash IDKey SignMessage policy
    UpdateDataToSign AnnDataToSign NewSigFromSignature features maxHtlcBit
    nowUnix localPubKey remotePubKey localFundingKey remoteFundingKey
    shortChanID chanID fwdMin fwdMax = inr ann →
  let node1 := announce.NodeID1 (announce.chanAnn ann) in
  let node2 := announce.NodeID2 (announce.chanAnn ann) in
  let direction := announce.ChannelFlags (announce.chanUpdateAnn ann) in
  (lex_lt localPubKey remotePubKey →
     node1 = localPubKey ∧ node2 = remotePubKey ∧ direction = 0)
  ∧ (¬ lex_lt localPubKey remotePubKey →
     node1 = remotePubKey ∧ node2 = localPubKey ∧ direction = 1)
  ∧ lex_lt node1 node2
  ∧ (direction = 0 ↔ node1 = localPubKey).
Proof.
  intros Hl Hr Hne Hann.
  unfold newChanAnnouncement in Hann.
  repeat match type of Hann with
         | match ?scrutinee with inl _ => _ | inr _ => _ end = _ =>
           destruct scrutinee; [discriminate|]
         end.
  injection Hann as <-. cbn.
  destruct (Z.eqb_spec (bytes_Compare localPubKey remotePubKey) (-1))
    as [Hlt|Hnlt]; cbn; rewrite !copyN_length by assumption.
  - apply bytes_Compare_lex_lt in Hlt.
    repeat split; auto; try (intros; contradiction).
  - assert (Hn : ¬ lex_lt localPubKey remotePubKey)
      by (intros H; now apply bytes_Compare_lex_lt in H).
    repeat split; auto; try (intros; contradiction); try discriminate.
    + now apply lex_lt_total.
    + intros ->. contradiction.
Qed.

Lemma C6_node_ordering_witness :
  ∃ ann, exampleAnnouncement = inr ann
    ∧ announce.NodeID1 (announce.chanAnn ann) = exampleRemoteKey
    ∧ announce.NodeID2 (announce.chanAnn ann) = exampleLocalKey
    ∧ announce.ChannelFlags (announce.chanUpdateAnn ann) = 1
    ∧ lex_lt (announce.NodeID1 (announce.chanAnn ann))
             (announce.NodeID2 (announce.chanAnn ann)).
Proof.
  eexists. split; [vm_compute; reflexivity|].
  match goal with
  | |- context [announce.chanAnn ?a] =>
    pose proof (C6_node_ordering (fun _ => "error"%string) (replicate 32 0)
      exampleLocalKey (fun _ m => inr m) examplePolicy
      (fun _ => inr [1]) (fun _ => inr [2]) inr [] 1 1600000000
      exampleLocalKey exampleRemoteKey exampleFundingKey exampleFundingKey
      exampleShortChanID (replicate 32 9) 1000 990000000 a
      eq_refl eq_refl ltac:(discriminate) eq_refl) as (_ & Hge & Hlt & _)
  end.
  assert (Hn : ¬ lex_lt exampleLocalKey exampleRemoteKey).
  { unfold exampleLocalKey, exampleRemoteKey. inversion 1; subst; lia. }
  destruct (Hge Hn) as (H1 & H2 & H3).
  repeat split; assumption.
Defined.

(** ** Failing a funding flow *)

Section FailFlow.

Variable Error : error → string.
Variable hex : bytes → string.

Lemma cancelReservationCtx_spec (peerKey id : bytes) (f : fundingManager) :
  let '(ctx, err, f') := cancelReservationCtx Error hex peerKey id false f in
  match lookupReservation f (newSerializedKey peerKey) id with
  | None => ctx = None ∧ f' = f
  | Some l =>
    let r := reservation (ctxs f l) in
    match lnwallet.Cancel r with
    | Some _ =>
      ctx = None ∧ f' = emit (EvCancel (lnwallet.reservationID r)) f
    | None =>
      ctx = Some l
      ∧ trace f' = trace f ++ [EvCancel (lnwallet.reservationID r)]
      ∧ ctxs f' = ctxs f ∧ cfg f' = cfg f ∧ nextLoc f' = nextLoc f
      ∧ lookupReservation f' (newSerializedKey peerKey) id = None
    end
  end.
Proof.
  unfold cancelReservationCtx, lookupReservation.
  destruct (activeReservations f !! newSerializedKey peerKey) as [m|] eqn:Hm;
    cbn; [|auto].
  destruct (m !! id) as [l|] eqn:Hl; [|auto].
  rewrite andb_false_r.
  destruct (lnwallet.Cancel (reservation (ctxs f l))) eqn:Hc; [auto|].
  repeat split; try reflexivity.
  cbn. case_decide as Hsz.
  - now rewrite lookup_delete_eq.
  - rewrite lookup_insert_eq. cbn. apply lookup_delete_eq.
Qed.

(** The events of one [failFundingFlow], and what it leaves untouched. *)
Lemma failFundingFlow_trace (p : Peer) (id : bytes) (err : error)
    (f : fundingManager) :
  let f' := failFundingFlow Error hex p id err f in
  trace f' =
    trace f ++ failFlowPrefix (IdentityKey p) id err f
      ++ [EvSendMessage (IdentityKey p) false
            (lnwire.MsgError {| lnwire.ChanID := id;
                                lnwire.Data := errorData Error err |})]
  ∧ ctxs f' = ctxs f ∧ cfg f' = cfg f ∧ nextLoc f' = nextLoc f.
Proof.
  cbv zeta. unfold failFundingFlow, failFlowPrefix.
  pose proof (cancelReservationCtx_spec (IdentityKey p) id f) as H.
  destruct (cancelReservationCtx Error hex (IdentityKey p) id false f)
    as [[ctx e] f'].
  destruct (lookupReservation f (newSerializedKey (IdentityKey p)) id)
    as [l|].
  - cbv zeta in H.
    destruct (lnwallet.Cancel (reservation (ctxs f l))).
    + destruct H as [-> ->]. cbn. now rewrite <- app_assoc.
    + destruct H as (-> & Ht & Hc & Hg & Hn & _). cbn.
      rewrite Ht, <- !app_assoc. auto.
  - destruct H as [-> ->]. cbn. auto.
Qed.

Lemma errorData_whitelist (err : error) :
  errorData Error err =
  if isWhitelisted err then Error err
  else "funding failed due to internal error"%string.
Proof. destruct err; reflexivity. Qed.

End FailFlow.

Lemma failFlowPrefix_no_send (peerKey id : bytes) (err : error)
    (f : fundingManager) :
  Forall (fun ev => isSendMessage ev = false) (failFlowPrefix peerKey id err f).
Proof.
  unfold failFlowPrefix.
  destruct (lookupReservation f (newSerializedKey peerKey) id) as [l|];
    [|constructor].
  cbv zeta. destruct (lnwallet.Cancel (reservation (ctxs f l)));
    repeat constructor.
Qed.




(** C10: [failFundingFlow] sends the peer an [Error] message for the
    temporary channel id whatever the registry holds.  When no context is
    registered for the peer and the id, [cancelReservationCtx] returns an
    error and no context, the wallet is not asked to cancel, nothing is sent
    on an error channel, and the message to the peer is the only effect. *)
Theorem C10_error_frame_unconditional
    (Error : error → string) (hex : bytes → string)
    (p : Peer) (tempChanID : bytes) (err : error) (f : fundingManager) :
  let f' := failFundingFlow Error hex p tempChanID err f in
  let frame :=
    EvSendMessage (IdentityKey p) false
      (lnwire.MsgError {| lnwire.ChanID := tempChanID;
                          lnwire.Data := errorData Error err |}) in
  (∃ pre, trace f' = trace f ++ pre ++ [frame]
          ∧ Forall (fun ev => isSendMessage ev = false) pre)
  ∧ (lookupReservation f (newSerializedKey (IdentityKey p)) tempChanID = None →
     (∃ e, cancelReservationCtx Error hex (IdentityKey p) tempChanID false f
           = (None, Some e, f))
     ∧ f' = emit frame f).
Proof.
  cbv zeta. split.
  - exists (failFlowPrefix (IdentityKey p) tempChanID err f).
    split; [apply failFundingFlow_trace | apply failFlowPrefix_no_send].
  - intros Hnone. unfold failFundingFlow.
    unfold lookupReservation in Hnone. unfold cancelReservationCtx.
    destruct (activeReservations f !! newSerializedKey (IdentityKey p))
      as [m|]; cbn in Hnone |- *.
    + rewrite Hnone. eauto.
    + eauto.
Qed.

Lemma C10_error_frame_unconditional_witness :
  failFundingFlow exampleError exampleHex otherPeer examplePendingID
    (ENew "peer disconnected") oneManager
  = emit (EvSendMessage (IdentityKey otherPeer) false
            (lnwire.MsgError
               {| lnwire.ChanID := examplePendingID;
                  lnwire.Data := "funding failed due to internal error" |}))
         oneManager.
Proof.
  refine (proj2 (proj2 (C10_error_frame_unconditional exampleError exampleHex
            otherPeer examplePendingID (ENew "peer disconnected") oneManager)
            _)).
  vm_compute. reflexivity.
Defined.

(** ** The checks on an inbound [Open] *)

Section FundingOpen.

Variable Error : error → string.
Variable hex : bytes → string.

(** A rejected [Open] is failed with the error of the first check that
    refuses it, before the wallet is asked for anything. *)
Lemma handleFundingOpen_rejected (now : Time) (p : Peer)
    (msg : lnwire.OpenChannel) (f : fundingManager) (err : error) :
  checkFundingOpen p msg f = Some err →
  handleFundingOpen Error hex now p msg f
  = failFundingFlow Error hex p (lnwire.PendingChannelID msg) err f.
Proof. unfold handleFundingOpen. now intros ->. Qed.

Lemma failFundingFlow_no_reservation (p : Peer) (id : bytes) (err : error)
    (f : fundingManager) :
  ∃ evs, trace (failFundingFlow Error hex p id err f) = trace f ++ evs
         ∧ Forall (fun ev => isInitChannelReservation ev = false) evs.
Proof.
  destruct (failFundingFlow_trace Error hex p id err f) as (Ht & _).
  eexists. split; [exact Ht|].
  apply Forall_app. split; [|repeat constructor].
  unfold failFlowPrefix.
  destruct (lookupReservation f (newSerializedKey (IdentityKey p)) id)
    as [l|]; [|constructor].
  cbv zeta. destruct (lnwallet.Cancel (reservation (ctxs f l)));
    repeat constructor.
Qed.

End FundingOpen.



(** C2, as the code has it: for an [Open] that has passed the database fetch,
    the pending-channel bound and the chain-sync check, an amount above
    [MaxChanSize] fails the flow with [ErrChanTooLarge]; an amount not above
    it and below [MinChanSize] fails the flow with [ErrChanTooSmall]; an
    amount from [MinChanSize] to [MaxChanSize], both included, passes both
    checks.  Every rejection by the checks comes before
    [InitChannelReservation]: the wallet is asked for no reservation. *)
Theorem C2_channel_size_bounds
    (Error : error → string) (hex : bytes → string) (now : Time)
    (p : Peer) (msg : lnwire.OpenChannel) (f : fundingManager)
    (channels : list channeldb.OpenChannel) :
  FetchOpenChannels (cfg f) (IdentityKey p) = inr channels →
  numPendingReservations f (newSerializedKey (IdentityKey p))
    + numPendingChannels channels < MaxPendingChannels (cfg f) →
  IsSynced (cfg f) = inr true →
  let amt := lnwire.FundingAmount msg in
  let lo := MinChanSize (cfg f) in
  let hi := MaxChanSize (cfg f) in
  (hi < amt →
     checkFundingOpen p msg f = Some (EReservation (ErrChanTooLarge amt hi)))
  ∧ (amt ≤ hi → amt < lo →
     checkFundingOpen p msg f = Some (EReservation (ErrChanTooSmall amt lo)))
  ∧ (lo ≤ amt ≤ hi →
     ∀ a b, checkFundingOpen p msg f ≠ Some (EReservation (ErrChanTooLarge a b))
          ∧ checkFundingOpen p msg f ≠ Some (EReservation (ErrChanTooSmall a b)))
  ∧ (∀ err, checkFundingOpen p msg f = Some err →
       handleFundingOpen Error hex now p msg f
       = failFundingFlow Error hex p (lnwire.PendingChannelID msg) err f
       ∧ ∃ evs, trace (handleFundingOpen Error hex now p msg f)
                = trace f ++ evs
              ∧ Forall (fun ev => isInitChannelReservation ev = false) evs).
Proof.
  intros Hfetch Hpending Hsync. cbv zeta.
  assert (Hcheck : checkFundingOpen p msg f =
    if MaxChanSize (cfg f) <? lnwire.FundingAmount msg
    then Some (EReservation
                 (ErrChanTooLarge (lnwire.FundingAmount msg) (MaxChanSize (cfg f))))
    else if lnwire.FundingAmount msg <? MinChanSize (cfg f)
    then Some (EReservation
                 (ErrChanTooSmall (lnwire.FundingAmount msg) (MinChanSize (cfg f))))
    else if RejectPush (cfg f) && (0 <? lnwire.PushAmount msg)
    then Some (EReservation ErrNonZeroPushAmount)
    else if negb (OpenChannelPredicate (cfg f) (IdentityKey p) msg)
    then Some (EFmt "open channel request rejected" [])
    else None).
  { unfold checkFundingOpen. rewrite Hfetch, Hsync.
    destruct (Z.leb_spec (MaxPendingChannels (cfg f))
                (numPendingReservations f (newSerializedKey (IdentityKey p))
                 + numPendingChannels channels)); [lia|reflexivity]. }
  split; [|split; [|split]].
  - intros Hgt. rewrite Hcheck.
    destruct (Z.ltb_spec (MaxChanSize (cfg f)) (lnwire.FundingAmount msg));
      [reflexivity|lia].
  - intros Hle Hlt. rewrite Hcheck.
    destruct (Z.ltb_spec (MaxChanSize (cfg f)) (lnwire.FundingAmount msg));
      [lia|].
    destruct (Z.ltb_spec (lnwire.FundingAmount msg) (MinChanSize (cfg f)));
      [reflexivity|lia].
  - intros [Hlo Hhi] a b. rewrite Hcheck.
    destruct (Z.ltb_spec (MaxChanSize (cfg f)) (lnwire.FundingAmount msg));
      [lia|].
    destruct (Z.ltb_spec (lnwire.FundingAmount msg) (MinChanSize (cfg f)));
      [lia|].
    destruct (RejectPush (cfg f) && (0 <? lnwire.PushAmount msg));
      [split; discriminate|].
    destruct (negb (OpenChannelPredicate (cfg f) (IdentityKey p) msg));
      split; discriminate.
  - intros err Herr.
    rewrite (handleFundingOpen_rejected Error hex now p msg f err Herr).
    split; [reflexivity|]. apply failFundingFlow_no_reservation.
Qed.

Lemma C2_channel_size_bounds_witness :
  checkFundingOpen examplePeer (exampleOpen 19999) idleManager
  = Some (EReservation (ErrChanTooSmall 19999 20000))
  ∧ checkFundingOpen examplePeer (exampleOpen 16777216) idleManager
    = Some (EReservation (ErrChanTooLarge 16777216 16777215))
  ∧ checkFundingOpen examplePeer (exampleOpen 20000) idleManager
    ≠ Some (EReservation (ErrChanTooSmall 20000 20000)).
Proof.
  split; [|split].
  - refine (proj1 (proj2 (C2_channel_size_bounds exampleError exampleHex
              exampleLater examplePeer (exampleOpen 19999) idleManager []
              _ _ _)) _ _);
      first [reflexivity | vm_compute; reflexivity | vm_compute; discriminate].
  - refine (proj1 (C2_channel_size_bounds exampleError exampleHex
              exampleLater examplePeer (exampleOpen 16777216) idleManager []
              _ _ _) _);
      first [reflexivity | vm_compute; reflexivity].
  - refine (proj2 (proj1 (proj2 (proj2 (C2_channel_size_bounds exampleError
              exampleHex exampleLater examplePeer (exampleOpen 20000)
              idleManager [] _ _ _))) _ 20000 20000));
      first [reflexivity | vm_compute; reflexivity
            | vm_compute; split; discriminate].
Defined.

(** C2, as stated, fails for an [Open] that an earlier check refuses: with
    the peer at its bound of pending channels, an amount below [MinChanSize]
    is failed with [ErrMaxPendingChannels], not with [ErrChanTooSmall]. *)
Lemma C2_earlier_check_counterexample :
  lnwire.FundingAmount (exampleOpen 19999) < MinChanSize (cfg fullManager)
  ∧ checkFundingOpen examplePeer (exampleOpen 19999) fullManager
    = Some (EFunding ErrMaxPendingChannels)
  ∧ trace (handleFundingOpen exampleError exampleHex exampleLater examplePeer
             (exampleOpen 19999) fullManager)
    = [EvSendMessage exampleRemoteKey false
         (lnwire.MsgError
            {| lnwire.ChanID := examplePendingID;
               lnwire.Data := "Number of pending channels exceed maximum" |})].
Proof.
  split; [|split]; vm_compute; reflexivity.
Qed.

(** ** Timestamps while a PSBT flow is parked *)

Section FundingAccept.

Variable Error : error → string.
Variable hex : bytes → string.
Variable MaxNumConfs : Z.
Variable NewChanIDFromOutPoint : OutPoint → bytes.
Variable NewSigFromSignature : bytes → error + bytes.

Lemma failFundingFlow_no_park (p : Peer) (id : bytes) (err : error)
    (f : fundingManager) :
  ∃ evs, trace (failFundingFlow Error hex p id err f) = trace f ++ evs
         ∧ Forall (fun ev => isGoWaitForPsbt ev = false) evs.
Proof.
  destruct (failFundingFlow_trace Error hex p id err f) as (Ht & _).
  eexists. split; [exact Ht|].
  apply Forall_app. split; [|repeat constructor].
  unfold failFlowPrefix.
  destruct (lookupReservation f (newSerializedKey (IdentityKey p)) id)
    as [l|]; [|constructor].
  cbv zeta. destruct (lnwallet.Cancel (reservation (ctxs f l)));
    repeat constructor.
Qed.

Lemma continueFundingAccept_no_park (l : loc) (id : bytes)
    (f : fundingManager) :
  ∃ evs, trace (continueFundingAccept Error hex NewChanIDFromOutPoint
                  NewSigFromSignature l id f) = trace f ++ evs
         ∧ Forall (fun ev => isGoWaitForPsbt ev = false) evs.
Proof.
  unfold continueFundingAccept.
  destruct (NewSigFromSignature _) as [e|sig].
  - apply (failFundingFlow_no_park _ _ _ (with_signed _ _ f)).
  - destruct (SendMessage _ _ _) as [e|].
    + match goal with
      | |- context [failFundingFlow _ _ ?p ?i ?e ?g] =>
        destruct (failFundingFlow_no_park p i e g) as (evs & Ht & Hf)
      end.
      eexists. split.
      * rewrite Ht. cbn. rewrite <- app_assoc. reflexivity.
      * constructor; [reflexivity | exact Hf].
    + eexists. split; [reflexivity|]. repeat constructor.
Qed.

Lemma not_parked (evs : list event) (intent : PsbtIntent) (l : loc)
    (id : bytes) :
  Forall (fun ev => isGoWaitForPsbt ev = false) evs →
  EvGoWaitForPsbt intent l id ∉ evs.
Proof.
  intros Hall Hin. apply list_elem_of_In in Hin.
  rewrite List.Forall_forall in Hall.
  specialize (Hall _ Hin). discriminate.
Qed.

End FundingAccept.

Lemma parked_absurd (f g g' : fundingManager) (pre evs : list event)
    (intent : PsbtIntent) (l : loc) (id : bytes) :
  trace g = trace f ++ pre →
  Forall (fun ev => isGoWaitForPsbt ev = false) pre →
  (∃ evs1, trace g' = trace g ++ evs1
           ∧ Forall (fun ev => isGoWaitForPsbt ev = false) evs1) →
  trace g' = trace f ++ evs →
  EvGoWaitForPsbt intent l id ∈ evs →
  False.
Proof.
  intros Hg Hpre (evs1 & Hg' & Hevs1) Ht Hin.
  rewrite Hg', Hg, <- app_assoc in Ht.
  apply app_inv_head in Ht. subst evs.
  eapply not_parked; [|exact Hin].
  apply Forall_app. now split.
Qed.

(** C9, as the code has it: when [handleFundingAccept] parks a flow on the
    PSBT-ready future, the context stays registered and its [lastUpdated] is
    the time at which the handler returned, set by the deferred
    [updateTimestamp], so [isLocked] is false.  The sweep spares the parked
    context because its wallet reservation reports [IsPsbt]; a context with
    the same timestamp whose reservation did not would be collected once the
    timeout has passed. *)
Theorem C9_parked_psbt_flow_timestamp
    (Error : error → string) (hex : bytes → string) (MaxNumConfs : Z)
    (NewChanIDFromOutPoint : OutPoint → bytes)
    (NewSigFromSignature : bytes → error + bytes)
    (now : Time) (p : Peer) (msg : lnwire.AcceptChannel)
    (f : fundingManager) (evs : list event)
    (intent : PsbtIntent) (l : loc) (id : bytes) :
  let f' := handleFundingAccept Error hex MaxNumConfs NewChanIDFromOutPoint
              NewSigFromSignature now p msg f in
  now ≠ 0 →
  trace f' = trace f ++ evs →
  EvGoWaitForPsbt intent l id ∈ evs →
  id = lnwire.aPendingChannelID msg
  ∧ lookupReservation f' (newSerializedKey (IdentityKey p)) id = Some l
  ∧ lastUpdated (ctxs f' l) = now
  ∧ isLocked (ctxs f' l) = false
  ∧ (lnwallet.IsPsbt (reservation (ctxs f' l)) = true →
     ∀ t, isZombie f' t l = false)
  ∧ (lnwallet.IsPsbt (reservation (ctxs f' l)) = false →
     ∀ t, ReservationTimeout (cfg f') < Since t now →
          isZombie f' t l = true).
Proof.
  cbv zeta. intros Hnow Ht Hin.
  unfold handleFundingAccept, getReservationCtx in *.
  destruct (lookupReservation f (newSerializedKey (IdentityKey p))
              (lnwire.aPendingChannelID msg)) as [l0|] eqn:Hlook.
  2: { rewrite <- (app_nil_r (trace f)) in Ht at 1.
       apply app_inv_head in Ht. subst evs. now apply elem_of_nil in Hin. }
  cbn [updateTimestamp with_ctxs trace] in Ht.
  destruct (MaxNumConfs <? lnwire.aMinAcceptDepth msg).
  { exfalso.
    eapply (parked_absurd f f _ [] evs);
      [symmetry; apply app_nil_r | constructor
      | apply failFundingFlow_no_park | exact Ht | exact Hin]. }
  match type of Ht with
  | context [emit ?ev f] => set (g := emit ev f) in *; set (ev0 := ev) in *
  end.
  assert (Hg : trace g = trace f ++ [ev0]) by reflexivity.
  assert (Hev0 : Forall (fun ev => isGoWaitForPsbt ev = false) [ev0])
    by (repeat constructor).
  destruct (lnwallet.CommitConstraints _ _ _) as [e|].
  { exfalso.
    eapply (parked_absurd f g _ [ev0] evs);
      [exact Hg | exact Hev0 | apply failFundingFlow_no_park
      | exact Ht | exact Hin]. }
  destruct (lnwallet.ProcessContribution _ _) as [e|].
  2: { exfalso.
       eapply (parked_absurd f g _ [ev0] evs);
         [exact Hg | exact Hev0 | apply continueFundingAccept_no_park
         | exact Ht | exact Hin]. }
  destruct e as [e|e|[n params]|t|fmt args];
    try (exfalso;
         eapply (parked_absurd f g _ [ev0] evs);
           [exact Hg | exact Hev0 | apply failFundingFlow_no_park
           | exact Ht | exact Hin]).
  destruct params as [e|addr amt [e|buf]];
    try (exfalso;
         eapply (parked_absurd f g _ [ev0] evs);
           [exact Hg | exact Hev0 | apply failFundingFlow_no_park
           | exact Ht | exact Hin]).
  (* the parked path *)
  cbn [emit with_trace trace] in Ht.
  rewrite Hg, <- !app_assoc in Ht. apply app_inv_head in Ht. subst evs.
  cbn in Hin.
  apply elem_of_cons in Hin as [Hin|Hin]; [subst ev0; discriminate|].
  apply elem_of_cons in Hin as [Hin|Hin]; [discriminate|].
  apply elem_of_cons in Hin as [Hin|Hin]; [|now apply elem_of_nil in Hin].
  injection Hin as -> -> ->.
  assert (Hctx : ∀ g0, ctxs (updateTimestamp l0 now g0) l0
                       = set_lastUpdated now (ctxs g0 l0)).
  { intros g0. cbn. unfold store. now rewrite decide_True. }
  split; [reflexivity|].
  split; [exact Hlook|].
  split; [now rewrite Hctx|].
  assert (Hunlocked : isLocked (ctxs (updateTimestamp l0 now
            (emit (EvGoWaitForPsbt (PsbtIntentOf n (FundingParamsOk addr amt
                     (SerializeOk buf))) l0 (lnwire.aPendingChannelID msg))
               (emit (EvUpdatesChan l0
                        {| PendingChanId := lnwire.aPendingChannelID msg;
                           FundingAddress := addr;
                           PsbtFundingAmount := amt;
                           Psbt := buf |}) g))) l0) = false).
  { rewrite Hctx. unfold isLocked, IsZero. cbn. now apply Z.eqb_neq. }
  split; [exact Hunlocked|].
  split.
  - intros Hpsbt t. unfold isZombie. rewrite Hunlocked, Hpsbt. reflexivity.
  - intros Hpsbt t Hexp. unfold isZombie. rewrite Hunlocked, Hpsbt.
    rewrite Hctx. cbn. now apply Z.ltb_lt.
Qed.

Lemma C9_parked_psbt_flow_timestamp_witness :
  lastUpdated (ctxs parkedManager 0%nat) = exampleLater
  ∧ isLocked (ctxs parkedManager 0%nat) = false
  ∧ ∀ t, isZombie parkedManager t 0%nat = false.
Proof.
  destruct (C9_parked_psbt_flow_timestamp exampleError exampleHex 20
              exampleNewChanID exampleNewSig exampleLater examplePeer
              exampleAccept psbtManager parkedEvents examplePsbtIntent
              0%nat examplePendingID)
    as (_ & _ & Hupdated & Hunlocked & Hpsbt & _).
  - discriminate.
  - vm_compute. reflexivity.
  - unfold parkedEvents. set_solver.
  - split; [exact Hupdated|]. split; [exact Hunlocked|].
    apply Hpsbt. vm_compute. reflexivity.
Defined.

(** C9, as stated, fails: the handler that parks the flow on the PSBT-ready
    future leaves the context unlocked.  The context below is registered with
    the zero timestamp; once [handleFundingAccept] has started [waitForPsbt]
    and returned, its timestamp is the time of the return and [isLocked] is
    false, for as long as the flow stays parked. *)
Lemma C9_parked_not_locked_counterexample :
  isLocked (ctxs psbtManager 0%nat) = true
  ∧ trace parkedManager = parkedEvents
  ∧ lookupReservation parkedManager
      (newSerializedKey (IdentityKey examplePeer)) examplePendingID
    = Some 0%nat
  ∧ lastUpdated (ctxs parkedManager 0%nat) = exampleLater
  ∧ isLocked (ctxs parkedManager 0%nat) = false.
Proof.
  repeat split; vm_compute; reflexivity.
Qed.

(** ** The zombie sweep *)

Section Sweep.

Variable range : ∀ V : Type, gmap bytes V → list (bytes * V).
Variable f : fundingManager.
Variable now : bytes → bytes → Time.

(** What holds of every entry collected for one peer. *)
Lemma collectPeer_inv (P : bytes → loc → Prop) (peerIDKey : bytes)
    (m z : gmap bytes loc) :
  (∀ id l, z !! id = Some l → P id l) →
  (∀ id l, (id, l) ∈ range loc m →
           isZombie f (now peerIDKey id) l = true → P id l) →
  ∀ id l, collectPeer range f now peerIDKey m z !! id = Some l → P id l.
Proof.
  unfold collectPeer. generalize (range loc m) as xs.
  intros xs. revert z.
  induction xs as [|[id0 l0] xs IH]; intros z Hz Hm id l; cbn.
  - apply Hz.
  - apply IH.
    + intros id' l'.
      destruct (isZombie f (now peerIDKey id0) l0) eqn:Hzb; [|apply Hz].
      destruct (decide (id0 = id')) as [->|Hne].
      * rewrite lookup_insert_eq. intros [= <-].
        apply Hm; [left|assumption].
      * rewrite lookup_insert_ne by assumption. apply Hz.
    + intros id' l' Hin. apply Hm. now right.
Qed.

Lemma zombieReservations_inv (P : bytes → loc → Prop) :
  (∀ peerIDKey m id l,
     (peerIDKey, m) ∈ range (gmap bytes loc) (activeReservations f) →
     (id, l) ∈ range loc m →
     isZombie f (now peerIDKey id) l = true → P id l) →
  ∀ id l, zombieReservations range f now !! id = Some l → P id l.
Proof.
  unfold zombieReservations.
  generalize (range (gmap bytes loc) (activeReservations f)) as xs.
  intros xs Hxs.
  assert (Hgen : ∀ z, (∀ id l, z !! id = Some l → P id l) →
            ∀ id l,
              fold_left
                (fun z '(peerIDKey, pendingReservations) =>
                   collectPeer range f now peerIDKey pendingReservations z)
                xs z !! id = Some l → P id l).
  { induction xs as [|[k m] xs IH]; intros z Hz id l; cbn; [apply Hz|].
    apply IH.
    - intros k' m' id' l' Hin. apply Hxs. now right.
    - apply collectPeer_inv; [exact Hz|].
      intros id' l' Hin. apply (Hxs k m); [left|assumption]. }
  apply Hgen. intros id l. now rewrite lookup_empty.
Qed.

(** The sweep collects only registered contexts that are not locked, whose
    reservation is not a PSBT one, and whose last update is older than the
    timeout. *)
Lemma zombieReservations_sound (id : bytes) (l : loc) :
  rangeOrder range →
  zombieReservations range f now !! id = Some l →
  ∃ peerIDKey,
    lookupReservation f peerIDKey id = Some l
    ∧ isLocked (ctxs f l) = false
    ∧ lnwallet.IsPsbt (reservation (ctxs f l)) = false
    ∧ ReservationTimeout (cfg f)
      < Since (now peerIDKey id) (lastUpdated (ctxs f l)).
Proof.
  intros Hrange.
  apply (zombieReservations_inv
           (fun id l => ∃ peerIDKey,
              lookupReservation f peerIDKey id = Some l
              ∧ isLocked (ctxs f l) = false
              ∧ lnwallet.IsPsbt (reservation (ctxs f l)) = false
              ∧ ReservationTimeout (cfg f)
                < Since (now peerIDKey id) (lastUpdated (ctxs f l)))).
  intros k m id' l' Hk Hm Hz.
  rewrite (Hrange _ _) in Hk. rewrite (Hrange _ _) in Hm.
  apply elem_of_map_to_list in Hk. apply elem_of_map_to_list in Hm.
  exists k. unfold lookupReservation. rewrite Hk. cbn.
  split; [exact Hm|].
  unfold isZombie in Hz.
  destruct (isLocked (ctxs f l')); [discriminate|].
  apply andb_true_iff in Hz as [Hp He].
  apply negb_true_iff in Hp. apply Z.ltb_lt in He. auto.
Qed.

End Sweep.

(** A map all of whose keys are one key has at most one entry. *)
Lemma size_single_key (z : gmap bytes loc) (k : bytes) :
  (∀ id l, z !! id = Some l → id = k) → (size z ≤ 1)%nat.
Proof.
  intros Hz. rewrite <- (size_dom (D := gset bytes)).
  rewrite <- (size_singleton (C := gset bytes) k). apply subseteq_size.
  intros id Hid. apply elem_of_dom in Hid as [l Hl].
  apply elem_of_singleton. eauto.
Qed.

(** C5, at the failing input: two peers each hold a reservation under the
    same pending channel id; neither is locked, neither is a PSBT flow, both
    were last updated an hour before the sweep, against a timeout of ten
    minutes.  Both are zombies, but the sweep collects them into a map keyed
    by the pending channel id alone, so whatever the order of the walk it
    fails at most one of the two. *)
Theorem C5_sweep_skips_shared_pending_id
    (range : ∀ V : Type, gmap bytes V → list (bytes * V)) :
  rangeOrder range →
  let now := fun _ _ : bytes => exampleLater in
  lookupReservation collidingManager
    (newSerializedKey (IdentityKey examplePeer)) examplePendingID = Some 0%nat
  ∧ lookupReservation collidingManager
      (newSerializedKey (IdentityKey otherPeer)) examplePendingID = Some 1%nat
  ∧ isZombie collidingManager exampleLater 0%nat = true
  ∧ isZombie collidingManager exampleLater 1%nat = true
  ∧ (length (range loc (zombieReservations range collidingManager now)) ≤ 1)%nat.
Proof.
  intros Hrange. cbv zeta.
  split; [vm_compute; reflexivity|].
  split; [vm_compute; reflexivity|].
  split; [vm_compute; reflexivity|].
  split; [vm_compute; reflexivity|].
  rewrite (Hrange _ _), length_map_to_list.
  apply (size_single_key _ examplePendingID).
  apply zombieReservations_inv.
  intros k m id l Hk Hm _.
  rewrite (Hrange _ _) in Hk. rewrite (Hrange _ _) in Hm.
  assert (Hall : forallb (fun km : bytes * gmap bytes loc =>
                   forallb (fun e : bytes * loc =>
                              bool_decide (e.1 = examplePendingID))
                           (map_to_list km.2))
                   (map_to_list (activeReservations collidingManager))
                 = true)
    by (vm_compute; reflexivity).
  rewrite forallb_forall in Hall.
  apply list_elem_of_In in Hk. specialize (Hall _ Hk). cbn in Hall.
  rewrite forallb_forall in Hall.
  apply list_elem_of_In in Hm. specialize (Hall _ Hm).
  now apply bool_decide_eq_true in Hall.
Qed.

Lemma C5_sweep_skips_shared_pending_id_witness :
  (length (map_to_list
             (zombieReservations (fun V => map_to_list) collidingManager
                (fun _ _ => exampleLater))) ≤ 1)%nat.
Proof.
  assert (Hrange : rangeOrder (fun V => map_to_list))
    by (intros V m; reflexivity).
  pose proof (C5_sweep_skips_shared_pending_id (fun V => map_to_list) Hrange)
    as H.
  cbv zeta beta in H.
  destruct H as (_ & _ & _ & _ & H). exact H.
Defined.

(** ** The confirmation wait *)

Section WaitFacts.

Variable Error : error → string.
Variable ch : channeldb.OpenChannel.

Lemma run_snoc (s : waitState) (tr : list label) (l : label) :
  run Error ch s (tr ++ [l]) =
  match run Error ch s tr with
  | Some s' => step Error ch s' l
  | None => None
  end.
Proof.
  revert s. induction tr as [|l0 tr IH]; intros s; cbn.
  - now destruct (step Error ch s l).
  - destruct (step Error ch s l0); [apply IH | reflexivity].
Qed.

Lemma waitInvariant_weaken (tr : list label) (l : label) (s : waitState) :
  waitInvariant ch tr s → waitInvariant ch (tr ++ [l]) s.
Proof.
  intros (H1 & H2 & H3 & H4 & H5).
  split; [exact H1|].
  split; [intros Hc; destruct (H2 Hc) as (h & Hin & Hh);
          exists h; split; [apply elem_of_app; now left | exact Hh]|].
  split; [exact H3|].
  split; [intros c Hc; destruct (H4 c Hc) as (d & Hin & Hd);
          exists d; split; [apply elem_of_app; now left | exact Hd]|].
  intros r Hr. specialize (H5 r Hr). destruct r as [e|c].
  - destruct H5 as [H5|[H5|[(He & Hi & h & Hin & Hh)|H5]]]; auto.
    right; right; left. split; [exact He|]. split; [exact Hi|].
    exists h. split; [apply elem_of_app; now left | exact Hh].
  - destruct H5 as (d & Hin & Hd). exists d. split; [apply elem_of_app; now left | exact Hd].
Qed.

Lemma last_elem (tr : list label) (l : label) : l ∈ tr ++ [l].
Proof. apply elem_of_app. right. now left. Qed.

Lemma waitInvariant_step (tr : list label) (l : label) (s s' : waitState) :
  waitInvariant ch tr s →
  step Error ch s l = Some s' →
  waitInvariant ch (tr ++ [l]) s'.
Proof.
  intros Hinv Hstep.
  apply (waitInvariant_weaken tr l) in Hinv.
  pose proof (last_elem tr l) as Hlast.
  destruct s as [w c t cc tc cn q].
  unfold waitInvariant in *.
  destruct Hinv as (H1 & H2 & H3 & H4 & H5). cbn in H1, H2, H3, H4, H5.
  destruct (channeldb.IsInitiator ch) eqn:Hinit;
    [destruct (H1 eq_refl) as [-> ->]|]; clear H1.
  all: destruct l; cbn in Hstep;
    try discriminate;
    repeat match type of Hstep with
           | match ?x with _ => _ end = _ => destruct x eqn:?; try discriminate
           | (if ?x then _ else _) = _ => destruct x eqn:?; try discriminate
           end;
    injection Hstep as <-;
    (split; [|split; [|split; [|split]]]); cbn;
    try assumption; try discriminate; try (intros; discriminate);
    try (split; reflexivity).
  all: intros;
    repeat match goal with
           | H : WaiterReturned _ = WaiterReturned _ |- _ =>
             injection H as <-
           | H : ConfSending _ = ConfSending _ |- _ => injection H as <-
           | H : TimeoutChanErr _ = TimeoutChanErr _ |- _ => injection H as <-
           end;
    try (eexists; split; [exact Hlast | reflexivity]);
    try (eexists; eexists; reflexivity);
    eauto.
  - exists height. split; [exact Hlast | now apply Z.leb_le].
  - destruct (H3 e eq_refl) as (fmt & args & ->).
    right; right; right. split; [reflexivity|]. split; [discriminate|].
    eauto.
  - right; right; left. split; [reflexivity|]. split; [reflexivity|].
    now apply H2.
Qed.

(** Every state reached from the initial one satisfies the invariant. *)
Lemma waitInvariant_run (tr : list label) (s : waitState) :
  run Error ch (initWait ch) tr = Some s → waitInvariant ch tr s.
Proof.
  revert s. induction tr as [|l tr IH] using rev_ind; intros s Hrun.
  - injection Hrun as <-. unfold waitInvariant, initWait. cbn.
    split; [intros ->; split; reflexivity|].
    repeat split; intros; discriminate.
  - rewrite run_snoc in Hrun.
    destruct (run Error ch (initWait ch) tr) as [s0|] eqn:Hs0;
      [|discriminate].
    eapply waitInvariant_step; [apply IH; reflexivity | exact Hrun].
Qed.

End WaitFacts.

(** C4, as the code has it: [waitForFundingWithTimeout] returns
    [ErrConfirmationTimeout] only for a channel we did not initiate, and only
    after the watcher has received a block epoch whose height, as a [uint32],
    is at least [FundingBroadcastHeight + 2016]; such an epoch closes
    [timeoutChan], after which the waiter can return the timeout, and an
    earlier epoch leaves the watcher waiting.  For an initiator the watcher is
    never started and [timeoutChan] stays empty, so the wait ends in a
    confirmation, in the shutdown error, or in the failure of the
    confirmation watcher, never in a timeout. *)
Theorem C4_confirmation_timeout
    (Error : error → string) (ch : channeldb.OpenChannel) :
  (∀ tr s, run Error ch (initWait ch) tr = Some s →
     channeldb.IsInitiator ch = true →
     timeout s = TimeoutNotStarted ∧ timeoutChan s = TimeoutChanEmpty)
  ∧ (∀ tr r, waitForFundingWithTimeout Error ch tr = Some r →
       (r = inl ErrConfirmationTimeout →
          channeldb.IsInitiator ch = false
          ∧ ∃ h, LEpoch h ∈ tr ∧ maxHeight ch ≤ uint32 h)
       ∧ (channeldb.IsInitiator ch = true →
          (∃ c, r = inr c) ∨ r = inl ErrFundingManagerShuttingDown
          ∨ r = inl errWaitFailed))
  ∧ (channeldb.IsInitiator ch = false →
     ∀ h, maxHeight ch ≤ uint32 h →
       waitForFundingWithTimeout Error ch
         [LTimeoutRegistered; LEpoch h; LWaiterTimeout]
       = Some (inl ErrConfirmationTimeout))
  ∧ (∀ s h, timeout s = TimeoutSelect → uint32 h < maxHeight ch →
       step Error ch s (LEpoch h) = Some s).
Proof.
  split; [|split; [|split]].
  - intros tr s Hrun Hinit.
    destruct (waitInvariant_run Error ch tr s Hrun) as (H1 & _). auto.
  - intros tr r Hr. unfold waitForFundingWithTimeout in Hr.
    destruct (run Error ch (initWait ch) tr) as [s|] eqn:Hrun;
      [|discriminate].
    destruct (waiter s) as [|r0] eqn:Hw; [discriminate|].
    injection Hr as ->.
    destruct (waitInvariant_run Error ch tr s Hrun) as (_ & _ & _ & _ & H5).
    specialize (H5 r Hw).
    split.
    + intros ->.
      destruct H5 as [H5|[H5|[(_ & Hi & Hh)|(_ & Hne & _)]]];
        try discriminate; [auto | congruence].
    + intros Hinit. destruct r as [e|c]; [|eauto].
      destruct H5 as [->|[->|[(_ & Hi & _)|(Hi & _)]]];
        auto; congruence.
  - intros Hinit h Hh.
    unfold waitForFundingWithTimeout, initWait. cbn. rewrite Hinit. cbn.
    apply Z.leb_le in Hh. rewrite Hh. reflexivity.
  - intros s h Hs Hlt. unfold step. rewrite Hs.
    apply Z.leb_gt in Hlt. now rewrite Hlt.
Qed.

Lemma C4_confirmation_timeout_witness :
  waitForFundingWithTimeout exampleError pendingDbChannel
    [LTimeoutRegistered; LEpoch 652016; LWaiterTimeout]
  = Some (inl ErrConfirmationTimeout).
Proof.
  refine (proj1 (proj2 (proj2
            (C4_confirmation_timeout exampleError pendingDbChannel)))
            _ 652016 _).
  - reflexivity.
  - vm_compute. discriminate.
Defined.

(** C4, as stated, fails twice.  An initiator whose confirmation watcher
    cannot register with the notifier ends its wait in an error that is
    neither a confirmation nor the shutdown.  And for a responder the deadline
    epoch can reach the watcher before the confirmation reaches the notifier's
    client and the wait still end in the confirmation, when the waiter's
    [select] finds both channels ready. *)
Lemma C4_wait_counterexample :
  (channeldb.IsInitiator initiatorChannel = true
   ∧ waitForFundingWithTimeout exampleError initiatorChannel
       [LConfRegisterFails; LWaiterConf]
     = Some (inl errWaitFailed)
   ∧ errWaitFailed ≠ ErrFundingManagerShuttingDown)
  ∧ (channeldb.IsInitiator pendingDbChannel = false
     ∧ deadlineBeforeConfirmation pendingDbChannel raceRun
     ∧ waitForFundingWithTimeout exampleError pendingDbChannel raceRun
       = Some (inr (confirmedChannelOf pendingDbChannel exampleConfirmation))).
Proof.
  split.
  - split; [reflexivity|]. split; [reflexivity | discriminate].
  - split; [reflexivity|]. split; [|reflexivity].
    exists [LConfRegistered; LTimeoutRegistered], 652016,
           [LConfirmed exampleConfirmation; LWaiterConf].
    split; [reflexivity|]. split; [vm_compute; discriminate|].
    intros d Hin.
    apply elem_of_cons in Hin as [Hin|Hin]; [discriminate|].
    apply elem_of_cons in Hin as [Hin|Hin]; [discriminate|].
    now apply elem_of_nil in Hin.
Qed.

(** * Further properties of the code *)

(** ** The opening-state store, continued *)


(** X2: a save or a delete for one outpoint does not change what a read
    returns for another. *)
Theorem X2_other_outpoints_untouched
    (byteOrder : ByteOrder) (ToUint64 : ShortChannelID → Z)
    (NewShortChanIDFromInt : Z → ShortChannelID)
    (db : DB) (o o' : OutPoint) (s : channelOpeningState)
    (c : ShortChannelID) :
  wf_OutPoint o → wf_OutPoint o' → o' ≠ o →
  getChannelOpeningState byteOrder NewShortChanIDFromInt
    (fst (saveChannelOpeningState byteOrder ToUint64 db o' s c)) o
  = getChannelOpeningState byteOrder NewShortChanIDFromInt db o
  ∧ getChannelOpeningState byteOrder NewShortChanIDFromInt
      (fst (deleteChannelOpeningState db o')) o
    = getChannelOpeningState byteOrder NewShortChanIDFromInt db o.
Proof.
  intros Ho Ho' Hne.
  assert (Hk : writeOutpoint o' ≠ writeOutpoint o).
  { intros Heq. apply Hne. now apply writeOutpoint_inj. }
  rewrite !get_storedRecord.
  rewrite (stored_save_ne byteOrder ToUint64) by assumption.
  now rewrite stored_delete_ne by assumption.
Qed.

Lemma X2_other_outpoints_untouched_witness :
  getChannelOpeningState BigEndian unpackShortChanID
    (fst (deleteChannelOpeningState exampleSavedDB otherOutPoint))
    exampleOutPoint
  = getChannelOpeningState BigEndian unpackShortChanID exampleSavedDB
      exampleOutPoint.
Proof.
  refine (proj2 (X2_other_outpoints_untouched BigEndian packShortChanID
            unpackShortChanID exampleSavedDB exampleOutPoint otherOutPoint
            markedOpen exampleShortChanID _ _ _)).
  - split; [reflexivity | simpl; lia].
  - split; [reflexivity | simpl; lia].
  - discriminate.
Defined.



Lemma length_openingStateValue (byteOrder : ByteOrder)
    (ToUint64 : ShortChannelID → Z) (s : channelOpeningState)
    (c : ShortChannelID) :
  length (openingStateValue byteOrder ToUint64 s c) = 10%nat.
Proof.
  unfold openingStateValue, PutUint16, PutUint64.
  now rewrite length_app, !length_PutUint.
Qed.

Lemma recordsWellSized_save (byteOrder : ByteOrder)
    (ToUint64 : ShortChannelID → Z) (db : DB) (o : OutPoint)
    (s : channelOpeningState) (c : ShortChannelID) :
  recordsWellSized db →
  recordsWellSized (fst (saveChannelOpeningState byteOrder ToUint64 db o s c)).
Proof.
  intros Hdb b k v.
  unfold saveChannelOpeningState, kvdb.Update, kvdb.Put,
    kvdb.CreateTopLevelBucket.
  pose proof (writeOutpoint_nonempty o) as Hne.
  destruct (writeOutpoint o) as [|k0 ks] eqn:Hk; [congruence|].
  destruct (db !! channelOpeningStateBucket) as [b0|] eqn:Hb.
  - rewrite Hb. cbn. rewrite lookup_insert_eq. intros [= <-].
    destruct (decide (k0 :: ks = k)) as [<-|Hd].
    + rewrite lookup_insert_eq. intros [= <-].
      apply length_openingStateValue.
    + rewrite lookup_insert_ne by assumption. now apply Hdb.
  - rewrite lookup_insert_eq. cbn. rewrite lookup_insert_eq. intros [= <-].
    destruct (decide (k0 :: ks = k)) as [<-|Hd].
    + rewrite lookup_insert_eq. intros [= <-].
      apply length_openingStateValue.
    + rewrite lookup_insert_ne by assumption. now rewrite lookup_empty.
Qed.

Lemma recordsWellSized_delete (db : DB) (o : OutPoint) :
  recordsWellSized db →
  recordsWellSized (fst (deleteChannelOpeningState db o)).
Proof.
  intros Hdb b k v.
  unfold deleteChannelOpeningState, kvdb.Update, kvdb.ReadBucket, kvdb.Delete.
  destruct (db !! channelOpeningStateBucket) as [b0|] eqn:Hb; cbn [fst].
  - rewrite lookup_insert_eq. intros [= <-].
    intros Hv. apply lookup_delete_Some in Hv as [_ Hv]. now apply (Hdb b0 k).
  - rewrite Hb. discriminate.
Qed.

(** X4: on a database that only [saveChannelOpeningState] and
    [deleteChannelOpeningState] have written to, whatever the sequence of
    calls, [getChannelOpeningState] never panics on a short record: it
    returns a state and a short channel id, or [ErrChannelNotFound]. *)
Theorem X4_get_never_panics
    (byteOrder : ByteOrder) (ToUint64 : ShortChannelID → Z)
    (NewShortChanIDFromInt : Z → ShortChannelID)
    (ops : list storeOp) (o : OutPoint) :
  let db := run_storeOps byteOrder ToUint64 ∅ ops in
  (∃ s c, getChannelOpeningState byteOrder NewShortChanIDFromInt db o
          = Ok (s, c))
  ∨ getChannelOpeningState byteOrder NewShortChanIDFromInt db o
    = Err ErrChannelNotFound.
Proof.
  cbv zeta.
  assert (Hsized : recordsWellSized (run_storeOps byteOrder ToUint64 ∅ ops)).
  { unfold run_storeOps.
    assert (Hgen : ∀ db, recordsWellSized db →
              recordsWellSized
                (fold_left (run_storeOp byteOrder ToUint64) ops db)).
    { induction ops as [|op ops' IH]; intros db Hdb; [exact Hdb|].
      cbn [fold_left]. apply IH. destruct op; cbn.
      - now apply recordsWellSized_save.
      - now apply recordsWellSized_delete. }
    apply Hgen. intros b k v Hb. now rewrite lookup_empty in Hb. }
  rewrite get_storedRecord. unfold storedRecord.
  destruct (run_storeOps byteOrder ToUint64 ∅ ops !! channelOpeningStateBucket)
    as [b|] eqn:Hb; cbn; [|now right].
  destruct (b !! writeOutpoint o) as [v|] eqn:Hv; [|now right].
  left. pose proof (Hsized b _ v Hb Hv) as Hlen.
  unfold Uint16, Uint64, GetUint.
  rewrite decide_False by (rewrite length_take; lia).
  rewrite decide_False by (rewrite length_drop; lia).
  eauto.
Qed.

(** ** The opening sequence *)

Section OpeningSequenceFacts.

Variable byteOrder : ByteOrder.
Variable ToUint64 : ShortChannelID → Z.
Variable NewShortChanIDFromInt : Z → ShortChannelID.
Variable Error : error → string.
Variable env : openingEnv.

Local Abbreviation get := (getChannelOpeningState byteOrder NewShortChanIDFromInt).
Local Abbreviation save := (saveChannelOpeningState byteOrder ToUint64).
Local Abbreviation step := (stateStep byteOrder ToUint64 Error env).
Local Abbreviation loop :=
  (advanceLoop byteOrder ToUint64 NewShortChanIDFromInt Error env).

Lemma save_pair (db : DB) (o : OutPoint) (s : channelOpeningState)
    (c : ShortChannelID) :
  save db o s c = (fst (save db o s c), None).
Proof.
  rewrite <- (save_succeeds byteOrder ToUint64 db o s c).
  now destruct (save db o s c).
Qed.

Lemma get_save (db : DB) (o : OutPoint) (s : channelOpeningState)
    (c : ShortChannelID) :
  get (fst (save db o s c)) o
  = Ok (uint8 s, NewShortChanIDFromInt (uint64 (ToUint64 c))).
Proof.
  rewrite get_storedRecord, stored_save_eq.
  destruct (decode_value byteOrder ToUint64 s c) as [-> ->].
  do 2 f_equal. unfold uint8, uint16, uintN.
  apply Z.mod_mod_divide. exists (2 ^ 8). reflexivity.
Qed.

Lemma get_Ok_bucket (db : DB) (o : OutPoint) (s : channelOpeningState)
    (c : ShortChannelID) :
  get db o = Ok (s, c) → ∃ b, db !! channelOpeningStateBucket = Some b.
Proof.
  unfold getChannelOpeningState, kvdb.ReadBucket.
  destruct (db !! channelOpeningStateBucket) as [b|]; [eauto|discriminate].
Qed.

Lemma delete_succeeds (db : DB) (o : OutPoint) (b : Bucket) :
  db !! channelOpeningStateBucket = Some b →
  snd (deleteChannelOpeningState db o) = None
  ∧ storedRecord (fst (deleteChannelOpeningState db o)) o = None.
Proof.
  intros Hb.
  unfold deleteChannelOpeningState, kvdb.Update, kvdb.ReadBucket, kvdb.Delete,
    storedRecord.
  rewrite Hb. cbn [fst snd]. split; [reflexivity|].
  rewrite lookup_insert_eq. cbn. apply lookup_delete_eq.
Qed.

Lemma get_delete (db : DB) (o : OutPoint) (s : channelOpeningState)
    (c : ShortChannelID) :
  get db o = Ok (s, c) →
  snd (deleteChannelOpeningState db o) = None
  ∧ get (fst (deleteChannelOpeningState db o)) o = Err ErrChannelNotFound.
Proof.
  intros Hget. destruct (get_Ok_bucket db o s c Hget) as [b Hb].
  destruct (delete_succeeds db o b Hb) as (Hs & Hr).
  split; [exact Hs|]. now rewrite get_storedRecord, Hr.
Qed.

(** X5: a successful [stateStep] on the state read from the store moves the
    stored record exactly one step forward: from [markedOpen] to
    [fundingLockedSent] after [sendFundingLocked], from [fundingLockedSent]
    to [addedToRouterGraph] after [addToRouterGraph], and from
    [addedToRouterGraph] to no record at all after [annAfterSixConfs]; the
    short channel id is kept, as repacked. *)
Theorem X5_stateStep_advances_one_state
    (db db' : DB) (channel : channeldb.OpenChannel) (scid : ShortChannelID)
    (pendingChanID : bytes) (s : channelOpeningState)
    (acts : list openingAction) :
  let o := channeldb.FundingOutpoint channel in
  let scid' := NewShortChanIDFromInt (uint64 (ToUint64 scid)) in
  get db o = Ok (s, scid) →
  step db channel scid pendingChanID s = (db', acts, None) →
  (s = markedOpen
   ∧ hd_error acts = Some (ActSendFundingLocked scid)
   ∧ get db' o = Ok (fundingLockedSent, scid'))
  ∨ (s = fundingLockedSent
     ∧ hd_error acts = Some (ActAddToRouterGraph scid)
     ∧ get db' o = Ok (addedToRouterGraph, scid'))
  ∨ (s = addedToRouterGraph
     ∧ acts = [ActAnnAfterSixConfs scid]
     ∧ get db' o = Err ErrChannelNotFound).
Proof.
  cbv zeta. intros Hget Hstep. unfold stateStep in Hstep.
  destruct (Z.eqb_spec s markedOpen) as [->|H0].
  { left. destruct (sendFundingLocked env channel scid); [discriminate|].
    rewrite save_pair in Hstep. injection Hstep as <- <-.
    split; [reflexivity|]. split; [reflexivity|]. apply get_save. }
  destruct (Z.eqb_spec s fundingLockedSent) as [->|H1].
  { right; left. destruct (addToRouterGraph env channel scid); [discriminate|].
    rewrite save_pair in Hstep.
    destruct (updateChan env); try discriminate;
      injection Hstep as <- <-;
      (split; [reflexivity|]; split; [reflexivity|]; apply get_save). }
  destruct (Z.eqb_spec s addedToRouterGraph) as [->|H2]; [|discriminate].
  right; right. destruct (annAfterSixConfs env channel scid); [discriminate|].
  destruct (get_delete db _ _ _ Hget) as [Hs Hg].
  destruct (deleteChannelOpeningState db (channeldb.FundingOutpoint channel))
    as [db0 e0]; cbn in Hs, Hg. subst e0.
  injection Hstep as <- <-. auto.
Qed.

(** X6: a [stateStep] that returns an error has left the store as it was,
    with one exception: when the shutdown signal wins against the send of the
    [ChanOpen] update to the caller, the state [addedToRouterGraph] is already
    stored.  A state other than the three opening states is an error and
    calls nothing. *)
Theorem X6_stateStep_failure_keeps_state
    (db db' : DB) (channel : channeldb.OpenChannel) (scid : ShortChannelID)
    (pendingChanID : bytes) (s : channelOpeningState)
    (acts : list openingAction) (err : error) :
  let o := channeldb.FundingOutpoint channel in
  step db channel scid pendingChanID s = (db', acts, Some err) →
  (db' = db
   ∨ (s = fundingLockedSent ∧ updateChan env = UpdateChanQuit
      ∧ err = ErrFundingManagerShuttingDown
      ∧ db' = fst (save db o addedToRouterGraph scid)))
  ∧ (s ≠ markedOpen → s ≠ fundingLockedSent → s ≠ addedToRouterGraph →
     acts = [] ∧ db' = db).
Proof.
  cbv zeta. intros Hstep. unfold stateStep in Hstep.
  destruct (Z.eqb_spec s markedOpen) as [->|H0].
  { split; [|congruence].
    destruct (sendFundingLocked env channel scid).
    - injection Hstep as <- _ _. now left.
    - rewrite save_pair in Hstep. discriminate. }
  destruct (Z.eqb_spec s fundingLockedSent) as [->|H1].
  { split; [|congruence].
    destruct (addToRouterGraph env channel scid).
    - injection Hstep as <- _ _. now left.
    - rewrite save_pair in Hstep.
      destruct (updateChan env) eqn:Hu; try discriminate.
      injection Hstep as <- _ <-. right. auto. }
  destruct (Z.eqb_spec s addedToRouterGraph) as [->|H2].
  { split; [|congruence].
    destruct (annAfterSixConfs env channel scid).
    - injection Hstep as <- _ _. now left.
    - unfold deleteChannelOpeningState, kvdb.Update in Hstep.
      destruct (match kvdb.ReadBucket db channelOpeningStateBucket with
                | Some _ => _ | None => _ end) as [e|db0];
        [|discriminate].
      injection Hstep as <- _ _. now left. }
  injection Hstep as <- <- _. auto.
Qed.

Lemma loop_unfold (fuel : nat) (db : DB) (channel : channeldb.OpenChannel)
    (pendingChanID : bytes) (s : channelOpeningState)
    (scid : ShortChannelID) (db1 : DB) (acts : list openingAction) :
  get db (channeldb.FundingOutpoint channel) = Ok (s, scid) →
  step db channel scid pendingChanID s = (db1, acts, None) →
  loop (S fuel) db channel pendingChanID =
  let '(db2, acts', e) := loop fuel db1 channel pendingChanID in
  (db2, acts ++ acts', e).
Proof. intros Hget Hstep. cbn [advanceLoop]. now rewrite Hget, Hstep. Qed.

Lemma loop_announced (fuel : nat) (db : DB) (channel : channeldb.OpenChannel)
    (pendingChanID : bytes) :
  get db (channeldb.FundingOutpoint channel) = Err ErrChannelNotFound →
  loop (S fuel) db channel pendingChanID = (db, [], LoopAnnounced).
Proof. intros Hget. cbn [advanceLoop]. now rewrite Hget. Qed.




End OpeningSequenceFacts.

Lemma X5_stateStep_advances_one_state_witness :
  getChannelOpeningState BigEndian unpackShortChanID exampleStep.1.1
    exampleOutPoint
  = Ok (addedToRouterGraph,
        unpackShortChanID (uint64 (packShortChanID exampleShortChanID))).
Proof.
  pose proof (X5_stateStep_advances_one_state BigEndian packShortChanID
    unpackShortChanID exampleError exampleEnv exampleSavedDB exampleStep.1.1
    initiatorChannel exampleShortChanID examplePendingID fundingLockedSent
    exampleStep.1.2) as H.
  cbv zeta in H.
  destruct H as [(Hs & _)|[(_ & _ & Hg)|(Hs & _)]].
  - vm_compute. reflexivity.
  - reflexivity.
  - discriminate Hs.
  - exact Hg.
  - discriminate Hs.
Defined.

Lemma X6_stateStep_failure_keeps_state_witness :
  failingStep.1.1 = exampleSavedDB.
Proof.
  pose proof (X6_stateStep_failure_keeps_state BigEndian packShortChanID
    exampleError failingEnv exampleSavedDB failingStep.1.1 initiatorChannel
    exampleShortChanID examplePendingID fundingLockedSent failingStep.1.2
    (EFmt "failed adding to router graph: %v" ["router shutting down"%string]))
    as H.
  cbv zeta in H.
  destruct H as [[H|(_ & Hu & _)] _].
  - reflexivity.
  - exact H.
  - discriminate Hu.
Defined.




(** ** The registry of reservation contexts *)

(** Removing one pending channel id of one peer, as [cancelReservationCtx]
    and [deleteReservationCtx] do it: that pair is gone, no other is touched. *)
Lemma lookup_removed (m : gmap bytes (gmap bytes loc)) (key id : bytes)
    (n : gmap bytes loc) (k id' : bytes) :
  m !! key = Some n →
  (if decide (size (delete id n) = 0%nat) then delete key m
   else <[key := delete id n]> m) !! k ≫= (fun x => x !! id')
  = if decide (k = key ∧ id' = id) then None
    else m !! k ≫= (fun x => x !! id').
Proof.
  intros Hn.
  destruct (decide (k = key)) as [->|Hk].
  - case_decide as Hsz.
    + rewrite lookup_delete_eq. cbn.
      apply map_size_empty_iff in Hsz.
      case_decide as Hid; [reflexivity|].
      rewrite Hn. cbn.
      assert (Hne : id ≠ id') by (intros ->; apply Hid; auto).
      rewrite <- (lookup_delete_ne n id id') by exact Hne.
      now rewrite Hsz, lookup_empty.
    + rewrite lookup_insert_eq. cbn.
      case_decide as Hid.
      * destruct Hid as [_ ->]. apply lookup_delete_eq.
      * rewrite Hn. cbn. apply lookup_delete_ne. intros ->. apply Hid; auto.
  - rewrite (decide_False (P := k = key ∧ id' = id))
      by (intros [? _]; contradiction).
    case_decide.
    + now rewrite lookup_delete_ne by congruence.
    + now rewrite lookup_insert_ne by congruence.
Qed.

Lemma tidy_removed (m : gmap bytes (gmap bytes loc)) (key id : bytes)
    (n : gmap bytes loc) :
  (∀ k x, m !! k = Some x → x ≠ ∅) →
  ∀ k x,
    (if decide (size (delete id n) = 0%nat) then delete key m
     else <[key := delete id n]> m) !! k = Some x → x ≠ ∅.
Proof.
  intros Hm k x. case_decide as Hsz.
  - destruct (decide (k = key)) as [->|Hk].
    + now rewrite lookup_delete_eq.
    + rewrite lookup_delete_ne by congruence. apply Hm.
  - destruct (decide (k = key)) as [->|Hk].
    + rewrite lookup_insert_eq. intros [= <-] He. apply Hsz.
      now apply map_size_empty_iff.
    + rewrite lookup_insert_ne by congruence. apply Hm.
Qed.

Section RegistryFacts.

Variable Error : error → string.
Variable hex : bytes → string.

(** What [cancelReservationCtx] returns and leaves behind, for a remote or a
    local cancel. *)
Lemma cancelReservationCtx_registry (peerKey id : bytes) (byRemote : bool)
    (f : fundingManager) :
  let key := newSerializedKey peerKey in
  let '(ctx, err, f') :=
    cancelReservationCtx Error hex peerKey id byRemote f in
  ctxs f' = ctxs f ∧ cfg f' = cfg f ∧ nextLoc f' = nextLoc f
  ∧ (registryTidy f → registryTidy f')
  ∧ match lookupReservation f key id with
    | None => ctx = None ∧ err ≠ None ∧ f' = f
    | Some l =>
      let r := reservation (ctxs f l) in
      trace f' = trace f
                 ++ (if lnwallet.IsPsbt r && byRemote
                     then [EvRemoteCanceled (lnwallet.reservationID r)]
                     else [])
                 ++ [EvCancel (lnwallet.reservationID r)]
      ∧ match lnwallet.Cancel r with
        | Some _ =>
          ctx = None ∧ err ≠ None
          ∧ activeReservations f' = activeReservations f
        | None =>
          ctx = Some l ∧ err = None
          ∧ ∀ k id',
              lookupReservation f' k id' =
              if decide (k = key ∧ id' = id) then None
              else lookupReservation f k id'
        end
    end.
Proof.
  cbv zeta. unfold cancelReservationCtx, lookupReservation.
  destruct (activeReservations f !! newSerializedKey peerKey) as [m|] eqn:Hm;
    cbn; [|repeat split; auto; discriminate].
  destruct (m !! id) as [l|] eqn:Hl; [|repeat split; auto; discriminate].
  destruct (lnwallet.Cancel (reservation (ctxs f l))) eqn:Hc.
  - destruct (lnwallet.IsPsbt (reservation (ctxs f l)) && byRemote); cbn;
      repeat split; auto; try discriminate; now rewrite <- app_assoc.
  - destruct (lnwallet.IsPsbt (reservation (ctxs f l)) && byRemote); cbn;
      (split; [reflexivity|]); (split; [reflexivity|]);
      (split; [reflexivity|]); (split; [intros Ht k x; cbn; now apply tidy_removed|]);
      (split; [now rewrite <- ?app_assoc|]);
      (split; [reflexivity|]); (split; [reflexivity|]);
      intros k id'; rewrite (lookup_removed _ _ _ m) by exact Hm;
      reflexivity.
Qed.

(** The registry after [failFundingFlow]: at most the entry of the peer and
    the id is gone. *)
Lemma failFundingFlow_registry (p : Peer) (id : bytes) (err : error)
    (f : fundingManager) :
  let key := newSerializedKey (IdentityKey p) in
  let f' := failFundingFlow Error hex p id err f in
  (registryTidy f → registryTidy f')
  ∧ (∀ k id', (k = key ∧ id' = id → False) →
       lookupReservation f' k id' = lookupReservation f k id')
  ∧ (lookupReservation f' key id = None
     ∨ lookupReservation f' key id = lookupReservation f key id).
Proof.
  cbv zeta. unfold failFundingFlow.
  pose proof (cancelReservationCtx_registry (IdentityKey p) id false f) as H.
  cbv zeta in H.
  destruct (cancelReservationCtx Error hex (IdentityKey p) id false f)
    as [[ctx e] f'].
  destruct H as (_ & _ & _ & Htidy & H).
  assert (Hreg : ∀ g : fundingManager,
            activeReservations
              (emit (EvSendMessage (IdentityKey p) false
                 (lnwire.MsgError
                    {| lnwire.ChanID := id;
                       lnwire.Data := errorData Error err |}))
                 match ctx with
                 | Some l => emit (EvErrChan l err) f'
                 | None => f'
                 end) = activeReservations f')
    by (intros _; destruct ctx; reflexivity).
  specialize (Hreg f).
  unfold registryTidy, lookupReservation in *. rewrite Hreg.
  split; [exact Htidy|].
  destruct (activeReservations f !! newSerializedKey (IdentityKey p)
              ≫= (fun m => m !! id)) as [l|] eqn:Hl.
  - cbv zeta in H. destruct H as (_ & H).
    destruct (lnwallet.Cancel (reservation (ctxs f l))).
    + destruct H as (_ & _ & ->). rewrite Hl. auto.
    + destruct H as (_ & _ & H). split.
      * intros k id' Hne. rewrite H. now rewrite decide_False.
      * left. rewrite H. now rewrite decide_True.
  - destruct H as (_ & _ & ->). rewrite Hl. auto.
Qed.

(** A flow without a registered context is failed by the message to the peer
    alone. *)
Lemma failFundingFlow_unknown (p : Peer) (id : bytes) (err : error)
    (f : fundingManager) :
  lookupReservation f (newSerializedKey (IdentityKey p)) id = None →
  failFundingFlow Error hex p id err f
  = emit (EvSendMessage (IdentityKey p) false
            (lnwire.MsgError {| lnwire.ChanID := id;
                                lnwire.Data := errorData Error err |})) f.
Proof.
  intros Hnone. unfold failFundingFlow.
  unfold lookupReservation in Hnone. unfold cancelReservationCtx.
  destruct (activeReservations f !! newSerializedKey (IdentityKey p))
    as [m|]; cbn in Hnone |- *; [now rewrite Hnone|reflexivity].
Qed.

End RegistryFacts.

(** X10: [cancelReservationCtx], for a local or a remote cancel, returns a
    context exactly when it returns no error, which is exactly when the
    context is registered under the peer and the pending channel id and the
    wallet cancels its reservation.  It then removes that entry and no other;
    when it returns an error the registry is as it was.  No peer is left with
    an empty map of reservations. *)
Theorem X10_cancel_removes_one_entry
    (Error : error → string) (hex : bytes → string)
    (peerKey id : bytes) (byRemote : bool) (f : fundingManager) :
  let key := newSerializedKey peerKey in
  let '(ctx, err, f') :=
    cancelReservationCtx Error hex peerKey id byRemote f in
  (err = None ↔ ∃ l, ctx = Some l)
  ∧ (err = None ↔
     ∃ l, lookupReservation f key id = Some l
          ∧ lnwallet.Cancel (reservation (ctxs f l)) = None)
  ∧ (∀ l, ctx = Some l →
       lookupReservation f key id = Some l
       ∧ lookupReservation f' key id = None)
  ∧ (∀ k id', ¬ (k = key ∧ id' = id) →
       lookupReservation f' k id' = lookupReservation f k id')
  ∧ (err ≠ None → activeReservations f' = activeReservations f)
  ∧ (registryTidy f → registryTidy f').
Proof.
  cbv zeta.
  pose proof (cancelReservationCtx_registry Error hex peerKey id byRemote f)
    as H.
  cbv zeta in H.
  destruct (cancelReservationCtx Error hex peerKey id byRemote f)
    as [[ctx e] f'].
  destruct H as (_ & _ & _ & Htidy & H).
  destruct (lookupReservation f (newSerializedKey peerKey) id) as [l|] eqn:Hl.
  - destruct H as (_ & H).
    destruct (lnwallet.Cancel (reservation (ctxs f l))) as [ce|] eqn:Hc.
    + destruct H as (-> & He & Hreg).
      split; [split; [contradiction|intros [? [=]]]|].
      split; [split; [contradiction|]|].
      { intros (l' & [= <-] & Hc'). congruence. }
      split; [intros ? [=]|].
      split; [|auto].
      intros k id' _. unfold lookupReservation. now rewrite Hreg.
    + destruct H as (-> & -> & Hreg).
      split; [split; eauto|].
      split; [split; eauto|].
      split.
      { intros ? [= <-]. split; [reflexivity|].
        rewrite Hreg. now rewrite decide_True. }
      split; [|split; [contradiction|exact Htidy]].
      intros k id' Hne. rewrite Hreg. now rewrite decide_False.
  - destruct H as (-> & He & ->).
    split; [split; [contradiction|intros [? [=]]]|].
    split; [split; [contradiction|intros (? & [=] & _)]|].
    split; [intros ? [=]|]. auto.
Qed.

(** X11: after [deleteReservationCtx] the channel of that peer and pending
    channel id is no longer pending and [getReservationCtx] fails with
    "unknown channel"; no other entry of the registry is touched, no peer is
    left with an empty map, and, unlike [cancelReservationCtx], nothing is
    asked of the wallet and no context is written.  Deleting again changes
    nothing. *)
Theorem X11_delete_reservation_ctx
    (hex : bytes → string) (p : Peer) (id : bytes) (f : fundingManager) :
  let key := newSerializedKey (IdentityKey p) in
  let f' := deleteReservationCtx (IdentityKey p) id f in
  IsPendingChannel id p f' = false
  ∧ getReservationCtx hex (IdentityKey p) id f'
    = inl (Errorf "unknown channel (id: %x) for peer(%x)" [hex id; hex key])
  ∧ (∀ k id', ¬ (k = key ∧ id' = id) →
       lookupReservation f' k id' = lookupReservation f k id')
  ∧ trace f' = trace f ∧ ctxs f' = ctxs f
  ∧ (registryTidy f → registryTidy f')
  ∧ deleteReservationCtx (IdentityKey p) id f' = f'.
Proof.
  cbv zeta.
  assert (Hlk : ∀ k id',
            lookupReservation (deleteReservationCtx (IdentityKey p) id f) k id'
            = if decide (k = newSerializedKey (IdentityKey p) ∧ id' = id)
              then lookupReservation
                     (deleteReservationCtx (IdentityKey p) id f) k id'
              else lookupReservation f k id').
  { intros k id'. case_decide as Hd; [reflexivity|].
    unfold deleteReservationCtx, lookupReservation.
    destruct (activeReservations f !! newSerializedKey (IdentityKey p))
      as [m|] eqn:Hm; [|reflexivity].
    cbn. rewrite (lookup_removed _ _ _ m) by exact Hm.
    now rewrite decide_False. }
  assert (Hgone : lookupReservation
                    (deleteReservationCtx (IdentityKey p) id f)
                    (newSerializedKey (IdentityKey p)) id = None).
  { unfold deleteReservationCtx, lookupReservation.
    destruct (activeReservations f !! newSerializedKey (IdentityKey p))
      as [m|] eqn:Hm.
    - cbn. rewrite (lookup_removed _ _ _ m) by exact Hm.
      now rewrite decide_True.
    - now rewrite Hm. }
  split; [unfold IsPendingChannel; now rewrite Hgone|].
  split; [unfold getReservationCtx; now rewrite Hgone|].
  split; [intros k id' Hne; rewrite Hlk; now rewrite decide_False|].
  unfold deleteReservationCtx.
  destruct (activeReservations f !! newSerializedKey (IdentityKey p))
    as [m|] eqn:Hm.
  - split; [reflexivity|]. split; [reflexivity|].
    split; [intros Ht k x; cbn; now apply tidy_removed|].
    cbn. case_decide as Hsz.
    + now rewrite lookup_delete_eq.
    + rewrite lookup_insert_eq.
      rewrite (delete_id (delete id m)) by apply lookup_delete_eq.
      rewrite decide_False by exact Hsz.
      unfold with_activeReservations. cbn. f_equal.
      apply insert_insert_eq.
  - rewrite Hm. auto.
Qed.

(** X12: [CancelPeerReservations] leaves no channel of the node pending and
    does not touch the reservations of other peers.  Every context of the
    node is cancelled in the wallet and told "peer disconnected", whatever the
    wallet answers; these two events per context are all that happens, and
    nothing is sent to a peer. *)
Theorem X12_cancel_peer_reservations
    (range : ∀ V : Type, gmap bytes V → list (bytes * V))
    (nodePub : bytes) (f : fundingManager) :
  rangeOrder range →
  let f' := CancelPeerReservations range nodePub f in
  (∀ id, lookupReservation f' nodePub id = None)
  ∧ (∀ k id, k ≠ nodePub →
       lookupReservation f' k id = lookupReservation f k id)
  ∧ ctxs f' = ctxs f
  ∧ (registryTidy f → registryTidy f')
  ∧ ∃ evs,
      trace f' = trace f ++ evs
      ∧ Forall (fun ev => isSendMessage ev = false) evs
      ∧ length evs
        = (2 * size (default ∅ (activeReservations f !! nodePub)))%nat
      ∧ ∀ id l, lookupReservation f nodePub id = Some l →
          EvCancel (lnwallet.reservationID (reservation (ctxs f l))) ∈ evs
          ∧ EvErrChan l (Errorf "peer disconnected" []) ∈ evs.
Proof.
  intros Hrange. cbv zeta. unfold CancelPeerReservations.
  destruct (activeReservations f !! nodePub) as [m|] eqn:Hm.
  - cbv zeta.
    match goal with
    | |- context [fold_left ?s (range loc m) f] =>
      pose (G := fold_left s (range loc m) f);
      change (fold_left s (range loc m) f) with G;
      assert (Hwalk : ∀ xs g,
                ctxs (fold_left s xs g) = ctxs g
                ∧ activeReservations (fold_left s xs g) = activeReservations g
                ∧ trace (fold_left s xs g) =
                    trace g ++
                    flat_map
                      (fun '(_, l) =>
                         [EvCancel (lnwallet.reservationID
                                      (reservation (ctxs g l)));
                          EvErrChan l (Errorf "peer disconnected" [])]) xs)
    end.
    { induction xs as [|[id l] xs IH]; intros g; cbn.
      - now rewrite app_nil_r.
      - destruct (IH (emit (EvErrChan l (Errorf "peer disconnected" []))
                        (emit (EvCancel (lnwallet.reservationID
                                           (reservation (ctxs g l)))) g)))
          as (Hc & Ha & Ht).
        rewrite Hc, Ha, Ht. cbn. rewrite <- !app_assoc. auto. }
    destruct (Hwalk (range loc m) f) as (Hc & Ha & Ht).
    fold G in Hc, Ha, Ht. clearbody G. clear Hwalk.
    unfold lookupReservation, with_activeReservations.
    cbn [activeReservations ctxs trace]. rewrite Ha.
    split; [intros id; now rewrite lookup_delete_eq|].
    split; [intros k id Hk; now rewrite lookup_delete_ne by congruence|].
    split; [exact Hc|].
    split.
    { intros Htidy k x. cbn [activeReservations].
      destruct (decide (k = nodePub)) as [->|Hk].
      - now rewrite lookup_delete_eq.
      - rewrite lookup_delete_ne by congruence. apply Htidy. }
    eexists. split; [exact Ht|].
    split.
    { apply List.Forall_forall. intros ev Hin.
      apply in_flat_map in Hin as ([id l] & _ & Hev).
      destruct Hev as [<-|[<-|[]]]; reflexivity. }
    split.
    { rewrite <- (length_map_to_list m), <- (Hrange _ m).
      generalize (range loc m) as xs.
      induction xs as [|[id l] xs IH]; cbn; [reflexivity|]. rewrite IH. lia. }
    intros id l. rewrite Hm. cbn. intros Hl.
    apply elem_of_map_to_list in Hl. rewrite <- (Hrange _ m) in Hl.
    apply list_elem_of_In in Hl.
    split; apply list_elem_of_In, in_flat_map; exists (id, l);
      (split; [exact Hl|]); cbn; auto.
  - unfold lookupReservation. rewrite Hm. cbn.
    split; [reflexivity|]. split; [reflexivity|]. split; [reflexivity|].
    split; [auto|].
    exists []. rewrite app_nil_r.
    split; [reflexivity|]. split; [constructor|]. split; [reflexivity|].
    intros ? ? [=].
Qed.

Lemma X12_cancel_peer_reservations_witness :
  let f' := CancelPeerReservations (fun V => map_to_list)
              (newSerializedKey (IdentityKey examplePeer)) collidingManager in
  lookupReservation f' (newSerializedKey (IdentityKey examplePeer))
    examplePendingID = None
  ∧ lookupReservation f' (newSerializedKey (IdentityKey otherPeer))
      examplePendingID = Some 1%nat
  ∧ trace f' = [EvCancel 7; EvErrChan 0%nat (Errorf "peer disconnected" [])].
Proof.
  assert (Hrange : rangeOrder (fun V => map_to_list))
    by (intros V m; reflexivity).
  pose proof (X12_cancel_peer_reservations (fun V => map_to_list)
                (newSerializedKey (IdentityKey examplePeer)) collidingManager
                Hrange) as H.
  cbv zeta beta in H. destruct H as (Hgone & Hother & _).
  cbv zeta. split; [apply Hgone|].
  split; [|vm_compute; reflexivity].
  rewrite Hother by discriminate. vm_compute. reflexivity.
Defined.

(** X13: [handleErrorMsg] never answers the peer.  For an [Error] that names
    no registered flow it does nothing at all.  For a registered flow whose
    reservation the wallet cancels, the entry is removed and the error channel
    of the context receives one error: "received funding error from ...", and
    for a PSBT flow that error wrapped in [ErrRemoteCanceled], after the
    reservation was told [RemoteCanceled].  When the wallet refuses the cancel
    the context stays registered and its error channel receives nothing. *)
Theorem X13_handle_error_msg
    (Error : error → string) (hex : bytes → string)
    (msgError : lnwire.Error → string) (ErrRemoteCanceled : error)
    (p : Peer) (msg : lnwire.Error) (f : fundingManager) :
  let key := newSerializedKey (IdentityKey p) in
  let id := lnwire.ChanID msg in
  let f' := handleErrorMsg Error hex msgError ErrRemoteCanceled p msg f in
  let received :=
    Errorf "received funding error from %x: %v"
           [hex (IdentityKey p); msgError msg] in
  (∃ evs, trace f' = trace f ++ evs
          ∧ Forall (fun ev => isSendMessage ev = false) evs)
  ∧ (lookupReservation f key id = None → f' = f)
  ∧ ∀ l, lookupReservation f key id = Some l →
      let r := reservation (ctxs f l) in
      let rid := lnwallet.reservationID r in
      (lnwallet.Cancel r = None →
         lookupReservation f' key id = None
         ∧ trace f' =
             trace f ++
             if lnwallet.IsPsbt r
             then [EvRemoteCanceled rid; EvCancel rid;
                   EvErrChan l (Errorf "%w: %v" [Error ErrRemoteCanceled;
                                                 Error received])]
             else [EvCancel rid; EvErrChan l received])
      ∧ (lnwallet.Cancel r ≠ None →
         lookupReservation f' key id = Some l
         ∧ trace f' =
             trace f ++
             if lnwallet.IsPsbt r then [EvRemoteCanceled rid; EvCancel rid]
             else [EvCancel rid]).
Proof.
  cbv zeta. unfold handleErrorMsg.
  pose proof (cancelReservationCtx_registry Error hex (IdentityKey p)
                (lnwire.ChanID msg) true f) as H.
  cbv zeta in H.
  destruct (cancelReservationCtx Error hex (IdentityKey p)
              (lnwire.ChanID msg) true f) as [[ctx e] f'].
  destruct H as (Hctx & _ & _ & _ & H).
  destruct (lookupReservation f (newSerializedKey (IdentityKey p))
              (lnwire.ChanID msg)) as [l|] eqn:Hl.
  - cbv zeta in H. destruct H as (Ht & H).
    rewrite andb_true_r in Ht.
    destruct (lnwallet.Cancel (reservation (ctxs f l))) as [ce|] eqn:Hc.
    + destruct H as (-> & He & Hreg).
      destruct e as [e|]; [|contradiction].
      split.
      { eexists. split; [exact Ht|].
        destruct (lnwallet.IsPsbt (reservation (ctxs f l)));
          repeat constructor. }
      split; [discriminate|].
      intros l' [= <-]. split; [intros Hc'; congruence|]. intros _.
      split.
      * unfold lookupReservation in *. now rewrite Hreg.
      * rewrite Ht. now destruct (lnwallet.IsPsbt (reservation (ctxs f l))).
    + destruct H as (-> & -> & Hreg).
      rewrite Hctx.
      assert (Htr : trace
                (emit
                   (EvErrChan l
                      (if lnwallet.IsPsbt (reservation (ctxs f l))
                       then Errorf "%w: %v"
                              [Error ErrRemoteCanceled;
                               Error (Errorf
                                 "received funding error from %x: %v"
                                 [hex (IdentityKey p); msgError msg])]
                       else Errorf "received funding error from %x: %v"
                              [hex (IdentityKey p); msgError msg])) f')
              = trace f ++
                if lnwallet.IsPsbt (reservation (ctxs f l))
                then [EvRemoteCanceled
                        (lnwallet.reservationID (reservation (ctxs f l)));
                      EvCancel
                        (lnwallet.reservationID (reservation (ctxs f l)));
                      EvErrChan l
                        (Errorf "%w: %v"
                           [Error ErrRemoteCanceled;
                            Error (Errorf
                              "received funding error from %x: %v"
                              [hex (IdentityKey p); msgError msg])])]
                else [EvCancel
                        (lnwallet.reservationID (reservation (ctxs f l)));
                      EvErrChan l
                        (Errorf "received funding error from %x: %v"
                           [hex (IdentityKey p); msgError msg])]).
      { cbn. rewrite Ht.
        destruct (lnwallet.IsPsbt (reservation (ctxs f l)));
          now rewrite <- !app_assoc. }
      split.
      { eexists. split; [exact Htr|].
        destruct (lnwallet.IsPsbt (reservation (ctxs f l)));
          repeat constructor. }
      split; [discriminate|].
      intros l' [= <-]. split; [|intros Hc'; congruence]. intros _.
      split; [|exact Htr].
      change (lookupReservation f' (newSerializedKey (IdentityKey p))
                (lnwire.ChanID msg) = None).
      rewrite Hreg. now rewrite decide_True.
  - destruct H as (-> & He & ->).
    destruct e as [e|]; [|contradiction].
    split; [exists []; rewrite app_nil_r; split; [reflexivity|constructor]|].
    split; [reflexivity|]. intros ? [=].
Qed.

Lemma X13_handle_error_msg_witness :
  let f' := handleErrorMsg exampleError exampleHex exampleMsgError
              exampleRemoteCanceled examplePeer exampleErrorMsg psbtManager in
  lookupReservation f' (newSerializedKey (IdentityKey examplePeer))
    examplePendingID = None
  ∧ Forall (fun ev => isSendMessage ev = false) (trace f').
Proof.
  pose proof (X13_handle_error_msg exampleError exampleHex exampleMsgError
                exampleRemoteCanceled examplePeer exampleErrorMsg psbtManager)
    as H.
  cbv zeta beta in H. destruct H as ((evs & Ht & Hns) & _ & H).
  cbv zeta. split.
  - refine (proj1 (proj1 (H 0%nat _) _)); vm_compute; reflexivity.
  - rewrite Ht. exact Hns.
Defined.

(** X14: a funding flow is torn down once.  When [failFundingFlow] finds the
    context and the wallet cancels the reservation, or when there is no
    context, a later [failFundingFlow] for the same peer and pending channel
    id only sends its error message: the wallet is not asked to cancel again
    and the error channel of the context receives nothing more. *)
Theorem X14_fail_funding_flow_once
    (Error : error → string) (hex : bytes → string)
    (p : Peer) (id : bytes) (err err' : error) (f : fundingManager) :
  let key := newSerializedKey (IdentityKey p) in
  (∀ l, lookupReservation f key id = Some l →
        lnwallet.Cancel (reservation (ctxs f l)) = None) →
  let f' := failFundingFlow Error hex p id err f in
  lookupReservation f' key id = None
  ∧ failFundingFlow Error hex p id err' f'
    = emit (EvSendMessage (IdentityKey p) false
              (lnwire.MsgError {| lnwire.ChanID := id;
                                  lnwire.Data := errorData Error err' |})) f'.
Proof.
  cbv zeta. intros Hcancel.
  assert (Hgone : lookupReservation (failFundingFlow Error hex p id err f)
                    (newSerializedKey (IdentityKey p)) id = None).
  { unfold failFundingFlow.
    pose proof (cancelReservationCtx_registry Error hex (IdentityKey p) id
                  false f) as H.
    cbv zeta in H.
    destruct (cancelReservationCtx Error hex (IdentityKey p) id false f)
      as [[ctx e] f'].
    destruct H as (_ & _ & _ & _ & H).
    assert (Hreg : ∀ k i, lookupReservation
              (emit (EvSendMessage (IdentityKey p) false
                 (lnwire.MsgError
                    {| lnwire.ChanID := id;
                       lnwire.Data := errorData Error err |}))
                 match ctx with
                 | Some l => emit (EvErrChan l err) f'
                 | None => f'
                 end) k i = lookupReservation f' k i)
      by (intros k i; destruct ctx; reflexivity).
    rewrite Hreg.
    destruct (lookupReservation f (newSerializedKey (IdentityKey p)) id)
      as [l|] eqn:Hl.
    - cbv zeta in H. destruct H as (_ & H).
      rewrite (Hcancel l eq_refl) in H. destruct H as (_ & _ & H).
      rewrite H. now rewrite decide_True.
    - destruct H as (_ & _ & ->). exact Hl. }
  split; [exact Hgone|].
  now apply failFundingFlow_unknown.
Qed.

Lemma X14_fail_funding_flow_once_witness :
  let f' := failFundingFlow exampleError exampleHex examplePeer
              examplePendingID (ENew "first") oneManager in
  failFundingFlow exampleError exampleHex examplePeer examplePendingID
    (ENew "second") f'
  = emit (EvSendMessage (IdentityKey examplePeer) false
            (lnwire.MsgError
               {| lnwire.ChanID := examplePendingID;
                  lnwire.Data := "funding failed due to internal error" |}))
         f'.
Proof.
  refine (proj2 (X14_fail_funding_flow_once exampleError exampleHex
                   examplePeer examplePendingID (ENew "first") (ENew "second")
                   oneManager _)).
  intros l Hl. vm_compute in Hl. injection Hl as <-. reflexivity.
Defined.

(** ** Registries as the handlers build them *)

Lemma lookup_withReservation (id : bytes) (ctx : reservationWithCtx)
    (f : fundingManager) (k i : bytes) :
  lookupReservation (withReservation id ctx f) k i =
  if decide (k = newSerializedKey (IdentityKey (peer ctx)) ∧ i = id)
  then Some (nextLoc f) else lookupReservation f k i.
Proof.
  unfold withReservation, lookupReservation. cbn.
  destruct (decide (k = newSerializedKey (IdentityKey (peer ctx))))
    as [->|Hk].
  - rewrite lookup_insert_eq. cbn.
    destruct (decide (i = id)) as [->|Hi].
    + rewrite lookup_insert_eq. now rewrite decide_True.
    + rewrite lookup_insert_ne by congruence.
      rewrite decide_False by (intros [_ ?]; contradiction).
      now destruct (activeReservations f
                      !! newSerializedKey (IdentityKey (peer ctx))).
  - rewrite lookup_insert_ne by congruence.
    now rewrite decide_False by (intros [? _]; contradiction).
Qed.

Lemma withReservation_fresh (id : bytes) (ctx : reservationWithCtx)
    (f : fundingManager) :
  registryFresh f → registryFresh (withReservation id ctx f).
Proof.
  intros Hf k i l. rewrite lookup_withReservation.
  case_decide.
  - intros [= <-]. cbn. lia.
  - intros Hl. apply Hf in Hl. cbn. lia.
Qed.

Lemma withReservation_consistent (id : bytes) (ctx : reservationWithCtx)
    (f : fundingManager) :
  registryFresh f → registryConsistent f →
  registryConsistent (withReservation id ctx f).
Proof.
  intros Hf Hc k i l. rewrite lookup_withReservation.
  case_decide as Hd.
  - intros [= <-]. destruct Hd as [-> _]. cbn. unfold store.
    now rewrite decide_True.
  - intros Hl. cbn. unfold store.
    rewrite decide_False by (apply Hf in Hl; lia).
    exact (Hc _ _ _ Hl).
Qed.

Lemma withReservation_tidy (id : bytes) (ctx : reservationWithCtx)
    (f : fundingManager) :
  registryTidy f → registryTidy (withReservation id ctx f).
Proof.
  intros Ht k m. unfold withReservation. cbn.
  destruct (decide (k = newSerializedKey (IdentityKey (peer ctx))))
    as [->|Hk].
  - rewrite lookup_insert_eq. intros [= <-]. apply insert_non_empty.
  - rewrite lookup_insert_ne by congruence. apply Ht.
Qed.

Lemma emptyManager_registry (c : fundingConfig) :
  registryFresh (emptyManager c) ∧ registryConsistent (emptyManager c)
  ∧ registryTidy (emptyManager c).
Proof.
  split; [|split]; intros k; intros; exfalso;
    unfold lookupReservation in *; cbn in *;
    rewrite lookup_empty in *; discriminate.
Qed.

(** ** The sweep of zombie reservations, second loop *)

Section PruneFacts.

Variable Error : error → string.
Variable hex : bytes → string.
Variable range : ∀ V : Type, gmap bytes V → list (bytes * V).
Variable now : bytes → bytes → Time.

(** What the second loop does with a list of contexts that are registered
    under the key of their own peer. *)
Lemma failZombies_walk (f : fundingManager) (ys : list (bytes * loc))
    (g : fundingManager) :
  let key := fun l0 => newSerializedKey (IdentityKey (peer (ctxs f l0))) in
  ctxs g = ctxs f →
  (∀ k i l, lookupReservation g k i = Some l →
            lookupReservation f k i = Some l) →
  (∀ i l0, (i, l0) ∈ ys → lookupReservation f (key l0) i = Some l0) →
  let g' := failZombies Error hex ys g in
  ctxs g' = ctxs f
  ∧ (∀ k i l, lookupReservation g' k i = Some l →
              lookupReservation g k i = Some l)
  ∧ (∀ k i, (∀ l0, (i, l0) ∈ ys → k ≠ key l0) →
            lookupReservation g' k i = lookupReservation g k i)
  ∧ (registryTidy g → registryTidy g')
  ∧ (∀ i l0, (i, l0) ∈ ys →
       lnwallet.Cancel (reservation (ctxs f l0)) = None →
       lookupReservation g' (key l0) i = None)
  ∧ ∃ evs, trace g' = trace g ++ evs
           ∧ (∀ l e, EvErrChan l e ∈ evs → ∃ i, (i, l) ∈ ys)
           ∧ (∀ i l0, (i, l0) ∈ ys →
                timedOutFrame Error hex (peer (ctxs f l0)) i ∈ evs).
Proof.
  cbv zeta.
  set (key := fun l0 => newSerializedKey (IdentityKey (peer (ctxs f l0)))).
  revert g.
  induction ys as [|[i0 l0] ys IH]; intros g Hg Hsub Hys.
  - cbn. repeat split; auto.
    + intros i l0 Hin. now apply elem_of_nil in Hin.
    + exists []. rewrite app_nil_r. split; [reflexivity|].
      split; intros ? ? Hin; now apply elem_of_nil in Hin.
  - set (err := Errorf
           "reservation timed out waiting for peer (peer_id:%x, chan_id:%x)"
           [hex (IdentityKey (peer (ctxs g l0))); hex i0]).
    set (g1 := failFundingFlow Error hex (peer (ctxs g l0)) i0 err g).
    change (failZombies Error hex ((i0, l0) :: ys) g)
      with (failZombies Error hex ys g1).
    destruct (failFundingFlow_trace Error hex (peer (ctxs g l0)) i0 err g)
      as (Ht1 & Hc1 & _ & _).
    destruct (failFundingFlow_registry Error hex (peer (ctxs g l0)) i0 err g)
      as (Htidy1 & Hframe1 & Hsame1).
    pose proof (cancelReservationCtx_registry Error hex
                  (IdentityKey (peer (ctxs g l0))) i0 false g) as Hcancel.
    cbv zeta in Ht1, Hc1, Htidy1, Hframe1, Hsame1.
    fold g1 in Ht1, Hc1, Htidy1, Hframe1, Hsame1.
    assert (Hsub1 : ∀ k i l, lookupReservation g1 k i = Some l →
              lookupReservation g k i = Some l).
    { intros k i l Hl.
      destruct (decide (k = newSerializedKey
                             (IdentityKey (peer (ctxs g l0))) ∧ i = i0))
        as [[-> ->]|Hne].
      - destruct Hsame1 as [Hn|He]; [congruence|now rewrite <- He].
      - rewrite <- Hframe1; [exact Hl|exact Hne]. }
    assert (Hgone1 : lnwallet.Cancel (reservation (ctxs f l0)) = None →
              lookupReservation g1 (key l0) i0 = None).
    { intros Hc. unfold g1, failFundingFlow. cbv zeta in Hcancel.
      destruct (cancelReservationCtx Error hex
                  (IdentityKey (peer (ctxs g l0))) i0 false g)
        as [[ctx e] g2].
      destruct Hcancel as (_ & _ & _ & _ & Hcancel).
      assert (Hreg : ∀ k i, lookupReservation
                (emit (EvSendMessage (IdentityKey (peer (ctxs g l0))) false
                   (lnwire.MsgError
                      {| lnwire.ChanID := i0;
                         lnwire.Data := errorData Error err |}))
                   match ctx with
                   | Some l => emit (EvErrChan l err) g2
                   | None => g2
                   end) k i = lookupReservation g2 k i)
        by (intros k i; destruct ctx; reflexivity).
      rewrite Hreg. unfold key. rewrite <- Hg.
      destruct (lookupReservation g
                  (newSerializedKey (IdentityKey (peer (ctxs g l0)))) i0)
        as [l'|] eqn:Hl'.
      - assert (l' = l0) as ->.
        { apply Hsub in Hl'. rewrite Hg in Hl'.
          pose proof (Hys i0 l0 ltac:(left)) as Hl0. unfold key in Hl0.
          congruence. }
        cbv zeta in Hcancel. destruct Hcancel as (_ & Hcancel).
        rewrite <- Hg in Hc. rewrite Hc in Hcancel.
        destruct Hcancel as (_ & _ & Hcancel).
        rewrite Hcancel. now rewrite decide_True.
      - destruct Hcancel as (_ & _ & ->). exact Hl'. }
    clear Hcancel.
    destruct (IH g1) as (Hctx' & Hsub' & Hframe' & Htidy' & Hgone' & evs
                         & Htr & Hev & Hsent).
    { now rewrite Hc1. }
    { intros k i l Hl. apply Hsub, Hsub1, Hl. }
    { intros i l1 Hin. apply Hys. now right. }
    split; [exact Hctx'|].
    split; [intros k i l Hl; apply Hsub1, Hsub', Hl|].
    split.
    { intros k i Hk. rewrite Hframe'.
      - apply Hframe1. intros [-> ->].
        apply (Hk l0); [left|]. unfold key. now rewrite Hg.
      - intros l1 Hin. apply Hk. now right. }
    split; [intros Ht; apply Htidy', Htidy1, Ht|].
    split.
    { intros i l1 Hin Hc.
      apply elem_of_cons in Hin as [[= -> ->]|Hin].
      - destruct (lookupReservation (failZombies Error hex ys g1) (key l0) i0)
          as [l'|] eqn:Hl'; [|reflexivity].
        apply Hsub' in Hl'. rewrite Hgone1 in Hl' by exact Hc. discriminate.
      - now apply Hgone'. }
    eexists. split; [rewrite Htr, Ht1, <- !app_assoc; reflexivity|].
    split.
    + intros l e Hin.
      apply elem_of_app in Hin as [Hin|Hin].
      * unfold failFlowPrefix in Hin.
        destruct (lookupReservation g
                    (newSerializedKey (IdentityKey (peer (ctxs g l0)))) i0)
          as [l'|] eqn:Hl'; [|now apply elem_of_nil in Hin].
        cbv zeta in Hin.
        assert (l' = l0) as ->.
        { apply Hsub in Hl'. rewrite Hg in Hl'.
          pose proof (Hys i0 l0 ltac:(left)) as Hl0. unfold key in Hl0.
          congruence. }
        destruct (lnwallet.Cancel (reservation (ctxs g l0))).
        -- apply elem_of_cons in Hin as [Hin|Hin]; [discriminate|].
           now apply elem_of_nil in Hin.
        -- apply elem_of_cons in Hin as [Hin|Hin]; [discriminate|].
           apply elem_of_cons in Hin as [Hin|Hin];
             [|now apply elem_of_nil in Hin].
           injection Hin as -> _. exists i0. now left.
      * apply elem_of_app in Hin as [Hin|Hin].
        -- apply elem_of_cons in Hin as [Hin|Hin]; [discriminate|].
           now apply elem_of_nil in Hin.
        -- destruct (Hev l e Hin) as [i Hi]. exists i. now right.
    + intros i l1 Hin.
      apply elem_of_cons in Hin as [[= -> ->]|Hin].
      * apply elem_of_app. right. apply elem_of_app. left.
        unfold timedOutFrame, err. rewrite Hg. now left.
      * apply elem_of_app. right. apply elem_of_app. right.
        now apply Hsent.
Qed.

(** The contexts the first loop hands to the second. *)
Lemma zombies_registered (f : fundingManager) :
  rangeOrder range →
  registryConsistent f →
  let key := fun l0 => newSerializedKey (IdentityKey (peer (ctxs f l0))) in
  ∀ i l0, (i, l0) ∈ range loc (zombieReservations range f now) →
    lookupReservation f (key l0) i = Some l0
    ∧ isZombie f (now (key l0) i) l0 = true.
Proof.
  intros Hrange Hcons key i l0 Hin. rewrite (Hrange _ _) in Hin.
  apply elem_of_map_to_list in Hin.
  revert i l0 Hin. apply zombieReservations_inv.
  intros k m i l0 Hk Hm Hzb.
  rewrite (Hrange _ _) in Hk. rewrite (Hrange _ _) in Hm.
  apply elem_of_map_to_list in Hk. apply elem_of_map_to_list in Hm.
  assert (Hl : lookupReservation f k i = Some l0)
    by (unfold lookupReservation; rewrite Hk; exact Hm).
  pose proof (Hcons _ _ _ Hl) as Hkey. fold (key l0) in Hkey.
  rewrite <- Hkey. auto.
Qed.

(** X15: in a registry where every context is registered under the key of
    its own peer, [pruneZombieReservations] removes only zombies: a context
    that is locked, or belongs to a PSBT flow, or was updated within the
    timeout, is still registered afterwards, the sweep registers nothing and
    writes no context, and an error is delivered only on the error channel of
    a context that was a zombie. *)
Theorem X15_prune_spares_live_reservations (f : fundingManager) :
  rangeOrder range →
  registryConsistent f →
  let f' := pruneZombieReservations Error hex range now f in
  ctxs f' = ctxs f
  ∧ (∀ k id l, lookupReservation f k id = Some l →
       isZombie f (now k id) l = false →
       lookupReservation f' k id = Some l)
  ∧ (∀ k id l, lookupReservation f' k id = Some l →
       lookupReservation f k id = Some l)
  ∧ (registryTidy f → registryTidy f')
  ∧ ∃ evs,
      trace f' = trace f ++ evs
      ∧ ∀ l e, EvErrChan l e ∈ evs →
          ∃ k id, lookupReservation f k id = Some l
                  ∧ isZombie f (now k id) l = true.
Proof.
  intros Hrange Hcons. cbv zeta.
  set (key := fun l0 => newSerializedKey (IdentityKey (peer (ctxs f l0)))).
  pose proof (zombies_registered f Hrange Hcons) as Hz. cbv zeta in Hz.
  fold key in Hz.
  change (pruneZombieReservations Error hex range now f)
    with (failZombies Error hex (range loc (zombieReservations range f now))
            f).
  destruct (failZombies_walk f (range loc (zombieReservations range f now)) f
              eq_refl ltac:(auto) (fun i l0 Hin => proj1 (Hz i l0 Hin)))
    as (Hctx & Hsub & Hframe & Htidy & _ & evs & Htr & Hev & _).
  fold key in Hframe.
  split; [exact Hctx|].
  split.
  { intros k id l Hl Hnz. rewrite Hframe; [exact Hl|].
    intros l0 Hin ->.
    destruct (Hz id l0 Hin) as (Hl0 & Hzb). unfold key in *.
    rewrite Hl in Hl0. injection Hl0 as <-. congruence. }
  split; [exact Hsub|].
  split; [exact Htidy|].
  exists evs. split; [exact Htr|].
  intros l e Hin. destruct (Hev l e Hin) as [i Hi].
  exists (key l), i. apply Hz, Hi.
Qed.

(** Every zombie entry of one peer's map is collected, when no entry of the
    map under that id is anything else. *)
Lemma collectPeer_complete (f : fundingManager) (k : bytes)
    (m z : gmap bytes loc) (id : bytes) (l : loc) :
  (∀ l', (id, l') ∈ range loc m →
         l' = l ∧ isZombie f (now k id) l' = true) →
  (id, l) ∈ range loc m ∨ z !! id = Some l →
  collectPeer range f now k m z !! id = Some l.
Proof.
  unfold collectPeer. generalize (range loc m) as xs. intros xs. revert z.
  induction xs as [|[i0 l0] xs IH]; intros z Hall Hor; cbn.
  - destruct Hor as [Hin|Hz]; [now apply elem_of_nil in Hin|exact Hz].
  - apply IH.
    + intros l' Hin. apply Hall. now right.
    + destruct (decide (i0 = id)) as [->|Hne].
      * destruct (Hall l0 ltac:(left)) as [-> Hzb]. rewrite Hzb.
        right. apply lookup_insert_eq.
      * destruct Hor as [Hin|Hz].
        -- apply elem_of_cons in Hin as [[= <- <-]|Hin];
             [contradiction|now left].
        -- right. destruct (isZombie f (now k i0) l0); [|exact Hz].
           now rewrite lookup_insert_ne.
Qed.

Lemma zombieReservations_complete (f : fundingManager) (id : bytes)
    (l : loc) :
  (∀ k m l', (k, m) ∈ range (gmap bytes loc) (activeReservations f) →
             (id, l') ∈ range loc m →
             l' = l ∧ isZombie f (now k id) l' = true) →
  (∃ k m, (k, m) ∈ range (gmap bytes loc) (activeReservations f)
          ∧ (id, l) ∈ range loc m) →
  zombieReservations range f now !! id = Some l.
Proof.
  unfold zombieReservations.
  generalize (range (gmap bytes loc) (activeReservations f)) as xs.
  intros xs Hall Hex.
  assert (Hgen : ∀ z,
            (∃ k m, (k, m) ∈ xs ∧ (id, l) ∈ range loc m) ∨ z !! id = Some l →
            fold_left
              (fun z '(peerIDKey, pendingReservations) =>
                 collectPeer range f now peerIDKey pendingReservations z)
              xs z !! id = Some l).
  { clear Hex. induction xs as [|[k0 m0] xs IH]; intros z Hor; cbn.
    - destruct Hor as [(k & m & Hin & _)|Hz];
        [now apply elem_of_nil in Hin|exact Hz].
    - apply IH.
      + intros k m l' Hin. apply Hall. now right.
      + destruct Hor as [(k & m & Hin & Hm)|Hz].
        * apply elem_of_cons in Hin as [[= -> ->]|Hin].
          -- right. apply collectPeer_complete; [|now left].
             intros l'. apply Hall. now left.
          -- left. eauto.
        * right. apply collectPeer_complete; [|now right].
          intros l'. apply Hall. now left. }
  apply Hgen. now left.
Qed.

(** X16: when no two peers hold a reservation under the same pending channel
    id, the sweep misses no zombie: a registered context that is not locked,
    not of a PSBT flow and older than the timeout is collected by the first
    loop, its peer is sent the "reservation timed out" error by the second,
    and, when the wallet cancels the reservation, it is no longer registered
    afterwards. *)
Theorem X16_prune_is_complete_for_distinct_ids
    (f : fundingManager) (k id : bytes) (l : loc) :
  rangeOrder range →
  registryConsistent f →
  distinctPendingIDs f →
  lookupReservation f k id = Some l →
  isZombie f (now k id) l = true →
  let f' := pruneZombieReservations Error hex range now f in
  zombieReservations range f now !! id = Some l
  ∧ (∃ evs, trace f' = trace f ++ evs
            ∧ timedOutFrame Error hex (peer (ctxs f l)) id ∈ evs)
  ∧ (lnwallet.Cancel (reservation (ctxs f l)) = None →
     lookupReservation f' k id = None).
Proof.
  intros Hrange Hcons Hdist Hl Hzb. cbv zeta.
  assert (Hcollected : zombieReservations range f now !! id = Some l).
  { apply zombieReservations_complete.
    - intros k' m l' Hk Hm.
      rewrite (Hrange _ _) in Hk. rewrite (Hrange _ _) in Hm.
      apply elem_of_map_to_list in Hk. apply elem_of_map_to_list in Hm.
      assert (Hl' : lookupReservation f k' id = Some l')
        by (unfold lookupReservation; rewrite Hk; exact Hm).
      pose proof (Hdist _ _ _ _ _ Hl' Hl) as ->.
      rewrite Hl in Hl'. injection Hl' as <-. auto.
    - unfold lookupReservation in Hl.
      destruct (activeReservations f !! k) as [m|] eqn:Hm; [|discriminate].
      exists k, m. rewrite !(Hrange _ _).
      split; now apply elem_of_map_to_list. }
  split; [exact Hcollected|].
  pose proof (zombies_registered f Hrange Hcons) as Hz. cbv zeta in Hz.
  change (pruneZombieReservations Error hex range now f)
    with (failZombies Error hex (range loc (zombieReservations range f now))
            f).
  destruct (failZombies_walk f (range loc (zombieReservations range f now)) f
              eq_refl ltac:(auto) (fun i l0 Hin => proj1 (Hz i l0 Hin)))
    as (_ & _ & _ & _ & Hgone & evs & Htr & _ & Hsent).
  assert (Hin : (id, l) ∈ range loc (zombieReservations range f now))
    by (rewrite (Hrange _ _); now apply elem_of_map_to_list).
  split; [exists evs; split; [exact Htr|now apply Hsent]|].
  intros Hc. rewrite (Hcons _ _ _ Hl). now apply Hgone.
Qed.

End PruneFacts.

Lemma X15_prune_spares_live_reservations_witness :
  lookupReservation
    (pruneZombieReservations exampleError exampleHex (fun V => map_to_list)
       (fun _ _ => exampleLater) lockedAndIdleManager)
    (newSerializedKey (IdentityKey examplePeer)) otherPendingID = Some 1%nat.
Proof.
  assert (Hrange : rangeOrder (fun V => map_to_list))
    by (intros V m; reflexivity).
  assert (Hcons : registryConsistent lockedAndIdleManager).
  { destruct (emptyManager_registry (exampleConfig [] 1)) as (Hf & Hc & _).
    apply withReservation_consistent.
    - now apply withReservation_fresh.
    - now apply withReservation_consistent. }
  pose proof (X15_prune_spares_live_reservations exampleError exampleHex
                (fun V => map_to_list) (fun _ _ => exampleLater)
                lockedAndIdleManager Hrange Hcons) as H.
  cbv zeta beta in H. destruct H as (_ & Hkeep & _).
  apply Hkeep; vm_compute; reflexivity.
Defined.

Lemma X16_prune_is_complete_for_distinct_ids_witness :
  lookupReservation
    (pruneZombieReservations exampleError exampleHex (fun V => map_to_list)
       (fun _ _ => exampleLater) oneManager)
    (newSerializedKey (IdentityKey examplePeer)) examplePendingID = None.
Proof.
  assert (Hrange : rangeOrder (fun V => map_to_list))
    by (intros V m; reflexivity).
  destruct (emptyManager_registry (exampleConfig [] 1)) as (Hf & Hc & _).
  assert (Hcons : registryConsistent oneManager)
    by now apply withReservation_consistent.
  assert (Hdist : distinctPendingIDs oneManager).
  { intros k1 k2 i l1 l2. unfold oneManager.
    rewrite !lookup_withReservation.
    destruct (emptyManager_registry (exampleConfig [] 1)) as (Hfresh & _).
    repeat case_decide; try (intros H'; apply Hfresh in H'; cbn in H'; lia);
      try (intros _ H'; apply Hfresh in H'; cbn in H'; lia).
    intros _ _. destruct H, H0. congruence. }
  pose proof (X16_prune_is_complete_for_distinct_ids exampleError exampleHex
                (fun V => map_to_list) (fun _ _ => exampleLater) oneManager
                (newSerializedKey (IdentityKey examplePeer)) examplePendingID
                0%nat Hrange Hcons Hdist) as H.
  cbv zeta beta in H.
  refine (proj2 (proj2 (H _ _)) _); vm_compute; reflexivity.
Defined.

(** ** What both ends of a channel agree on *)

Lemma lex_lt_asym (a b : bytes) : lex_lt a b → ¬ lex_lt b a.
Proof.
  induction 1; inversion 1; subst; try lia; auto.
Qed.

(** X17: the two ends of a channel build the same channel announcement.  When
    one node calls [newChanAnnouncement] with its own keys as the local ones,
    and the other node does with the roles exchanged, both calls, if they
    succeed, give the same short channel id, chain hash, node ids and bitcoin
    keys, in the same order, and the direction bits of their channel updates
    are 0 for one node and 1 for the other.  Each node's signer, policy, clock
    and HTLC bounds may differ. *)
Theorem X17_both_ends_build_the_same_announcement
    (Error : error → string) (chainHash : bytes)
    (IDKeyA IDKeyB : bytes)
    (SignA SignB : bytes → bytes → error + bytes)
    (policyA policyB : announce.ForwardingPolicy)
    (UpdateDataToSign : announce.ChannelUpdate → error + bytes)
    (AnnDataToSign : announce.ChannelAnnouncement → error + bytes)
    (NewSigFromSignature : bytes → error + bytes)
    (features : bytes) (maxHtlcBit nowA nowB : Z)
    (keyA keyB fundingKeyA fundingKeyB : bytes)
    (shortChanID : ShortChannelID) (chanID : bytes)
    (minA maxA minB maxB : Z)
    (annA annB : announce.chanAnnouncement) :
  keyA ≠ keyB →
  newChanAnnouncement Error chainHash IDKeyA SignA policyA
    UpdateDataToSign AnnDataToSign NewSigFromSignature features maxHtlcBit
    nowA keyA keyB fundingKeyA fundingKeyB shortChanID chanID minA maxA
    = inr annA →
  newChanAnnouncement Error chainHash IDKeyB SignB policyB
    UpdateDataToSign AnnDataToSign NewSigFromSignature features maxHtlcBit
    nowB keyB keyA fundingKeyB fundingKeyA shortChanID chanID minB maxB
    = inr annB →
  announce.chanAnn annA = announce.chanAnn annB
  ∧ announce.ChannelFlags (announce.chanUpdateAnn annA)
    + announce.ChannelFlags (announce.chanUpdateAnn annB) = 1
  ∧ 0 ≤ announce.ChannelFlags (announce.chanUpdateAnn annA) ≤ 1
  ∧ announce.pShortChannelID (announce.chanProof annA)
    = announce.pShortChannelID (announce.chanProof annB).
Proof.
  intros Hne HA HB.
  unfold newChanAnnouncement in HA, HB.
  repeat match type of HA with
         | match ?scrutinee with inl _ => _ | inr _ => _ end = _ =>
           destruct scrutinee; [discriminate|]
         end.
  repeat match type of HB with
         | match ?scrutinee with inl _ => _ | inr _ => _ end = _ =>
           destruct scrutinee; [discriminate|]
         end.
  injection HA as <-. injection HB as <-. cbn.
  destruct (Z.eqb_spec (bytes_Compare keyA keyB) (-1)) as [Hab|Hab];
    destruct (Z.eqb_spec (bytes_Compare keyB keyA) (-1)) as [Hba|Hba].
  - exfalso. apply bytes_Compare_lex_lt in Hab, Hba.
    now apply (lex_lt_asym _ _ Hab).
  - repeat split; lia.
  - repeat split; lia.
  - exfalso. apply Hba, bytes_Compare_lex_lt, lex_lt_total; [congruence|].
    intros H. now apply Hab, bytes_Compare_lex_lt.
Qed.

Lemma X17_both_ends_build_the_same_announcement_witness :
  ∃ annA annB,
    exampleAnnouncement = inr annA
    ∧ announce.chanAnn annA = announce.chanAnn annB
    ∧ announce.ChannelFlags (announce.chanUpdateAnn annA)
      + announce.ChannelFlags (announce.chanUpdateAnn annB) = 1.
Proof.
  assert (HA : ∃ annA, exampleAnnouncement = inr annA)
    by (eexists; vm_compute; reflexivity).
  destruct HA as [annA HA].
  assert (HB : ∃ annB,
    newChanAnnouncement (fun _ => "error"%string) (replicate 32 0)
      exampleRemoteKey (fun _ m => inr m) examplePolicy
      (fun _ => inr [1]) (fun _ => inr [2]) inr [] 1 1600000001
      exampleRemoteKey exampleLocalKey exampleFundingKey exampleFundingKey
      exampleShortChanID (replicate 32 9) 1 500000000 = inr annB)
    by (eexists; vm_compute; reflexivity).
  destruct HB as [annB HB].
  exists annA, annB. split; [exact HA|].
  pose proof (X17_both_ends_build_the_same_announcement
                (fun _ => "error"%string) (replicate 32 0)
                exampleLocalKey exampleRemoteKey
                (fun _ m => inr m) (fun _ m => inr m)
                examplePolicy examplePolicy
                (fun _ => inr [1]) (fun _ => inr [2]) inr [] 1
                1600000000 1600000001
                exampleLocalKey exampleRemoteKey
                exampleFundingKey exampleFundingKey
                exampleShortChanID (replicate 32 9)
                1000 990000000 1 500000000 annA annB
                ltac:(discriminate) HA HB) as (H1 & H2 & _).
  split; assumption.
Defined.

(** X18: the commitment type is negotiated symmetrically: both peers, each
    taking its own features as the local ones, arrive at the same type.  The
    anchors type is chosen exactly when both signal anchors, also when both
    signal static remote key as well; the tweakless type is chosen only when
    both signal static remote key; so no type is chosen that one of the two
    does not signal. *)
Theorem X18_commitment_type_is_symmetric
    (localFeatures remoteFeatures : FeatureVector) :
  commitmentType localFeatures remoteFeatures
  = commitmentType remoteFeatures localFeatures
  ∧ (commitmentType localFeatures remoteFeatures = CommitmentTypeAnchors ↔
     localFeatures AnchorsOptional = true
     ∧ remoteFeatures AnchorsOptional = true)
  ∧ (commitmentType localFeatures remoteFeatures = CommitmentTypeTweakless →
     localFeatures StaticRemoteKeyOptional = true
     ∧ remoteFeatures StaticRemoteKeyOptional = true)
  ∧ (commitmentType localFeatures remoteFeatures = CommitmentTypeLegacy ↔
     (localFeatures AnchorsOptional = false
      ∨ remoteFeatures AnchorsOptional = false)
     ∧ (localFeatures StaticRemoteKeyOptional = false
        ∨ remoteFeatures StaticRemoteKeyOptional = false)).
Proof.
  unfold commitmentType.
  destruct (localFeatures AnchorsOptional), (remoteFeatures AnchorsOptional),
    (localFeatures StaticRemoteKeyOptional),
    (remoteFeatures StaticRemoteKeyOptional); cbn;
    repeat split; try discriminate; auto;
    try (intros [? ?]; discriminate);
    try (intros [[?|?] [?|?]]; discriminate).
Qed.

(** X19: [getUpfrontShutdownScript] never yields a script for a peer that
    does not signal upfront shutdown: a script of the user is then refused
    with [errUpfrontShutdownScriptNotSupported], and without one the result is
    empty.  For a peer that signals it, a script of the user is returned as it
    is, whatever the configuration and the wallet say; without one the wallet
    is asked only when upfront shutdown is enabled, otherwise the result is
    empty.  The only errors are the refusal and the wallet's own. *)
Theorem X19_upfront_shutdown_script
    (enableUpfrontShutdown : bool) (p : Peer) (script : bytes)
    (getScript : error + bytes) :
  let supported := RemoteFeatures p UpfrontShutdownScriptOptional in
  let r := getUpfrontShutdownScript enableUpfrontShutdown p script getScript in
  (∀ s, r = inr s → s ≠ [] → supported = true)
  ∧ (script ≠ [] →
     r = if supported then inr script
         else inl errUpfrontShutdownScriptNotSupported)
  ∧ (script = [] →
     r = if supported && enableUpfrontShutdown then getScript else inr [])
  ∧ (∀ e, r = inl e →
       (supported = false ∧ script ≠ []
        ∧ e = errUpfrontShutdownScriptNotSupported)
       ∨ (supported = true ∧ script = [] ∧ enableUpfrontShutdown = true
          ∧ getScript = inl e)).
Proof.
  cbv zeta. unfold getUpfrontShutdownScript.
  destruct (RemoteFeatures p UpfrontShutdownScriptOptional);
    destruct script as [|b script]; destruct enableUpfrontShutdown; cbn;
    repeat split; try congruence; try discriminate; auto;
    try (intros s [= <-]; congruence);
    try (intros e [= <-]; left; repeat split; congruence);
    try (intros e He; right; repeat split; congruence).
Qed.

(** ** The confirmation wait, continued *)

Section WaitFacts2.

Variable Error : error → string.
Variable ch : channeldb.OpenChannel.

(** Once the waiter has returned, no step changes what it returned. *)
Lemma step_waiter_returned (s s' : waitState) (l : label)
    (r : error + confirmedChannel) :
  waiter s = WaiterReturned r →
  step Error ch s l = Some s' →
  waiter s' = WaiterReturned r.
Proof.
  intros Hw Hstep. destruct s as [w c t cc tc cn q]. cbn in Hw. subst w.
  destruct l; cbn in Hstep; try discriminate;
    repeat match type of Hstep with
           | match ?x with _ => _ end = _ => destruct x eqn:?; try discriminate
           | (if ?x then _ else _) = _ => destruct x eqn:?; try discriminate
           end;
    injection Hstep as <-; reflexivity.
Qed.

Lemma run_app (s : waitState) (tr tr' : list label) :
  run Error ch s (tr ++ tr') =
  match run Error ch s tr with
  | Some s' => run Error ch s' tr'
  | None => None
  end.
Proof.
  revert s. induction tr as [|l tr IH]; intros s; cbn; [reflexivity|].
  destruct (step Error ch s l); [apply IH|reflexivity].
Qed.

Lemma run_waiter_returned (tr : list label) (s s' : waitState)
    (r : error + confirmedChannel) :
  waiter s = WaiterReturned r →
  run Error ch s tr = Some s' →
  waiter s' = WaiterReturned r.
Proof.
  revert s. induction tr as [|l tr IH]; intros s Hw Hrun; cbn in Hrun.
  - now injection Hrun as <-.
  - destruct (step Error ch s l) as [s1|] eqn:Hstep; [|discriminate].
    apply (IH s1); [|exact Hrun].
    eapply step_waiter_returned; eassumption.
Qed.

Lemma shutdownInvariant_step (tr : list label) (l : label)
    (s s' : waitState) :
  shutdownInvariant tr s →
  step Error ch s l = Some s' →
  shutdownInvariant (tr ++ [l]) s'.
Proof.
  intros (H1 & H2 & H3 & H4) Hstep.
  pose proof (last_elem tr l) as Hlast.
  assert (H1' : quit s = true → LQuit ∈ tr ++ [l])
    by (intros Hq; apply elem_of_app; left; auto).
  clear H1.
  destruct s as [w c t cc tc cn q]. cbn in H1', H2, H3, H4.
  destruct l; cbn in Hstep; try discriminate;
    repeat match type of Hstep with
           | match ?x with _ => _ end = _ => destruct x eqn:?; try discriminate
           | (if ?x then _ else _) = _ => destruct x eqn:?; try discriminate
           end;
    injection Hstep as <-;
    (split; [|split; [|split]]); cbn;
    try assumption; try (intros; assumption);
    try (intros; discriminate); try (intros; reflexivity);
    try (intros ? [= <-]; discriminate);
    try (split; [eauto|reflexivity]).
  all: intros [= ->]; exfalso; now apply (H2 _ eq_refl).
Qed.

Lemma shutdownInvariant_run (tr : list label) (s : waitState) :
  run Error ch (initWait ch) tr = Some s → shutdownInvariant tr s.
Proof.
  revert s. induction tr as [|l tr IH] using rev_ind; intros s Hrun.
  - injection Hrun as <-. unfold shutdownInvariant, initWait. cbn.
    repeat split; try discriminate.
    intros [r Hr]; discriminate.
  - rewrite run_snoc in Hrun.
    destruct (run Error ch (initWait ch) tr) as [s0|] eqn:Hs0;
      [|discriminate].
    eapply shutdownInvariant_step; [apply IH; reflexivity | exact Hrun].
Qed.

(** X20: when [waitForFundingWithTimeout] returns a confirmed channel, the
    notifier has delivered a confirmation of the funding transaction, and
    what is returned is built from it: the short channel id has the block
    height and the index of the transaction in the block from the
    confirmation and, as output index, the index of the funding outpoint cut
    to 16 bits, and the funding transaction is the confirmed one.  Whoever
    opened the channel, a confirmation that is registered, delivered and
    received ends the wait so.  What the waiter has returned no later step of
    any goroutine changes. *)
Theorem X20_wait_returns_the_confirmation :
  (∀ tr c, waitForFundingWithTimeout Error ch tr = Some (inr c) →
     ∃ d, LConfirmed d ∈ tr
          ∧ BlockHeight (shortChanID c) = confBlockHeight d
          ∧ TxIndex (shortChanID c) = confTxIndex d
          ∧ TxPosition (shortChanID c)
            = uint16 (Index (channeldb.FundingOutpoint ch))
          ∧ fundingTx c = confTx d)
  ∧ (∀ d, waitForFundingWithTimeout Error ch
            [LConfRegistered; LConfirmed d; LWaiterConf]
          = Some (inr (confirmedChannelOf ch d)))
  ∧ (∀ tr tr' r,
       waitForFundingWithTimeout Error ch tr = Some r →
       run Error ch (initWait ch) (tr ++ tr') ≠ None →
       waitForFundingWithTimeout Error ch (tr ++ tr') = Some r).
Proof.
  split; [|split].
  - intros tr c Hr. unfold waitForFundingWithTimeout in Hr.
    destruct (run Error ch (initWait ch) tr) as [s|] eqn:Hrun;
      [|discriminate].
    destruct (waiter s) as [|r0] eqn:Hw; [discriminate|].
    injection Hr as ->.
    destruct (waitInvariant_run Error ch tr s Hrun) as (_ & _ & _ & _ & H5).
    destruct (H5 _ Hw) as (d & Hin & ->).
    exists d. repeat split; auto.
  - intros d. unfold waitForFundingWithTimeout, initWait. cbn.
    now destruct (channeldb.IsInitiator ch).
  - intros tr tr' r Hr Hrun. unfold waitForFundingWithTimeout in *.
    rewrite run_app in Hrun |- *.
    destruct (run Error ch (initWait ch) tr) as [s|] eqn:Hs; [|discriminate].
    destruct (waiter s) as [|r0] eqn:Hw; [discriminate|].
    injection Hr as ->.
    destruct (run Error ch s tr') as [s'|] eqn:Hs'; [|contradiction].
    now rewrite (run_waiter_returned tr' s s' r Hw Hs').
Qed.

(** X21: [waitForFundingWithTimeout] returns
    [ErrFundingManagerShuttingDown] only after the manager's [quit] channel
    was closed, and once it is closed a waiter still in its [select] can
    return that error.  [cancelChan] is closed exactly when the waiter has
    returned. *)
Theorem X21_wait_shutdown :
  (∀ tr, waitForFundingWithTimeout Error ch tr
         = Some (inl ErrFundingManagerShuttingDown) → LQuit ∈ tr)
  ∧ (∀ tr s, run Error ch (initWait ch) tr = Some s →
       waiter s = WaiterSelect → LQuit ∈ tr →
       waitForFundingWithTimeout Error ch (tr ++ [LWaiterQuit])
       = Some (inl ErrFundingManagerShuttingDown))
  ∧ (∀ tr s, run Error ch (initWait ch) tr = Some s →
       (cancelChanClosed s = true ↔ ∃ r, waiter s = WaiterReturned r)).
Proof.
  split; [|split].
  - intros tr Hr. unfold waitForFundingWithTimeout in Hr.
    destruct (run Error ch (initWait ch) tr) as [s|] eqn:Hrun;
      [|discriminate].
    destruct (waiter s) as [|r0] eqn:Hw; [discriminate|].
    injection Hr as ->.
    destruct (shutdownInvariant_run tr s Hrun) as (H1 & _ & H3 & _). auto.
  - intros tr s Hrun Hw Hq. unfold waitForFundingWithTimeout.
    rewrite run_snoc, Hrun. cbn. rewrite Hw.
    assert (Hquit : quit s = true).
    { clear Hw. revert s Hrun Hq.
      induction tr as [|l tr IH] using rev_ind; intros s Hrun Hq.
      - now apply elem_of_nil in Hq.
      - rewrite run_snoc in Hrun.
        destruct (run Error ch (initWait ch) tr) as [s0|] eqn:Hs0;
          [|discriminate].
        apply elem_of_app in Hq as [Hq|Hq].
        + specialize (IH s0 eq_refl Hq).
          destruct s0 as [w c t cc tc cn q]. cbn in IH. subst q.
          destruct l; cbn in Hrun; try discriminate;
            repeat match type of Hrun with
                   | match ?x with _ => _ end = _ =>
                     destruct x eqn:?; try discriminate
                   | (if ?x then _ else _) = _ =>
                     destruct x eqn:?; try discriminate
                   end;
            injection Hrun as <-; reflexivity.
        + apply elem_of_cons in Hq as [<-|Hq];
            [|now apply elem_of_nil in Hq].
          cbn in Hrun. now injection Hrun as <-. }
    now rewrite Hquit.
  - intros tr s Hrun.
    destruct (shutdownInvariant_run tr s Hrun) as (_ & _ & _ & H4). exact H4.
Qed.

(** X22: closing [cancelChan] releases the helpers that wait in their first
    [select]: the confirmation goroutine before a confirmation, and the
    timeout goroutine in its loop, can both return.  It does not release a
    confirmation goroutine that already holds a confirmation: blocked on its
    send to [confChan], with the waiter gone, it takes no step until [quit]
    is closed.  A responder's wait reaches that state when the deadline is
    reported first and the confirmation arrives after the waiter has
    returned the timeout. *)
Theorem X22_wait_cancel_releases_helpers :
  (∀ s, cancelChanClosed s = true → confirmation s = ConfSelect →
        step Error ch s LConfCanceled
        = Some (set_confirmation ConfReturned s))
  ∧ (∀ s, cancelChanClosed s = true → timeout s = TimeoutSelect →
          step Error ch s LTimeoutCanceled
          = Some (set_timeout TimeoutReturned (timeoutChan s) s))
  ∧ (∀ s s' l r c,
       waiter s = WaiterReturned r → confirmation s = ConfSending c →
       quit s = false → l ≠ LQuit →
       step Error ch s l = Some s' →
       confirmation s' = ConfSending c ∧ quit s' = false
       ∧ waiter s' = WaiterReturned r)
  ∧ (channeldb.IsInitiator ch = false →
     ∀ h d, maxHeight ch ≤ uint32 h →
       ∃ s, run Error ch (initWait ch)
              [LConfRegistered; LTimeoutRegistered; LEpoch h; LWaiterTimeout;
               LConfirmed d] = Some s
            ∧ waiter s = WaiterReturned (inl ErrConfirmationTimeout)
            ∧ confirmation s = ConfSending (confirmedChannelOf ch d)
            ∧ quit s = false).
Proof.
  split; [|split; [|split]].
  - intros s Hc Hs. unfold step. now rewrite Hs, Hc.
  - intros s Hc Hs. unfold step. now rewrite Hs, Hc.
  - intros s s' l r c Hw Hc Hq Hl Hstep.
    destruct s as [w cf t cc tc cn q]. cbn in Hw, Hc, Hq. subst w cf q.
    destruct l; cbn in Hstep; try discriminate; try contradiction;
      repeat match type of Hstep with
             | match ?x with _ => _ end = _ =>
               destruct x eqn:?; try discriminate
             | (if ?x then _ else _) = _ =>
               destruct x eqn:?; try discriminate
             end;
      injection Hstep as <-; repeat split; reflexivity.
  - intros Hinit h d Hh. unfold initWait. cbn. rewrite Hinit. cbn.
    apply Z.leb_le in Hh. rewrite Hh. cbn.
    eexists. split; [reflexivity|]. repeat split; reflexivity.
Qed.

End WaitFacts2.

Lemma X22_wait_cancel_releases_helpers_witness :
  ∃ s, run exampleError pendingDbChannel (initWait pendingDbChannel)
         lateConfirmationRun = Some s
       ∧ waiter s = WaiterReturned (inl ErrConfirmationTimeout)
       ∧ confirmation s
         = ConfSending (confirmedChannelOf pendingDbChannel exampleConfirmation)
       ∧ quit s = false.
Proof.
  refine (proj2 (proj2 (proj2
            (X22_wait_cancel_releases_helpers exampleError pendingDbChannel)))
            _ 652016 exampleConfirmation _).
  - reflexivity.
  - vm_compute. discriminate.
Defined.

Lemma X21_wait_shutdown_witness :
  waitForFundingWithTimeout exampleError initiatorChannel
    ([LConfRegistered; LQuit] ++ [LWaiterQuit])
  = Some (inl ErrFundingManagerShuttingDown).
Proof.
  refine (proj1 (proj2 (X21_wait_shutdown exampleError initiatorChannel))
            [LConfRegistered; LQuit] _ _ _ _).
  - reflexivity.
  - reflexivity.
  - apply elem_of_cons. right. now left.
Defined.

Lemma X20_wait_returns_the_confirmation_witness :
  waitForFundingWithTimeout exampleError initiatorChannel
    ([LConfRegistered; LConfirmed exampleConfirmation; LWaiterConf]
       ++ [LQuit])
  = Some (inr (confirmedChannelOf initiatorChannel exampleConfirmation)).
Proof.
  refine (proj2 (proj2
            (X20_wait_returns_the_confirmation exampleError initiatorChannel))
            _ [LQuit] _ _ _).
  - reflexivity.
  - discriminate.
Defined.

(** ** The registry under the handlers *)

Lemma wf_emit (ev : event) (f : fundingManager) :
  registryWf f → registryWf (emit ev f).
Proof. intros H. exact H. Qed.

Lemma wf_with_signed (sr : gmap bytes bytes) (nb : gset bytes)
    (f : fundingManager) :
  registryWf f → registryWf (with_signed sr nb f).
Proof. intros H. exact H. Qed.

Lemma wf_updateTimestamp (l : loc) (now : Time) (f : fundingManager) :
  registryWf f → registryWf (updateTimestamp l now f).
Proof.
  intros (Hf & Hc & Ht). split; [exact Hf|]. split; [|exact Ht].
  intros k i l' Hl. cbn. unfold store.
  case_decide as Hd; [subst l'; cbn|]; exact (Hc k i _ Hl).
Qed.

(** Dropping entries keeps the registry well formed. *)
Lemma wf_shrink (f f' : fundingManager) :
  registryWf f →
  (∀ k i l, lookupReservation f' k i = Some l →
            lookupReservation f k i = Some l) →
  ctxs f' = ctxs f → nextLoc f' = nextLoc f →
  registryTidy f' →
  registryWf f'.
Proof.
  intros (Hf & Hc & _) Hsub Hctx Hn Ht.
  split; [|split; [|exact Ht]].
  - intros k i l Hl. rewrite Hn. exact (Hf k i l (Hsub _ _ _ Hl)).
  - intros k i l Hl. rewrite Hctx. exact (Hc k i l (Hsub _ _ _ Hl)).
Qed.

Lemma wf_withReservation (id : bytes) (ctx : reservationWithCtx)
    (f : fundingManager) :
  registryWf f → registryWf (withReservation id ctx f).
Proof.
  intros (Hf & Hc & Ht).
  split; [now apply withReservation_fresh|].
  split; [now apply withReservation_consistent
         |now apply withReservation_tidy].
Qed.

Section HandlerFacts.

Variable Error : error → string.
Variable hex : bytes → string.

Lemma wf_failFundingFlow (p : Peer) (id : bytes) (err : error)
    (f : fundingManager) :
  registryWf f → registryWf (failFundingFlow Error hex p id err f).
Proof.
  intros Hwf.
  destruct (failFundingFlow_trace Error hex p id err f) as (_ & Hc & _ & Hn).
  destruct (failFundingFlow_registry Error hex p id err f)
    as (Htidy & Hframe & Hsame).
  cbv zeta in Hc, Hn, Htidy, Hframe, Hsame.
  apply (wf_shrink f); auto; [|apply Htidy, Hwf].
  intros k i l Hl.
  destruct (decide (k = newSerializedKey (IdentityKey p) ∧ i = id))
    as [[-> ->]|Hne].
  - destruct Hsame as [Hn'|He]; [congruence|now rewrite <- He].
  - rewrite <- Hframe; [exact Hl|exact Hne].
Qed.

Lemma wf_failZombies (ys : list (bytes * loc)) (g : fundingManager) :
  registryWf g → registryWf (failZombies Error hex ys g).
Proof.
  revert g. induction ys as [|[i l] ys IH]; intros g Hwf; [exact Hwf|].
  apply (IH (failFundingFlow Error hex (peer (ctxs g l)) i
               (Errorf
                  "reservation timed out waiting for peer (peer_id:%x, chan_id:%x)"
                  [hex (IdentityKey (peer (ctxs g l))); hex i]) g)).
  now apply wf_failFundingFlow.
Qed.

Ltac wf_step :=
  match goal with
  | |- registryWf (failFundingFlow _ _ _ _ _ _) => apply wf_failFundingFlow
  | |- registryWf (emit _ _) => apply wf_emit
  | |- registryWf (updateTimestamp _ _ _) => apply wf_updateTimestamp
  | |- registryWf (with_signed _ _ _) => apply wf_with_signed
  | |- registryWf (match ?x with _ => _ end) => destruct x
  end.

(** X23: an [Open] that passes the checks, for which the wallet gives a
    reservation and accepts the constraints and the contribution, and whose
    answer reaches the peer, registers one new context under the peer and the
    pending channel id, in place of whatever was registered there; the context
    holds the reservation, the peer and the amount, and is unlocked, its
    timestamp being the time the handler returned.  No other entry and no
    other context changes.  The wallet is asked for a reservation of the
    remote's amount with nothing funded by us, told our required
    confirmations and shutdown script, and the peer is sent one
    [AcceptChannel] with our requirements for the remote side. *)
Theorem X23_accepted_open_registers_a_context
    (now : Time) (p : Peer) (msg : lnwire.OpenChannel) (f : fundingManager)
    (r : lnwallet.ChannelReservation) (shutdown : bytes) :
  let key := newSerializedKey (IdentityKey p) in
  let id := lnwire.PendingChannelID msg in
  let amt := lnwire.FundingAmount msg in
  let confs := NumRequiredConfs (cfg f) amt (lnwire.PushAmount msg) in
  checkFundingOpen p msg f = None →
  (∀ req, InitChannelReservation (cfg f) req = inr r) →
  (∀ c d, lnwallet.CommitConstraints r c d = None) →
  getUpfrontShutdownScript (EnableUpfrontShutdown (cfg f)) p []
    (NewAddressScript (cfg f)) = inr shutdown →
  (∀ c, lnwallet.ProcessSingleContribution r c = None) →
  (∀ m, SendMessage p true m = None) →
  let f' := handleFundingOpen Error hex now p msg f in
  let l := nextLoc f in
  lookupReservation f' key id = Some l
  ∧ (∀ k i, ¬ (k = key ∧ i = id) →
       lookupReservation f' k i = lookupReservation f k i)
  ∧ nextLoc f' = S l
  ∧ (∀ l', l' ≠ l → ctxs f' l' = ctxs f l')
  ∧ reservation (ctxs f' l) = r ∧ peer (ctxs f' l) = p
  ∧ chanAmt (ctxs f' l) = amt ∧ lastUpdated (ctxs f' l) = now
  ∧ ∃ req accept,
      trace f' =
        trace f ++
        [EvInitChannelReservation req;
         EvSetNumConfsRequired (lnwallet.reservationID r) confs;
         EvSetOurUpfrontShutdown (lnwallet.reservationID r) shutdown;
         EvSendMessage (IdentityKey p) true (lnwire.MsgAcceptChannel accept)]
      ∧ lnwallet.RemoteFundingAmt req = amt
      ∧ lnwallet.LocalFundingAmt req = 0
      ∧ lnwallet.CommitType req
        = commitmentType (LocalFeatures p) (RemoteFeatures p)
      ∧ lnwire.aPendingChannelID accept = id
      ∧ lnwire.aMinAcceptDepth accept = uint32 confs
      ∧ lnwire.aCsvDelay accept = RequiredRemoteDelay (cfg f) amt
      ∧ lnwire.aChannelReserve accept
        = RequiredRemoteChanReserve (cfg f) amt (lnwire.DustLimit msg)
      ∧ lnwire.aMaxValueInFlight accept = RequiredRemoteMaxValue (cfg f) amt
      ∧ lnwire.aMaxAcceptedHTLCs accept = RequiredRemoteMaxHTLCs (cfg f) amt
      ∧ lnwire.aHtlcMinimum accept = DefaultMinHtlcIn (cfg f).
Proof.
  cbv zeta. intros Hcheck Hinit Hcc Hshut Hpsc Hsend.
  unfold handleFundingOpen. rewrite Hcheck. cbv zeta.
  change (cfg (emit ?ev ?g)) with (cfg g).
  rewrite Hinit.
  change (cfg (emit ?ev ?g)) with (cfg g).
  rewrite Hcc, Hshut, Hpsc, Hsend.
  split.
  { unfold lookupReservation. cbn. rewrite lookup_insert_eq. cbn.
    apply lookup_insert_eq. }
  split.
  { intros k i Hne. unfold lookupReservation. cbn.
    destruct (decide (k = newSerializedKey (IdentityKey p))) as [->|Hk].
    - rewrite lookup_insert_eq. cbn.
      rewrite lookup_insert_ne by (intros E; apply Hne; auto).
      now destruct (activeReservations f !! newSerializedKey (IdentityKey p)).
    - now rewrite lookup_insert_ne by congruence. }
  split; [reflexivity|].
  split.
  { intros l' Hl'. cbn. unfold store. now rewrite !decide_False by exact Hl'. }
  cbn. unfold store. rewrite !decide_True by reflexivity. cbn.
  repeat (split; [reflexivity|]).
  eexists _, _. split; [rewrite <- !app_assoc; reflexivity|].
  cbn. repeat split; reflexivity.
Qed.

(** X24: when the wallet has given a reservation for an [Open] and then
    refuses the constraints, the flow is failed before any context is
    registered for it.  If nothing was registered under the peer and the
    pending channel id, the peer is sent the error and that is all: the
    registry is unchanged and the wallet is not asked to cancel the
    reservation it has just given.  If a context was registered there, it is
    that earlier context whose reservation is cancelled and which is removed. *)
Theorem X24_open_refused_after_reservation
    (now : Time) (p : Peer) (msg : lnwire.OpenChannel) (f : fundingManager)
    (r : lnwallet.ChannelReservation) (err : error) :
  let key := newSerializedKey (IdentityKey p) in
  let id := lnwire.PendingChannelID msg in
  checkFundingOpen p msg f = None →
  (∀ req, InitChannelReservation (cfg f) req = inr r) →
  (∀ c d, lnwallet.CommitConstraints r c d = Some err) →
  let f' := handleFundingOpen Error hex now p msg f in
  ctxs f' = ctxs f ∧ nextLoc f' = nextLoc f
  ∧ (∀ k i, ¬ (k = key ∧ i = id) →
       lookupReservation f' k i = lookupReservation f k i)
  ∧ (lookupReservation f key id = None →
     activeReservations f' = activeReservations f
     ∧ ∃ evs, trace f' = trace f ++ evs
              ∧ Forall (fun ev => isCancel ev = false) evs
              ∧ Forall (fun ev => isErrChan ev = false) evs
              ∧ EvSendMessage (IdentityKey p) false
                  (lnwire.MsgError {| lnwire.ChanID := id;
                                      lnwire.Data := errorData Error err |})
                ∈ evs)
  ∧ (∀ l0, lookupReservation f key id = Some l0 →
       lnwallet.Cancel (reservation (ctxs f l0)) = None →
       lookupReservation f' key id = None
       ∧ ∃ evs, trace f' = trace f ++ evs
                ∧ EvCancel (lnwallet.reservationID (reservation (ctxs f l0)))
                  ∈ evs
                ∧ EvErrChan l0 err ∈ evs).
Proof.
  cbv zeta. intros Hcheck Hinit Hcc.
  unfold handleFundingOpen. rewrite Hcheck. cbv zeta.
  change (cfg (emit ?ev ?g)) with (cfg g).
  rewrite Hinit.
  change (cfg (emit ?ev ?g)) with (cfg g).
  rewrite Hcc.
  match goal with
  | |- context [failFundingFlow Error hex p ?i err ?g] =>
    destruct (failFundingFlow_trace Error hex p i err g)
      as (Ht & Hc & _ & Hn);
    destruct (failFundingFlow_registry Error hex p i err g)
      as (_ & Hframe & _);
    pose proof (cancelReservationCtx_registry Error hex (IdentityKey p) i
                  false g) as Hcancel;
    pose proof (failFundingFlow_unknown Error hex p i err g) as Hunknown;
    cbv zeta in Ht, Hc, Hn, Hframe, Hcancel
  end.
  split; [exact Hc|]. split; [exact Hn|].
  split; [exact Hframe|].
  split.
  - intros Hnone. rewrite (Hunknown Hnone).
    split; [reflexivity|].
    eexists. split; [cbn; rewrite <- !app_assoc; reflexivity|].
    split; [repeat constructor|]. split; [repeat constructor|].
    apply elem_of_cons. right. apply elem_of_cons. right. now left.
  - intros l0 Hl0 Hcan.
    assert (Hl0' : lookupReservation
              (emit (EvSetNumConfsRequired (lnwallet.reservationID r)
                       (NumRequiredConfs (cfg f) (lnwire.FundingAmount msg)
                          (lnwire.PushAmount msg)))
                 (emit (EvInitChannelReservation
                    {| lnwallet.ChainHash := lnwire.ChainHash msg;
                       lnwallet.PendingChanID := lnwire.PendingChannelID msg;
                       lnwallet.NodeID := IdentityKey p;
                       lnwallet.NodeAddr := Address p;
                       lnwallet.LocalFundingAmt := 0;
                       lnwallet.RemoteFundingAmt := lnwire.FundingAmount msg;
                       lnwallet.CommitFeePerKw := lnwire.FeePerKiloWeight msg;
                       lnwallet.FundingFeePerKw := 0;
                       lnwallet.PushMSat := lnwire.PushAmount msg;
                       lnwallet.Flags := lnwire.ChannelFlags msg;
                       lnwallet.MinConfs := 1;
                       lnwallet.CommitType :=
                         commitmentType (LocalFeatures p) (RemoteFeatures p)
                    |}) f))
              (newSerializedKey (IdentityKey p))
              (lnwire.PendingChannelID msg) = Some l0) by exact Hl0.
    unfold failFundingFlow in *.
    destruct (cancelReservationCtx Error hex (IdentityKey p)
                (lnwire.PendingChannelID msg) false _) as [[ctx e] g2].
    destruct Hcancel as (_ & _ & _ & _ & Hcancel).
    rewrite Hl0' in Hcancel. cbv zeta in Hcancel.
    destruct Hcancel as (Htr & Hcancel).
    cbn [ctxs emit with_trace] in Hcancel, Htr.
    rewrite andb_false_r in Htr.
    rewrite Hcan in Hcancel. destruct Hcancel as (-> & -> & Hreg).
    split.
    + change (lookupReservation g2 (newSerializedKey (IdentityKey p))
                (lnwire.PendingChannelID msg) = None).
      rewrite Hreg. now rewrite decide_True.
    + eexists. split.
      * cbn. rewrite Htr. cbn. rewrite <- !app_assoc. reflexivity.
      * cbn. split.
        -- do 2 (apply elem_of_cons; right). now left.
        -- do 3 (apply elem_of_cons; right). now left.
Qed.

Variable range : ∀ V : Type, gmap bytes V → list (bytes * V).
Variable MaxNumConfs : Z.
Variable NewChanIDFromOutPoint : OutPoint → bytes.
Variable NewSigFromSignature : bytes → error + bytes.
Variable msgError : lnwire.Error → string.
Variable ErrRemoteCanceled : error.

Lemma wf_cancelReservationCtx (peerKey id : bytes) (byRemote : bool)
    (f : fundingManager) :
  registryWf f →
  registryWf (cancelReservationCtx Error hex peerKey id byRemote f).2.
Proof.
  intros Hwf.
  pose proof (cancelReservationCtx_registry Error hex peerKey id byRemote f)
    as H.
  cbv zeta in H.
  destruct (cancelReservationCtx Error hex peerKey id byRemote f)
    as [[ctx e] f'].
  destruct H as (Hc & _ & Hn & Htidy & H). cbn [snd].
  apply (wf_shrink f); auto; [|apply Htidy, Hwf].
  intros k i l Hl.
  destruct (lookupReservation f (newSerializedKey peerKey) id) as [l0|].
  - cbv zeta in H. destruct H as (_ & H).
    destruct (lnwallet.Cancel (reservation (ctxs f l0))).
    + destruct H as (_ & _ & Hreg). unfold lookupReservation in *.
      now rewrite <- Hreg.
    + destruct H as (_ & _ & Hreg). rewrite Hreg in Hl.
      now case_decide.
  - destruct H as (_ & _ & ->). exact Hl.
Qed.

Lemma wf_deleteReservationCtx (peerKey id : bytes) (f : fundingManager) :
  registryWf f → registryWf (deleteReservationCtx peerKey id f).
Proof.
  intros Hwf. unfold deleteReservationCtx.
  destruct (activeReservations f !! newSerializedKey peerKey) as [m|] eqn:Hm;
    [|exact Hwf].
  apply (wf_shrink f); auto.
  - intros k i l. unfold lookupReservation. cbn.
    rewrite (lookup_removed _ _ _ m) by exact Hm.
    now case_decide.
  - intros k x. cbn. apply tidy_removed. apply Hwf.
Qed.

Lemma wf_CancelPeerReservations (nodePub : bytes) (f : fundingManager) :
  registryWf f → registryWf (CancelPeerReservations range nodePub f).
Proof.
  intros Hwf. unfold CancelPeerReservations.
  destruct (activeReservations f !! nodePub) as [m|] eqn:Hm; [|exact Hwf].
  cbv zeta.
  match goal with
  | |- context [fold_left ?s (range loc m) f] =>
    pose (G := fold_left s (range loc m) f);
    change (fold_left s (range loc m) f) with G;
    assert (Hwalk : ∀ xs g,
              ctxs (fold_left s xs g) = ctxs g
              ∧ activeReservations (fold_left s xs g) = activeReservations g
              ∧ nextLoc (fold_left s xs g) = nextLoc g)
  end.
  { induction xs as [|[id l] xs IH]; intros g; cbn; [auto|].
    destruct (IH (emit (EvErrChan l (Errorf "peer disconnected" []))
                    (emit (EvCancel (lnwallet.reservationID
                                       (reservation (ctxs g l)))) g)))
      as (Hc & Ha & Hn).
    rewrite Hc, Ha, Hn. auto. }
  destruct (Hwalk (range loc m) f) as (Hc & Ha & Hn).
  fold G in Hc, Ha, Hn. clearbody G. clear Hwalk.
  apply (wf_shrink f); auto.
  - intros k i l. unfold lookupReservation. cbn [activeReservations
      with_activeReservations]. rewrite Ha.
    destruct (decide (k = nodePub)) as [->|Hk].
    + now rewrite lookup_delete_eq.
    + now rewrite lookup_delete_ne by congruence.
  - intros k x. cbn [activeReservations with_activeReservations]. rewrite Ha.
    destruct (decide (k = nodePub)) as [->|Hk].
    + now rewrite lookup_delete_eq.
    + rewrite lookup_delete_ne by congruence. apply Hwf.
Qed.

(** X25: the handlers keep the registry well formed.  If every registered
    context is registered under the key of its own peer, no peer has an empty
    map of reservations and every registered context was allocated, then the
    same holds after [handleFundingOpen], [handleFundingAccept],
    [handleErrorMsg], [failFundingFlow], [CancelPeerReservations],
    [deleteReservationCtx] and [pruneZombieReservations], whatever the
    message, the peer, the wallet and the clock. *)
Theorem X25_handlers_keep_the_registry_well_formed (f : fundingManager) :
  registryWf f →
  (∀ now p msg, registryWf (handleFundingOpen Error hex now p msg f))
  ∧ (∀ now p msg,
       registryWf (handleFundingAccept Error hex MaxNumConfs
                     NewChanIDFromOutPoint NewSigFromSignature now p msg f))
  ∧ (∀ p msg,
       registryWf (handleErrorMsg Error hex msgError ErrRemoteCanceled
                     p msg f))
  ∧ (∀ p id err, registryWf (failFundingFlow Error hex p id err f))
  ∧ (∀ nodePub, registryWf (CancelPeerReservations range nodePub f))
  ∧ (∀ peerKey id, registryWf (deleteReservationCtx peerKey id f))
  ∧ (∀ now, registryWf (pruneZombieReservations Error hex range now f)).
Proof.
  intros Hwf.
  split; [|split; [|split; [|split; [|split; [|split]]]]].
  - intros now p msg. unfold handleFundingOpen.
    destruct (checkFundingOpen p msg f); [now apply wf_failFundingFlow|].
    cbv zeta.
    repeat wf_step; try exact Hwf;
      try (refine (wf_withReservation (lnwire.PendingChannelID msg)
                     _ _ _); exact Hwf).
  - intros now p msg. unfold handleFundingAccept, continueFundingAccept.
    destruct (getReservationCtx hex (IdentityKey p)
                (lnwire.aPendingChannelID msg) f); [exact Hwf|].
    cbv zeta. repeat wf_step; exact Hwf.
  - intros p msg. unfold handleErrorMsg.
    pose proof (wf_cancelReservationCtx (IdentityKey p) (lnwire.ChanID msg)
                  true f Hwf) as H.
    destruct (cancelReservationCtx Error hex (IdentityKey p)
                (lnwire.ChanID msg) true f) as [[ctx e] f'].
    cbn [snd] in H. destruct e; [exact H|]. destruct ctx; exact H.
  - intros p id err. now apply wf_failFundingFlow.
  - intros nodePub. now apply wf_CancelPeerReservations.
  - intros peerKey id. now apply wf_deleteReservationCtx.
  - intros now.
    change (pruneZombieReservations Error hex range now f)
      with (failZombies Error hex (range loc (zombieReservations range f now))
              f).
    now apply wf_failZombies.
Qed.

End HandlerFacts.

Lemma X23_accepted_open_registers_a_context_witness :
  let f' := handleFundingOpen exampleError exampleHex exampleLater
              examplePeer (exampleOpen 1000000) idleManager in
  lookupReservation f' (newSerializedKey (IdentityKey examplePeer))
    examplePendingID = Some 0%nat
  ∧ lastUpdated (ctxs f' 0%nat) = exampleLater.
Proof.
  pose proof (X23_accepted_open_registers_a_context exampleError exampleHex
                exampleLater examplePeer (exampleOpen 1000000) idleManager
                (exampleReservation 1 false false None None) []) as H.
  cbv zeta beta in H.
  destruct H as (H1 & _ & _ & _ & _ & _ & _ & H2 & _);
    try reflexivity; try (intros; reflexivity).
  split; [exact H1|exact H2].
Defined.

Lemma X24_open_refused_after_reservation_witness :
  let f' := handleFundingOpen exampleError exampleHex exampleLater
              examplePeer (exampleOpen 1000000) refusingManager in
  lookupReservation refusingManager
    (newSerializedKey (IdentityKey examplePeer)) examplePendingID
  = Some 0%nat
  ∧ lookupReservation f' (newSerializedKey (IdentityKey examplePeer))
      examplePendingID = None.
Proof.
  pose proof (X24_open_refused_after_reservation exampleError exampleHex
                exampleLater examplePeer (exampleOpen 1000000)
                refusingManager refusingReservation
                (ENew "csv delay too large")) as H.
  cbv zeta beta in H.
  destruct H as (_ & _ & _ & _ & H);
    try reflexivity; try (intros; reflexivity).
  split; [reflexivity|].
  refine (proj1 (H 0%nat _ _)); reflexivity.
Defined.

Lemma X25_handlers_keep_the_registry_well_formed_witness :
  registryWf (handleFundingOpen exampleError exampleHex exampleLater
                examplePeer (exampleOpen 1000000) oneManager).
Proof.
  refine (proj1 (X25_handlers_keep_the_registry_well_formed exampleError
                   exampleHex (fun V => map_to_list) 20 exampleNewChanID
                   exampleNewSig exampleMsgError exampleRemoteCanceled
                   oneManager _) exampleLater examplePeer
                (exampleOpen 1000000)).
  apply wf_withReservation. apply emptyManager_registry.
Defined.

(** ** The peer's [AcceptChannel] *)

Section AcceptFacts.

Variable Error : error → string.
Variable hex : bytes → string.
Variable MaxNumConfs : Z.
Variable NewChanIDFromOutPoint : OutPoint → bytes.
Variable NewSigFromSignature : bytes → error + bytes.

Local Abbreviation accept :=
  (handleFundingAccept Error hex MaxNumConfs NewChanIDFromOutPoint
     NewSigFromSignature).

(** X26: [handleFundingAccept] ignores an [AcceptChannel] for which no
    context is registered: nothing is sent and nothing changes.  For a
    registered context, a [MinAcceptDepth] above [MaxNumConfs] fails the flow
    with [ErrNumConfsTooLarge], whose text the peer is sent, before the
    reservation is told any number of confirmations; below [2^16] the
    accepted depth is passed to the reservation without truncation.  When the
    wallet accepts the constraints and the contribution, the signature
    converts and the send succeeds, the permanent channel id is mapped to the
    pending one and gets a barrier, the peer is sent one [FundingCreated]
    with the funding outpoint and our signature, and the context stays
    registered with the return time as its timestamp. *)
Theorem X26_accept_channel
    (now : Time) (p : Peer) (msg : lnwire.AcceptChannel)
    (f : fundingManager) :
  let key := newSerializedKey (IdentityKey p) in
  let id := lnwire.aPendingChannelID msg in
  let depth := lnwire.aMinAcceptDepth msg in
  let f' := accept now p msg f in
  (lookupReservation f key id = None → f' = f)
  ∧ ∀ l, lookupReservation f key id = Some l →
      let r := reservation (ctxs f l) in
      lastUpdated (ctxs f' l) = now
      ∧ (MaxNumConfs < depth →
         ∃ evs,
           trace f' = trace f ++ evs
           ∧ Forall (fun ev => isSetNumConfsRequired ev = false) evs
           ∧ EvSendMessage (IdentityKey p) false
               (lnwire.MsgError
                  {| lnwire.ChanID := id;
                     lnwire.Data :=
                       Error (EReservation
                                (ErrNumConfsTooLarge depth MaxNumConfs)) |})
             ∈ evs)
      ∧ (0 ≤ depth ≤ MaxNumConfs → MaxNumConfs < 2 ^ 16 →
         ∃ evs,
           trace f' =
             trace f ++ EvSetNumConfsRequired (lnwallet.reservationID r) depth
                        :: evs)
      ∧ (depth ≤ MaxNumConfs →
         (∀ c d, lnwallet.CommitConstraints r c d = None) →
         (∀ c, lnwallet.ProcessContribution r c = None) →
         ∀ sig, NewSigFromSignature (lnwallet.OurSignatures r) = inr sig →
         (∀ m, SendMessage (peer (ctxs f l)) true m = None) →
         let chanID := NewChanIDFromOutPoint (lnwallet.FundingOutpoint r) in
         signedReservations f' !! chanID = Some id
         ∧ chanID ∈ newChanBarriers f'
         ∧ lookupReservation f' key id = Some l
         ∧ trace f' =
             trace f ++
             [EvSetNumConfsRequired (lnwallet.reservationID r) (uint16 depth);
              EvSendMessage (IdentityKey (peer (ctxs f l))) true
                (lnwire.MsgFundingCreated
                   {| lnwire.cPendingChannelID := id;
                      lnwire.cFundingPoint := lnwallet.FundingOutpoint r;
                      lnwire.cCommitSig := sig |})]).
Proof.
  cbv zeta. unfold handleFundingAccept, getReservationCtx.
  split.
  { intros Hnone. now rewrite Hnone. }
  intros l Hl. rewrite Hl.
  split.
  { cbn. unfold store. now rewrite decide_True. }
  split.
  { intros Hdeep. apply Z.ltb_lt in Hdeep. rewrite Hdeep.
    destruct (failFundingFlow_trace Error hex p (lnwire.aPendingChannelID msg)
                (EReservation
                   (ErrNumConfsTooLarge (lnwire.aMinAcceptDepth msg)
                      MaxNumConfs)) f) as (Ht & _).
    eexists. split; [exact Ht|].
    split.
    - apply Forall_app. split; [|repeat constructor].
      unfold failFlowPrefix. rewrite Hl. cbv zeta.
      destruct (lnwallet.Cancel (reservation (ctxs f l)));
        repeat constructor.
    - apply elem_of_app. right. now left. }
  split.
  { intros [H0 Hle] Hmax.
    assert (Hnd : (MaxNumConfs <? lnwire.aMinAcceptDepth msg) = false)
      by (apply Z.ltb_ge; lia).
    rewrite Hnd.
    assert (Hu : uint16 (lnwire.aMinAcceptDepth msg)
                 = lnwire.aMinAcceptDepth msg).
    { unfold uint16, uintN. apply Z.mod_small. lia. }
    rewrite Hu. cbv zeta.
    set (g := emit (EvSetNumConfsRequired
                      (lnwallet.reservationID (reservation (ctxs f l)))
                      (lnwire.aMinAcceptDepth msg)) f).
    assert (Hext : ∀ q i e h, ∃ evs, trace (failFundingFlow Error hex q i e h)
                                     = trace h ++ evs).
    { intros q i e h.
      destruct (failFundingFlow_trace Error hex q i e h) as (Ht & _).
      eexists. exact Ht. }
    assert (Hg : ∀ h : fundingManager, (∃ evs, trace h = trace g ++ evs) →
              ∃ evs, trace (updateTimestamp l now h)
                     = trace f ++ EvSetNumConfsRequired
                         (lnwallet.reservationID (reservation (ctxs f l)))
                         (lnwire.aMinAcceptDepth msg) :: evs).
    { intros h [evs Hh]. exists evs. cbn. rewrite Hh. cbn.
      now rewrite <- app_assoc. }
    apply Hg.
    assert (Hfail : ∀ q i e, ∃ evs,
              trace (failFundingFlow Error hex q i e g) = trace g ++ evs)
      by (intros; apply Hext).
    assert (Hemit : ∀ (h : fundingManager) ev,
              (∃ evs, trace h = trace g ++ evs) →
              ∃ evs, trace (emit ev h) = trace g ++ evs).
    { intros h ev [evs Hh]. exists (evs ++ [ev]). cbn. rewrite Hh.
      now rewrite <- app_assoc. }
    assert (Hfail' : ∀ q i e (h : fundingManager),
              (∃ evs, trace h = trace g ++ evs) →
              ∃ evs, trace (failFundingFlow Error hex q i e h)
                     = trace g ++ evs).
    { intros q i e h [evs Hh]. destruct (Hext q i e h) as [evs' Hh'].
      exists (evs ++ evs'). rewrite Hh', Hh. now rewrite <- app_assoc. }
    assert (Hrefl : ∃ evs, trace g = trace g ++ evs)
      by (exists []; now rewrite app_nil_r).
    unfold continueFundingAccept. cbv zeta.
    repeat match goal with
           | |- ∃ evs, trace (failFundingFlow _ _ _ _ _ _) = _ =>
             apply Hfail'
           | |- ∃ evs, trace (emit _ _) = _ => apply Hemit
           | |- ∃ evs, trace (with_signed _ _ _) = _ => exact Hrefl
           | |- ∃ evs, trace g = _ => exact Hrefl
           | |- ∃ evs, trace (match ?x with _ => _ end) = _ => destruct x
           end. }
  intros Hle Hcc Hpc sig Hsig Hsend.
  assert (Hnd : (MaxNumConfs <? lnwire.aMinAcceptDepth msg) = false)
    by (apply Z.ltb_ge; lia).
  rewrite Hnd. cbv zeta. rewrite Hcc, Hpc.
  unfold continueFundingAccept. cbv zeta.
  cbn [ctxs emit with_trace with_signed]. rewrite Hsig, Hsend.
  split; [cbn; apply lookup_insert_eq|].
  split; [cbn; set_solver|].
  split; [exact Hl|].
  cbn. now rewrite <- app_assoc.
Qed.

End AcceptFacts.

Lemma X26_accept_channel_witness :
  ∃ evs,
    trace (handleFundingAccept exampleError exampleHex 20 exampleNewChanID
             exampleNewSig exampleLater examplePeer deepAccept oneManager)
    = trace oneManager ++ evs
    ∧ Forall (fun ev => isSetNumConfsRequired ev = false) evs.
Proof.
  pose proof (X26_accept_channel exampleError exampleHex 20 exampleNewChanID
                exampleNewSig exampleLater examplePeer deepAccept oneManager)
    as H.
  cbv zeta beta in H. destruct H as (_ & H).
  destruct (H 0%nat eq_refl) as (_ & Hdeep & _).
  destruct Hdeep as (evs & Ht & Hno & _); [reflexivity|].
  exists evs. split; [exact Ht|exact Hno].
Defined.

(** ** A funding flow opened locally *)

Section InitFundingFacts.

Variable Error : error → string.
Variable hex : bytes → string.
Variable EstimateFeePerKW : Z → error + Z.
Variable ourDustLimit : Z.
Variable GenesisHash : bytes.
Variable FFAnnounceChannel : Z.
Variable Capacity : lnwallet.ChannelReservation → Z.
Variable nextPendingChanID : bytes.
Variable InitChannelReservation :
  funding.InitFundingReserveMsg → error + lnwallet.ChannelReservation.

Local Abbreviation init :=
  (handleInitFundingMsg Error hex EstimateFeePerKW ourDustLimit GenesisHash
     FFAnnounceChannel Capacity nextPendingChanID InitChannelReservation).


(** X28: a local request that gets a fee estimate, a free pending channel
    id, a shutdown script and a reservation, and whose [OpenChannel] is sent,
    registers one context under the peer and the id, with the return time as
    its timestamp, and tells the caller no error.  The id is the caller's,
    or the generated one when the caller's is all zeroes.  Every value the
    caller left at zero is replaced by the configured default for the
    reservation's capacity, a value the caller set is kept, and the context
    and the message sent to the peer carry the same delay, minimum HTLC,
    maximum value in flight, maximum number of HTLCs and channel amount.
    The channel is flagged for announcement exactly when the request is not
    private. *)
Theorem X28_init_funding_registers_and_opens
    (now : Time) (msg : funding.initFundingMsg) (f : fundingManager)
    (fee : Z) (shutdown : bytes) (rsv : lnwallet.ChannelReservation) :
  let r := funding.req msg in
  let p := funding.peer msg in
  let key := newSerializedKey (IdentityKey p) in
  let id := if decide (funding.pendingChanID r = zeroID)
            then nextPendingChanID else funding.pendingChanID r in
  let capacity := Capacity rsv in
  EstimateFeePerKW 3 = inr fee →
  (funding.pendingChanID r ≠ zeroID →
   lookupReservation f key (funding.pendingChanID r) = None) →
  getUpfrontShutdownScript (EnableUpfrontShutdown (cfg f)) p
    (funding.shutdownScript r) (NewAddressScript (cfg f)) = inr shutdown →
  (∀ req, InitChannelReservation req = inr rsv) →
  (∀ m, SendMessage p true m = None) →
  let out := init now msg f in
  let f' := out.2 in
  let l := nextLoc f in
  let ctx := ctxs f' l in
  out.1 = None
  ∧ lookupReservation f' key id = Some l
  ∧ (∀ k i, ¬ (k = key ∧ i = id) →
       lookupReservation f' k i = lookupReservation f k i)
  ∧ reservation ctx = rsv ∧ peer ctx = p ∧ lastUpdated ctx = now
  ∧ chanAmt ctx = capacity
  ∧ remoteCsvDelay ctx
    = (if funding.remoteCsvDelay r =? 0
       then RequiredRemoteDelay (cfg f) capacity
       else funding.remoteCsvDelay r)
  ∧ remoteMinHtlc ctx
    = (if funding.minHtlcIn r =? 0 then DefaultMinHtlcIn (cfg f)
       else funding.minHtlcIn r)
  ∧ remoteMaxValue ctx
    = (if funding.maxValueInFlight r =? 0
       then RequiredRemoteMaxValue (cfg f) capacity
       else funding.maxValueInFlight r)
  ∧ remoteMaxHtlcs ctx
    = (if funding.maxHtlcs r =? 0
       then RequiredRemoteMaxHTLCs (cfg f) capacity
       else funding.maxHtlcs r)
  ∧ maxLocalCsv ctx
    = (if funding.maxLocalCsv r =? 0 then MaxLocalCSVDelay (cfg f)
       else funding.maxLocalCsv r)
  ∧ ∃ req open,
      trace f' =
        trace f ++
        [EvInitChannelReservation req;
         EvSetOurUpfrontShutdown (lnwallet.reservationID rsv) shutdown;
         EvSendMessage (IdentityKey p) true (lnwire.MsgOpenChannel open)]
      ∧ lnwallet.LocalFundingAmt req = funding.localFundingAmt r
      ∧ lnwallet.RemoteFundingAmt req = 0
      ∧ lnwallet.PendingChanID req = id
      ∧ lnwire.PendingChannelID open = id
      ∧ lnwire.FundingAmount open = chanAmt ctx
      ∧ lnwire.CsvDelay open = remoteCsvDelay ctx
      ∧ lnwire.HtlcMinimum open = remoteMinHtlc ctx
      ∧ lnwire.MaxValueInFlight open = remoteMaxValue ctx
      ∧ lnwire.MaxAcceptedHTLCs open = remoteMaxHtlcs ctx
      ∧ lnwire.ChannelReserve open
        = RequiredRemoteChanReserve (cfg f) capacity ourDustLimit
      ∧ lnwire.UpfrontShutdownScript open = shutdown
      ∧ lnwire.ChannelFlags open = lnwallet.Flags req
      ∧ lnwire.ChannelFlags open
        = (if funding.private r then 0 else FFAnnounceChannel).
Proof.
  cbv zeta. intros Hfee Hfresh Hshut Hinit Hsend.
  unfold handleInitFundingMsg, getReservationCtx. rewrite Hfee. cbv zeta.
  set (id := if decide (funding.pendingChanID (funding.req msg) = zeroID)
             then nextPendingChanID
             else funding.pendingChanID (funding.req msg)).
  match goal with
  | |- context [match ?c with inl e => (Some e, f) | inr chanID => _ end] =>
    assert (Hc : c = inr id)
  end.
  { unfold id. case_decide as Hz; [reflexivity|].
    now rewrite (Hfresh Hz). }
  rewrite Hc. clearbody id. clear Hc.
  rewrite Hshut. rewrite Hinit.
  cbn [cfg emit with_trace with_ctxs with_activeReservations].
  rewrite Hsend.
  cbn [fst snd].
  split; [reflexivity|].
  split.
  { unfold lookupReservation. cbn. rewrite lookup_insert_eq. cbn.
    apply lookup_insert_eq. }
  split.
  { intros k i Hne. unfold lookupReservation. cbn.
    destruct (decide (k = newSerializedKey (IdentityKey (funding.peer msg))))
      as [->|Hk].
    - rewrite lookup_insert_eq. cbn.
      rewrite lookup_insert_ne by (intros E; apply Hne; auto).
      now destruct (activeReservations f
                      !! newSerializedKey (IdentityKey (funding.peer msg))).
    - now rewrite lookup_insert_ne by congruence. }
  cbn. unfold store. rewrite !decide_True by reflexivity. cbn.
  repeat (split; [reflexivity|]).
  eexists _, _. split; [rewrite <- !app_assoc; reflexivity|].
  cbn. repeat (split; [reflexivity|]).
  now destruct (funding.private (funding.req msg)).
Qed.

(** X29: when the [OpenChannel] of a local request cannot be sent, the
    caller is told "unable to send funding request message" and the
    reservation just registered is cancelled in the wallet: if the wallet
    cancels it, no context is left under the peer and the id; if the wallet
    refuses, the context stays registered although the caller was told the
    flow failed.  No other entry of the registry changes. *)
Theorem X29_init_funding_send_failure
    (now : Time) (msg : funding.initFundingMsg) (f : fundingManager)
    (fee : Z) (shutdown : bytes) (rsv : lnwallet.ChannelReservation)
    (err : error) :
  let r := funding.req msg in
  let p := funding.peer msg in
  let key := newSerializedKey (IdentityKey p) in
  let id := if decide (funding.pendingChanID r = zeroID)
            then nextPendingChanID else funding.pendingChanID r in
  EstimateFeePerKW 3 = inr fee →
  (funding.pendingChanID r ≠ zeroID →
   lookupReservation f key (funding.pendingChanID r) = None) →
  getUpfrontShutdownScript (EnableUpfrontShutdown (cfg f)) p
    (funding.shutdownScript r) (NewAddressScript (cfg f)) = inr shutdown →
  (∀ req, InitChannelReservation req = inr rsv) →
  (∀ m, SendMessage p true m = Some err) →
  let out := init now msg f in
  let f' := out.2 in
  out.1 = Some (Errorf "unable to send funding request message: %v"
                       [Error err])
  ∧ (∀ k i, ¬ (k = key ∧ i = id) →
       lookupReservation f' k i = lookupReservation f k i)
  ∧ (∃ evs, trace f' = trace f ++ evs
            ∧ EvCancel (lnwallet.reservationID rsv) ∈ evs
            ∧ Forall (fun ev => isErrChan ev = false) evs)
  ∧ (lnwallet.Cancel rsv = None → lookupReservation f' key id = None)
  ∧ (lnwallet.Cancel rsv ≠ None →
     lookupReservation f' key id = Some (nextLoc f)).
Proof.
  cbv zeta. intros Hfee Hfresh Hshut Hinit Hsend.
  unfold handleInitFundingMsg, getReservationCtx. rewrite Hfee. cbv zeta.
  set (id := if decide (funding.pendingChanID (funding.req msg) = zeroID)
             then nextPendingChanID
             else funding.pendingChanID (funding.req msg)).
  match goal with
  | |- context [match ?c with inl e => (Some e, f) | inr chanID => _ end] =>
    assert (Hc : c = inr id)
  end.
  { unfold id. case_decide as Hz; [reflexivity|].
    now rewrite (Hfresh Hz). }
  rewrite Hc. clearbody id. clear Hc.
  rewrite Hshut. rewrite Hinit.
  cbn [cfg emit with_trace with_ctxs with_activeReservations].
  rewrite Hsend.
  match goal with
  | |- context [cancelReservationCtx Error hex ?pk id false ?g] =>
    pose proof (cancelReservationCtx_registry Error hex pk id false g)
      as Hcancel;
    assert (Hreg : ∀ k i, lookupReservation g k i =
              if decide (k = newSerializedKey pk ∧ i = id)
              then Some (nextLoc f) else lookupReservation f k i);
    [|assert (Hctx : reservation (ctxs g (nextLoc f)) = rsv)
        by (cbn; unfold store; now rewrite decide_True);
      assert (Htr : ∃ pre, trace g = trace f ++ pre
                ∧ Forall (fun ev => isErrChan ev = false) pre)
        by (eexists; split;
            [cbn; rewrite <- !app_assoc; reflexivity|repeat constructor]);
      destruct (cancelReservationCtx Error hex pk id false g)
        as [[c e] g2] eqn:Hcall; clear Hcall; revert Hreg Hcancel Hctx Htr;
      generalize g; intros g0 Hreg Hcancel Hctx Htr]
  end.
  { intros k i. unfold lookupReservation. cbn.
    destruct (decide (k = newSerializedKey (IdentityKey (funding.peer msg))))
      as [->|Hk].
    - rewrite lookup_insert_eq. cbn.
      destruct (decide (i = id)) as [->|Hi].
      + rewrite lookup_insert_eq. now rewrite decide_True.
      + rewrite lookup_insert_ne by congruence.
        rewrite decide_False by (intros [_ ?]; contradiction).
        now destruct (activeReservations f
                        !! newSerializedKey (IdentityKey (funding.peer msg))).
    - rewrite lookup_insert_ne by congruence.
      now rewrite decide_False by (intros [? _]; contradiction). }
  cbv zeta in Hcancel. destruct Hcancel as (Hc2 & _ & _ & _ & Hcancel).
  rewrite (Hreg _ _), decide_True in Hcancel by auto.
  rewrite Hctx in Hcancel. destruct Hcancel as (Ht2 & Hcancel).
  rewrite andb_false_r in Ht2.
  destruct Htr as (pre & Hpre & Hnoerr).
  cbn [fst snd].
  split; [reflexivity|].
  assert (Hlk : ∀ k i, lookupReservation (updateTimestamp (nextLoc f) now g2)
                         k i = lookupReservation g2 k i) by reflexivity.
  assert (Htrace : ∃ evs, trace (updateTimestamp (nextLoc f) now g2)
                          = trace f ++ evs
                   ∧ EvCancel (lnwallet.reservationID rsv) ∈ evs
                   ∧ Forall (fun ev => isErrChan ev = false) evs).
  { exists (pre ++ [EvCancel (lnwallet.reservationID rsv)]).
    split; [cbn; rewrite Ht2, Hpre; cbn; now rewrite <- app_assoc|].
    split; [apply elem_of_app; right; now left|].
    apply Forall_app. split; [exact Hnoerr|repeat constructor]. }
  destruct (lnwallet.Cancel rsv) as [ce|] eqn:Hcan.
  - destruct Hcancel as (_ & _ & Hsame).
    assert (Hlk2 : ∀ k i, lookupReservation g2 k i = lookupReservation g0 k i)
      by (intros k i; unfold lookupReservation; now rewrite Hsame).
    split.
    { intros k i Hne. rewrite Hlk, Hlk2, Hreg. now rewrite decide_False. }
    split; [exact Htrace|].
    split; [discriminate|]. intros _.
    rewrite Hlk, Hlk2, Hreg. now rewrite decide_True.
  - destruct Hcancel as (_ & _ & Hgone).
    split.
    { intros k i Hne. rewrite Hlk, Hgone, decide_False by exact Hne.
      rewrite Hreg. now rewrite decide_False. }
    split; [exact Htrace|].
    split; [|congruence]. intros _.
    rewrite Hlk, Hgone. now rewrite decide_True.
Qed.

End InitFundingFacts.


Lemma X28_init_funding_registers_and_opens_witness :
  let out := exampleInitFunding exampleLater (exampleInit zeroID) oneManager in
  out.1 = None
  ∧ lookupReservation out.2 (newSerializedKey (IdentityKey examplePeer))
      otherPendingID = Some 1%nat
  ∧ remoteCsvDelay (ctxs out.2 1%nat) = 144.
Proof.
  pose proof (X28_init_funding_registers_and_opens exampleError exampleHex
                (fun _ => inr 2500) 573 (replicate 32 0) 1
                (fun _ => 1000000) otherPendingID
                (fun _ => inr (exampleReservation 9 false false None None))
                exampleLater (exampleInit zeroID) oneManager 2500 []
                (exampleReservation 9 false false None None)) as H.
  cbv zeta beta in H.
  destruct H as (H1 & H2 & _ & _ & _ & _ & _ & H3 & _);
    try reflexivity; try (intros; reflexivity).
  cbv zeta. split; [exact H1|]. split; [exact H2|exact H3].
Defined.

Lemma X29_init_funding_send_failure_witness :
  let out := exampleInitFunding exampleLater offlineInit oneManager in
  out.1 = Some (Errorf "unable to send funding request message: %v"
                  [exampleError (ENew "peer exiting")])
  ∧ lookupReservation out.2 (newSerializedKey (IdentityKey offlinePeer))
      otherPendingID = None.
Proof.
  pose proof (X29_init_funding_send_failure exampleError exampleHex
                (fun _ => inr 2500) 573 (replicate 32 0) 1
                (fun _ => 1000000) otherPendingID
                (fun _ => inr (exampleReservation 9 false false None None))
                exampleLater offlineInit oneManager 2500 []
                (exampleReservation 9 false false None None)
                (ENew "peer exiting")) as H.
  cbv zeta beta in H.
  destruct H as (H1 & _ & _ & H2 & _);
    try reflexivity; try (intros; reflexivity).
  cbv zeta. split; [exact H1|]. now apply H2.
Defined.

(** ** Adding the channel to the router's graph *)

Section RouterGraphFacts.

Variable Error : error → string.
Variable chainHash : bytes.
Variable IDKey : bytes.
Variable SignMessage : bytes → bytes → error + bytes.
Variable DefaultRoutingPolicy : announce.ForwardingPolicy.
Variable UpdateDataToSign : announce.ChannelUpdate → error + bytes.
Variable AnnDataToSign : announce.ChannelAnnouncement → error + bytes.
Variable NewSigFromSignature : bytes → error + bytes.
Variable NewRawFeatureVector : bytes.
Variable ChanUpdateOptionMaxHtlc : Z.
Variable nowUnix : Z.

(** The HTLC bounds and the flags of the update are the ones asked for. *)
Lemma newChanAnnouncement_update
    (localPubKey remotePubKey localFundingKey remoteFundingKey : bytes)
    (shortChanID : ShortChannelID) (chanID : bytes) (fwdMin fwdMax : Z)
    (ann : announce.chanAnnouncement) :
  newChanAnnouncement Error chainHash IDKey SignMessage DefaultRoutingPolicy
    UpdateDataToSign AnnDataToSign NewSigFromSignature NewRawFeatureVector
    ChanUpdateOptionMaxHtlc nowUnix localPubKey remotePubKey localFundingKey
    remoteFundingKey shortChanID chanID fwdMin fwdMax = inr ann →
  announce.HtlcMinimumMsat (announce.chanUpdateAnn ann) = fwdMin
  ∧ announce.HtlcMaximumMsat (announce.chanUpdateAnn ann) = fwdMax
  ∧ announce.MessageFlags (announce.chanUpdateAnn ann)
    = ChanUpdateOptionMaxHtlc
  ∧ announce.uShortChannelID (announce.chanUpdateAnn ann) = shortChanID.
Proof.
  intros Hann. unfold newChanAnnouncement in Hann.
  repeat match type of Hann with
         | match ?scrutinee with inl _ => _ | inr _ => _ end = _ =>
           destruct scrutinee; [discriminate|]
         end.
  injection Hann as <-. cbn. auto.
Qed.

Variable NewChanIDFromOutPoint : OutPoint → bytes.
Variable NewMSatFromSatoshis : Z → Z.
Variable MinHTLCOut : Z.
Variable IdentityPub : channeldb.OpenChannel → bytes.
Variable LocalChanCfg : channeldb.OpenChannel → channeldb.ChannelConfig.
Variable RemoteChanCfg : channeldb.OpenChannel → channeldb.ChannelConfig.
Variable Capacity : channeldb.OpenChannel → Z.
Variable IsOutdatedOrIgnored : error → bool.

Local Abbreviation add :=
  (router.addToRouterGraph Error chainHash IDKey SignMessage
     DefaultRoutingPolicy UpdateDataToSign AnnDataToSign NewSigFromSignature
     NewRawFeatureVector ChanUpdateOptionMaxHtlc nowUnix
     NewChanIDFromOutPoint NewMSatFromSatoshis MinHTLCOut IdentityPub
     LocalChanCfg RemoteChanCfg Capacity IsOutdatedOrIgnored).

(** X30: the channel update that [addToRouterGraph] hands to the gossiper
    advertises as minimum HTLC the larger of the minimum the channel allows
    us and of our policy's [MinHTLCOut], and as maximum HTLC the smaller of
    the channel's maximum pending amount and of its capacity in
    millisatoshi: never less than our policy, never more than the channel
    holds.  The update is handed over only after the announcement was, and
    only if the gossiper answered the announcement with no error or with one
    the router marks outdated or ignored.  The call succeeds exactly when the
    announcement could be built and both were answered so, and then exactly
    the announcement and the update were handed over; it returns the
    shutdown error only when [quit] came before an answer. *)
Theorem X30_router_graph_update_bounds
    (annOutcome updateOutcome : sendOutcome)
    (completeChan : channeldb.OpenChannel) (shortChanID : ShortChannelID) :
  let out := add annOutcome updateOutcome completeChan shortChanID in
  let localCfg := channeldb.Constraints (LocalChanCfg completeChan) in
  let capacityMSat := NewMSatFromSatoshis (Capacity completeChan) in
  (∀ u, GossipChannelUpdate u ∈ out.1 →
     announce.HtlcMinimumMsat u = Z.max (channeldb.MinHTLC localCfg) MinHTLCOut
     ∧ announce.HtlcMaximumMsat u
       = Z.min (channeldb.MaxPendingAmount localCfg) capacityMSat
     ∧ MinHTLCOut ≤ announce.HtlcMinimumMsat u
     ∧ announce.HtlcMaximumMsat u ≤ capacityMSat
     ∧ accepted IsOutdatedOrIgnored annOutcome)
  ∧ (out.2 = None ↔
     (∃ a u,
        out.1 = [GossipChannelAnnouncement a (Capacity completeChan)
                   (channeldb.FundingOutpoint completeChan);
                 GossipChannelUpdate u])
     ∧ accepted IsOutdatedOrIgnored annOutcome
     ∧ accepted IsOutdatedOrIgnored updateOutcome)
  ∧ (out.2 = Some ErrFundingManagerShuttingDown →
     annOutcome = SendQuit ∨ updateOutcome = SendQuit)
  ∧ (length out.1 ≤ 2)%nat.
Proof.
  cbv zeta. unfold router.addToRouterGraph. cbv zeta.
  set (fwdMin :=
    if channeldb.MinHTLC (channeldb.Constraints (LocalChanCfg completeChan))
       <? MinHTLCOut
    then MinHTLCOut
    else channeldb.MinHTLC (channeldb.Constraints (LocalChanCfg completeChan))).
  set (fwdMax :=
    if NewMSatFromSatoshis (Capacity completeChan)
       <? channeldb.MaxPendingAmount
            (channeldb.Constraints (LocalChanCfg completeChan))
    then NewMSatFromSatoshis (Capacity completeChan)
    else channeldb.MaxPendingAmount
           (channeldb.Constraints (LocalChanCfg completeChan))).
  assert (Hmin : fwdMin
                 = Z.max (channeldb.MinHTLC
                            (channeldb.Constraints (LocalChanCfg completeChan)))
                         MinHTLCOut)
    by (unfold fwdMin; destruct (Z.ltb_spec
          (channeldb.MinHTLC (channeldb.Constraints (LocalChanCfg completeChan)))
          MinHTLCOut); lia).
  assert (Hmax : fwdMax
                 = Z.min (channeldb.MaxPendingAmount
                            (channeldb.Constraints (LocalChanCfg completeChan)))
                         (NewMSatFromSatoshis (Capacity completeChan)))
    by (unfold fwdMax; destruct (Z.ltb_spec
          (NewMSatFromSatoshis (Capacity completeChan))
          (channeldb.MaxPendingAmount
             (channeldb.Constraints (LocalChanCfg completeChan)))); lia).
  clearbody fwdMin fwdMax.
  destruct (newChanAnnouncement Error chainHash IDKey SignMessage
              DefaultRoutingPolicy UpdateDataToSign AnnDataToSign
              NewSigFromSignature NewRawFeatureVector ChanUpdateOptionMaxHtlc
              nowUnix IDKey (IdentityPub completeChan)
              (channeldb.MultiSigKey (LocalChanCfg completeChan))
              (channeldb.MultiSigKey (RemoteChanCfg completeChan))
              shortChanID
              (NewChanIDFromOutPoint (channeldb.FundingOutpoint completeChan))
              fwdMin fwdMax) as [err|ann] eqn:Hann.
  { cbn. split; [intros u Hin; now apply elem_of_nil in Hin|].
    split; [split; [discriminate|intros ((a & u & [=]) & _)]|].
    split; [discriminate|lia]. }
  destruct (newChanAnnouncement_update _ _ _ _ _ _ _ _ _ Hann)
    as (Hlo & Hhi & _).
  assert (Hupd : ∀ u, u = announce.chanUpdateAnn ann →
            announce.HtlcMinimumMsat u
            = Z.max (channeldb.MinHTLC
                       (channeldb.Constraints (LocalChanCfg completeChan)))
                    MinHTLCOut
            ∧ announce.HtlcMaximumMsat u
              = Z.min (channeldb.MaxPendingAmount
                         (channeldb.Constraints (LocalChanCfg completeChan)))
                      (NewMSatFromSatoshis (Capacity completeChan))
            ∧ MinHTLCOut ≤ announce.HtlcMinimumMsat u
            ∧ announce.HtlcMaximumMsat u
              ≤ NewMSatFromSatoshis (Capacity completeChan))
    by (intros u ->; rewrite Hlo, Hhi, Hmin, Hmax; repeat split; lia).
  assert (Hin2 : ∀ (u : announce.ChannelUpdate) a c o,
            GossipChannelUpdate u
            ∈ [GossipChannelAnnouncement a c o;
               GossipChannelUpdate (announce.chanUpdateAnn ann)] →
            u = announce.chanUpdateAnn ann).
  { intros u a c o Hin.
    apply elem_of_cons in Hin as [Hin|Hin]; [discriminate|].
    apply elem_of_cons in Hin as [Hin|Hin];
      [congruence|now apply elem_of_nil in Hin]. }
  assert (Hin1 : ∀ (u : announce.ChannelUpdate) a c o,
            GossipChannelUpdate u ∈ [GossipChannelAnnouncement a c o] →
            False).
  { intros u a c o Hin.
    apply elem_of_cons in Hin as [Hin|Hin];
      [discriminate|now apply elem_of_nil in Hin]. }
  destruct annOutcome as [[e1|]|]; cbn;
    try destruct (IsOutdatedOrIgnored e1) eqn:H1; cbn;
    try (destruct updateOutcome as [[e2|]|]; cbn;
         try destruct (IsOutdatedOrIgnored e2) eqn:H2; cbn).
  all: split;
    [intros u Hin;
     first [exfalso; exact (Hin1 _ _ _ _ Hin)
           |destruct (Hupd u (Hin2 _ _ _ _ Hin)) as (? & ? & ? & ?);
            repeat split; auto]|].
  all: split;
    [split;
     [try discriminate; intros _; repeat split; eauto
     |intros ((a & u & Hl) & Ha & Hu);
      first [reflexivity|discriminate|contradiction|congruence]]|].
  all: split; [first [discriminate|auto]|lia].
Qed.

End RouterGraphFacts.

Lemma X30_router_graph_update_bounds_witness :
  exampleAddToRouterGraph.2 = None
  ∧ ∀ u, GossipChannelUpdate u ∈ exampleAddToRouterGraph.1 →
      announce.HtlcMinimumMsat u = 1000
      ∧ announce.HtlcMaximumMsat u = 1000000000.
Proof.
  pose proof (X30_router_graph_update_bounds (fun _ => "error"%string)
                (replicate 32 0) exampleLocalKey (fun _ m => inr m)
                examplePolicy (fun _ => inr [1]) (fun _ => inr [2]) inr [] 1
                1600000000 exampleNewChanID (fun sat => sat * 1000) 1000
                (fun _ => exampleRemoteKey) (fun _ => exampleLocalCfg)
                (fun _ => exampleLocalCfg) (fun _ => 1000000) (fun _ => true)
                (SendAnswered (Some (ENew "ignoring outdated announcement")))
                (SendAnswered None) initiatorChannel exampleShortChanID)
    as H.
  cbv zeta beta in H. destruct H as (Hb & _ & _).
  split; [reflexivity|].
  intros u Hin. destruct (Hb u Hin) as (Hlo & Hhi & _).
  split; [exact Hlo|exact Hhi].
Defined.
